(** * gamv: driving the GSLIB variogram engine and reshaping its output

    A shallow embedding of [sandbox/gamv.py].  The function [gamv] is a
    straight-line pipeline: deep-copy the parameter dictionary, materialise
    an in-memory data array, validate the variogram table, write the
    parameter file, run the external program, read the output file back
    with pandas, label the rows, and null out degenerate cells.

    Modelling conventions.
    - A Python [str] is a Rocq [string] holding its UTF-8 encoding; [bytes]
      is [list byte].
    - Python floats are the kernel's binary64 floats.  The text rendering of
      floats ([str.format], [np.savetxt], [DataFrame.to_string]) is not
      modelled: a file line made of numbers is kept as the list of numbers.
    - The entries of [ivpar] are integers or [None] (the docstring's
      "2D array of int", with an optional cut); [CInt] holds a Python
      integer, and an array without [None] has an integer dtype when its
      entries fit a 64-bit integer type.
    - The parameter dictionary and the arrays it refers to live in a heap
      of objects; [copy.deepcopy] allocates copies.  Arrays built by
      [np.array] are fresh and held in local variables only, so they are
      passed by value.
    - [assert] statements are executed (no [-O]); opening a file for writing
      succeeds; the plotting code after [set_index] is left out. *)

From Stdlib Require Import ZArith List String Ascii Bool Lia PrimFloat DecimalString.
From Stdlib.Strings Require Import Byte.
From stdpp Require Import base list strings.

Open Scope Z_scope.

(** ** Values and exceptions *)

(** An entry of the [ivpar] table. *)
Inductive cell : Type :=
| CNone
| CInt (z : Z).

(** A cell of a pandas table: missing ([None]/[NaN]), an integer or a float. *)
Inductive value : Type :=
| VNone
| VInt (z : Z)
| VFloat (x : float).

Definition value_of_cell (c : cell) : value :=
  match c with
  | CNone => VNone
  | CInt z => VInt z
  end.

Inductive exn : Type :=
| AssertionError
| NameError (msg : string)
| TypeError
| IndexError
| ValueError
| KeyError (key : string)
| ZeroDivisionError
| OSError
| FileNotFoundError
| UnicodeDecodeError.

(** The outcome of an expression that may raise. *)
Inductive res (A : Type) : Type :=
| Ok (x : A)
| Raise (e : exn).
Arguments Ok {A} x.
Arguments Raise {A} e.

#[global] Instance res_ret : MRet res := fun A x => Ok x.
#[global] Instance res_bind : MBind res := fun A B f m =>
  match m with
  | Ok x => f x
  | Raise e => Raise e
  end.

Definition is_raise {A} (r : res A) : bool :=
  match r with
  | Ok _ => false
  | Raise _ => true
  end.

(** [assert c] *)
Definition py_assert (c : bool) : res unit :=
  if c then Ok tt else Raise AssertionError.

(** ['{}'.format(i)] for an integer. *)
Definition str_of_Z (z : Z) : string := NilZero.string_of_int (Z.to_int z).
Definition str_of_nat (n : nat) : string := NilZero.string_of_uint (Nat.to_uint n).

(** [sep.join(xs)] *)
Fixpoint str_join (sep : string) (xs : list string) : string :=
  match xs with
  | [] => ""
  | [x] => x
  | x :: rest => x +:+ sep +:+ str_join sep rest
  end.

(** [s in t] for strings: [s] occurs in [t] as a contiguous part. *)
Definition str_contains (s t : string) : Prop :=
  exists pre post, t = pre +:+ s +:+ post.

(** ** [bytes.decode('utf-8')]

    The strict decoder accepts exactly the well-formed byte sequences of
    the Unicode standard (no overlong forms, no surrogates, nothing above
    U+10FFFF). *)

Definition byte_in (lo hi : N) (b : byte) : bool :=
  ((lo <=? Byte.to_N b) && (Byte.to_N b <=? hi))%N.

Definition is_cont (b : byte) : bool := byte_in 128 191 b.

(** For a lead byte: the range allowed for the second byte and the number
    of continuation bytes after the second one. *)
Definition utf8_lead (n : N) : option (N * N * nat) :=
  (if n <? 194 then None
   else if n <=? 223 then Some (128, 191, 0%nat)
   else if n =? 224 then Some (160, 191, 1%nat)
   else if n =? 237 then Some (128, 159, 1%nat)
   else if n <=? 239 then Some (128, 191, 1%nat)
   else if n =? 240 then Some (144, 191, 2%nat)
   else if n <=? 243 then Some (128, 191, 2%nat)
   else if n =? 244 then Some (128, 143, 2%nat)
   else None)%N.

Fixpoint utf8_valid (bs : list byte) : bool :=
  match bs with
  | [] => true
  | b0 :: r0 =>
    if (Byte.to_N b0 <? 128)%N then utf8_valid r0
    else
      match utf8_lead (Byte.to_N b0), r0 with
      | Some (lo, hi, O), b1 :: r1 =>
        byte_in lo hi b1 && utf8_valid r1
      | Some (lo, hi, S O), b1 :: b2 :: r2 =>
        byte_in lo hi b1 && is_cont b2 && utf8_valid r2
      | Some (lo, hi, S (S _)), b1 :: b2 :: b3 :: r3 =>
        byte_in lo hi b1 && is_cont b2 && is_cont b3 && utf8_valid r3
      | _, _ => false
      end
  end.

Definition decode_utf8 (bs : list byte) : res string :=
  if utf8_valid bs then Ok (string_of_list_byte bs) else Raise UnicodeDecodeError.

(** ** NumPy *)

(** [np.arange(start, stop, step)] on integers: [ceil((stop-start)/step)]
    elements; a zero step is an error. *)
Definition np_arange (start stop step : Z) : res (list Z) :=
  if step =? 0 then Raise ZeroDivisionError
  else Ok (map (fun k => start + Z.of_nat k * step)
               (seq 0 (Z.to_nat (- ((start - stop) / step))))).

(** [range(n)] *)
Definition py_range (n : nat) : list Z := map Z.of_nat (seq 0 n).

(** [np.repeat(xs, k)]: each element [k] times; a negative count is an error. *)
Definition np_repeat {A} (xs : list A) (k : Z) : res (list A) :=
  if k <? 0 then Raise ValueError
  else Ok (concat (map (replicate (Z.to_nat k)) xs)).

(** [np.tile(xs, n)] *)
Definition np_tile {A} (xs : list A) (n : nat) : list A :=
  concat (replicate n xs).

(** The element type NumPy infers for a table of cells, as far as the
    assignment of [None] to an element goes.  [DInt] is an integer type
    (64-bit, signed or unsigned), which refuses [None].  [DObject] is a type
    that takes it: the object type, which NumPy chooses when the table holds
    a [None] or an integer that fits in no 64-bit type, and also the float
    type that it chooses for a mix of integers that fit in no common 64-bit
    type, which stores [None] as a missing value. *)
Inductive dtype : Type := DInt | DObject.

Definition is_none (c : cell) : bool :=
  match c with
  | CNone => true
  | CInt _ => false
  end.

(** The integers of a signed, and of an unsigned, 64-bit type. *)
Definition fits_int64 (c : cell) : bool :=
  match c with
  | CInt z => (- 2 ^ 63 <=? z) && (z <? 2 ^ 63)
  | CNone => false
  end.

Definition fits_uint64 (c : cell) : bool :=
  match c with
  | CInt z => (0 <=? z) && (z <? 2 ^ 64)
  | CNone => false
  end.

Definition infer_dtype (rows : list (list cell)) : dtype :=
  if existsb (existsb is_none) rows then DObject
  else if forallb (forallb fits_int64) rows || forallb (forallb fits_uint64) rows then DInt
  else DObject.

(** A NumPy array of at most two dimensions built from nested lists: its
    shape and its rows. *)
Record nparray (A : Type) : Type := MkArr {
  shape : list nat;
  rows : list (list A)
}.
Arguments MkArr {A} shape rows.
Arguments shape {A} _.
Arguments rows {A} _.

(** [np.array(rows)] for a list of lists: the empty list gives a
    one-dimensional array of shape [(0,)], rows of one length [m] give shape
    [(n, m)], and rows of different lengths are refused. *)
Definition np_array {A} (rs : list (list A)) : res (nparray A) :=
  match rs with
  | [] => Ok (MkArr [0%nat] [])
  | r :: rest =>
    if forallb (fun r' => Nat.eqb (length r') (length r)) rest
    then Ok (MkArr [length rs; length r] rs)
    else Raise ValueError
  end.

(** [a.shape[i]] *)
Definition shape_at {A} (a : nparray A) (i : nat) : res nat :=
  match shape a !! i with
  | Some n => Ok n
  | None => Raise IndexError
  end.

(** [a[:, j]]: column [j] of a two-dimensional array whose rows have more
    than [j] entries. *)
Definition column {A} (j : nat) (rs : list (list A)) : res (list A) :=
  mapM (M := res) (fun r => match r !! j with Some c => Ok c | None => Raise IndexError end) rs.

(** The array data handed to [gamv] when the data source is in memory. *)
Record ndarray : Type := MkNd {
  nd_shape : list nat;
  nd_rows : list (list float)
}.

(** ** pandas *)

(** A table stored by columns, in column order.  [index] holds the levels
    of the row index that [set_index] made, each with its name; it is empty
    for the default index, which numbers the rows. *)
Record DataFrame : Type := MkDf {
  nrows : nat;
  columns : list (string * list value);
  index : list (string * list value)
}.

Definition col_names (df : DataFrame) : list string := map fst (columns df).

(** [df[c]] *)
Fixpoint assoc_col (c : string) (cols : list (string * list value)) : option (list value) :=
  match cols with
  | [] => None
  | (c', vs) :: rest => if String.eqb c c' then Some vs else assoc_col c rest
  end.

Definition df_col (c : string) (df : DataFrame) : res (list value) :=
  match assoc_col c (columns df) with
  | Some vs => Ok vs
  | None => Raise (KeyError c)
  end.

(** The cell of column [c] in row [k], when there is one. *)
Definition cell_at (df : DataFrame) (c : string) (k : nat) : option value :=
  vs ← assoc_col c (columns df); vs !! k.

(** The entry of row [k] in the index level [c], when there is one. *)
Definition level_at (df : DataFrame) (c : string) (k : nat) : option value :=
  vs ← assoc_col c (index df); vs !! k.

Fixpoint put_col (c : string) (vs : list value) (cols : list (string * list value))
  : list (string * list value) :=
  match cols with
  | [] => [(c, vs)]
  | (c', vs') :: rest =>
    if String.eqb c c' then (c', vs) :: rest else (c', vs') :: put_col c vs rest
  end.

(** [df[c] = vs] for an array [vs]: the length must be the table's; an
    existing column is replaced in place, a new one is added last.  A table
    without rows is the exception: it takes the rows of a non-empty [vs],
    and its other columns are filled with missing values. *)
Definition df_set_col (c : string) (vs : list value) (df : DataFrame) : res DataFrame :=
  if Nat.eqb (nrows df) 0 && negb (Nat.eqb (length vs) 0)
  then Ok (MkDf (length vs)
                (put_col c vs (map (fun cv => (cv.1, replicate (length vs) VNone)) (columns df)))
                (index df))
  else if Nat.eqb (length vs) (nrows df)
  then Ok (MkDf (nrows df) (put_col c vs (columns df)) (index df))
  else Raise ValueError.

(** [df[c] = v] for a scalar [v]. *)
Definition df_set_scalar (c : string) (v : value) (df : DataFrame) : DataFrame :=
  MkDf (nrows df) (put_col c (replicate (nrows df) v) (columns df)) (index df).

(** [x == 0] on a cell; a missing value is not equal to anything. *)
Definition value_is_zero (v : value) : bool :=
  match v with
  | VNone => false
  | VInt z => z =? 0
  | VFloat x => PrimFloat.eqb x 0%float
  end.

(** [x == i] on a cell, for an integer [i]. *)
Definition value_eq_int (i : Z) (v : value) : bool :=
  match v with
  | VInt z => z =? i
  | _ => false
  end.

(** The entries of [vs] selected by [mask] replaced by [v]. *)
Definition mask_set (mask : list bool) (v : value) (vs : list value) : list value :=
  imap (fun k old => if default false (mask !! k) then v else old) vs.

(** [df.loc[mask, cs] = v]: in the columns named in [cs], the rows selected
    by [mask] take the value [v]. *)
Definition df_loc_set (mask : list bool) (cs : list string) (v : value) (df : DataFrame)
  : DataFrame :=
  MkDf (nrows df)
       (map (fun '(c, vs) => if existsb (String.eqb c) cs then (c, mask_set mask v vs) else (c, vs))
            (columns df))
       (index df).

(** [df.set_index(keys)], with the defaults [drop=True] and
    [append=False]: the key columns become the levels of the index, in the
    order of [keys], and are no longer columns; a key that is not a column
    is an error. *)
Definition df_set_index (keys : list string) (df : DataFrame) : res DataFrame :=
  match find (fun k => negb (existsb (String.eqb k) (col_names df))) keys with
  | Some k => Raise (KeyError k)
  | None =>
    Ok (MkDf (nrows df)
             (List.filter (fun cv => negb (existsb (String.eqb cv.1) keys)) (columns df))
             (map (fun k => (k, default [] (assoc_col k (columns df)))) keys))
  end.

(** Lines of a text file kept by [skiprows]: line [i] is dropped when [i] is
    listed. *)
Fixpoint skip_lines {A} (i : nat) (skip : list Z) (lines : list A) : list A :=
  match lines with
  | [] => []
  | l :: rest =>
    if existsb (Z.eqb (Z.of_nat i)) skip
    then skip_lines (S i) skip rest
    else l :: skip_lines (S i) skip rest
  end.

(** A line without any field: empty, or blanks only. *)
Definition is_blank (ln : list value) : bool :=
  match ln with
  | [] => true
  | _ :: _ => false
  end.

(** The lines [read_csv] makes rows of: [skiprows] counts the lines of the
    file as they are, and of the lines it leaves the blank ones are dropped
    ([skip_blank_lines] is left at its default). *)
Definition kept_lines (skip : list Z) (lines : list (list value)) : list (list value) :=
  List.filter (fun ln => negb (is_blank ln)) (skip_lines 0 skip lines).

(** [pd.read_csv(path, header=None, skiprows=skip, delim_whitespace=True,
    names=names)] on a file given as its lines, each line as its fields:
    the kept lines become the rows, field [j] of a line goes to the [j]-th
    name, and a line with too few fields is padded with missing values.
    When no line is kept the table has the columns [names] and no row.
    Lines with more fields than names, which pandas turns into index
    columns or refuses, are not modelled: the statements about the cells
    read from a file are made for lines that are not longer than the list
    of names. *)
Definition read_csv (file : option (list (list value))) (skip : list Z) (names : list string)
  : res DataFrame :=
  match file with
  | None => Raise FileNotFoundError
  | Some lines =>
    let kept := kept_lines skip lines in
    Ok (MkDf (length kept)
             (imap (fun j name => (name, map (fun ln => default VNone (ln !! j)) kept)) names)
             [])
  end.

(** ** The parameter dictionary and the heap *)

Definition loc : Type := nat.

(** [parameters['datafl']]: a path, [None], or a NumPy array. *)
Inductive datasrc : Type :=
| DPath (path : string)
| DNoFile
| DArray (a : loc).

(** The dictionary of parameters.  The last six keys are the ones [gamv]
    adds to its working copy; the two rendered blocks are kept as the
    tables they render. *)
Record pardict : Type := MkPar {
  datafl : datasrc;
  icolx : Z;
  icoly : Z;
  icolz : Z;
  ivar : loc;
  tmin : float;
  tmax : float;
  outfl : option string;
  nlag : Z;
  xlag : float;
  xltol : float;
  ivdir : loc;
  standardize : Z;
  ivpar : loc;
  nvar : option nat;
  ivar_ : option string;
  nvarg : option nat;
  ivpar_ : option (list (list cell));
  ndir : option nat;
  ivdir_ : option (list (list float))
}.

Definition with_datafl (v : datasrc) (d : pardict) : pardict :=
  MkPar v (icolx d) (icoly d) (icolz d) (ivar d) (tmin d) (tmax d) (outfl d) (nlag d)
        (xlag d) (xltol d) (ivdir d) (standardize d) (ivpar d)
        (nvar d) (ivar_ d) (nvarg d) (ivpar_ d) (ndir d) (ivdir_ d).

Definition with_icol (x y z : Z) (d : pardict) : pardict :=
  MkPar (datafl d) x y z (ivar d) (tmin d) (tmax d) (outfl d) (nlag d)
        (xlag d) (xltol d) (ivdir d) (standardize d) (ivpar d)
        (nvar d) (ivar_ d) (nvarg d) (ivpar_ d) (ndir d) (ivdir_ d).

Definition with_ivar (v : loc) (d : pardict) : pardict :=
  MkPar (datafl d) (icolx d) (icoly d) (icolz d) v (tmin d) (tmax d) (outfl d) (nlag d)
        (xlag d) (xltol d) (ivdir d) (standardize d) (ivpar d)
        (nvar d) (ivar_ d) (nvarg d) (ivpar_ d) (ndir d) (ivdir_ d).

Definition with_outfl (v : option string) (d : pardict) : pardict :=
  MkPar (datafl d) (icolx d) (icoly d) (icolz d) (ivar d) (tmin d) (tmax d) v (nlag d)
        (xlag d) (xltol d) (ivdir d) (standardize d) (ivpar d)
        (nvar d) (ivar_ d) (nvarg d) (ivpar_ d) (ndir d) (ivdir_ d).

Definition with_refs (src : datasrc) (v dir par : loc) (d : pardict) : pardict :=
  MkPar src (icolx d) (icoly d) (icolz d) v (tmin d) (tmax d) (outfl d) (nlag d)
        (xlag d) (xltol d) dir (standardize d) par
        (nvar d) (ivar_ d) (nvarg d) (ivpar_ d) (ndir d) (ivdir_ d).

Definition with_var_block (n : nat) (s : string) (d : pardict) : pardict :=
  MkPar (datafl d) (icolx d) (icoly d) (icolz d) (ivar d) (tmin d) (tmax d) (outfl d) (nlag d)
        (xlag d) (xltol d) (ivdir d) (standardize d) (ivpar d)
        (Some n) (Some s) (nvarg d) (ivpar_ d) (ndir d) (ivdir_ d).

Definition with_varg_block (n : nat) (t : list (list cell)) (d : pardict) : pardict :=
  MkPar (datafl d) (icolx d) (icoly d) (icolz d) (ivar d) (tmin d) (tmax d) (outfl d) (nlag d)
        (xlag d) (xltol d) (ivdir d) (standardize d) (ivpar d)
        (nvar d) (ivar_ d) (Some n) (Some t) (ndir d) (ivdir_ d).

Definition with_dir_block (n : nat) (t : list (list float)) (d : pardict) : pardict :=
  MkPar (datafl d) (icolx d) (icoly d) (icolz d) (ivar d) (tmin d) (tmax d) (outfl d) (nlag d)
        (xlag d) (xltol d) (ivdir d) (standardize d) (ivpar d)
        (nvar d) (ivar_ d) (nvarg d) (ivpar_ d) (Some n) (Some t).

Inductive obj : Type :=
| ODict (d : pardict)
| OInts (xs : list Z)
| OCells (t : list (list cell))
| OFloats (t : list (list float))
| ONd (a : ndarray).

(** ** Files, output and the process boundary *)

(** A line of the temporary data file: text, or a row of numbers. *)
Inductive line : Type :=
| LText (s : string)
| LNums (xs : list float).

(** The values substituted into the parameter template, in template order. *)
Record parfile : Type := MkParFile {
  pf_datafl : datasrc;
  pf_icol : Z * Z * Z;
  pf_nvar : nat;
  pf_ivar : string;
  pf_trim : float * float;
  pf_outfl : option string;
  pf_nlag : Z;
  pf_xlag : float;
  pf_xltol : float;
  pf_ndir : nat;
  pf_ivdir : list (list float);
  pf_standardize : Z;
  pf_nvarg : nat;
  pf_ivpar : list (list cell)
}.

Inductive content : Type :=
| FLines (ls : list line)
| FPar (p : parfile).

Inductive printed : Type :=
| PStr (s : string)
| PBytes (b : list byte)
| PPar (p : parfile).

(** What the call does to the outside, in order. *)
Inductive event : Type :=
| EvWrite (path : string) (c : content)
| EvPrint (p : printed)
| EvSpawn (argv : list string).

(** What a finished child process leaves behind: its exit status, the two
    captured streams, and the files as [read_csv] sees them afterwards. *)
Record procres : Type := MkProc {
  returncode : Z;
  stdout : list byte;
  stderr : list byte;
  files : string -> option (list (list value))
}.

(** The [silent] argument: a Python [bool], a NumPy boolean, or any other
    integer.  (The docstring asks for a boolean; values on which [~] is an
    error, such as [None], a float or a string, are left out.) *)
Inductive flag : Type :=
| FBool (b : bool)
| FNpBool (b : bool)
| FInt (z : Z).

(** [~x]: bitwise inversion; a [bool] is inverted as the integer it is.
    On a NumPy boolean [~] is the negation; its result, a NumPy boolean
    again, is given as 1 or 0, which have its truth value. *)
Definition py_invert (f : flag) : Z :=
  match f with
  | FBool b => - Z.b2z b - 1
  | FNpBool b => Z.b2z (negb b)
  | FInt z => - z - 1
  end.

(** Truth value of an integer. *)
Definition truthy (z : Z) : bool := negb (z =? 0).

(** ** The state of a call *)

Record world : Type := MkWorld {
  heap : list obj;
  trace : list event
}.

(** A computation that reads and updates the world and may raise. *)
Definition M (A : Type) : Type := world -> res A * world.

#[global] Instance M_ret : MRet M := fun A x w => (Ok x, w).
#[global] Instance M_bind : MBind M := fun A B f m w =>
  match m w with
  | (Ok x, w') => f x w'
  | (Raise e, w') => (Raise e, w')
  end.

Definition lift {A} (r : res A) : M A := fun w => (r, w).

Definition raise {A} (e : exn) : M A := lift (Raise e).

Definition emit (e : event) : M unit :=
  fun w => (Ok tt, MkWorld (heap w) (trace w ++ [e])).

Definition get_trace : M (list event) := fun w => (Ok (trace w), w).

Definition alloc (o : obj) : M loc :=
  fun w => (Ok (length (heap w)), MkWorld (heap w ++ [o]) (trace w)).

Definition load (l : loc) : M obj :=
  fun w => match heap w !! l with
           | Some o => (Ok o, w)
           | None => (Raise TypeError, w)
           end.

Definition store (l : loc) (o : obj) : M unit :=
  fun w => (Ok tt, MkWorld (<[l := o]> (heap w)) (trace w)).

Definition load_dict (l : loc) : M pardict :=
  o ← load l; match o with ODict d => mret d | _ => raise TypeError end.

Definition load_ints (l : loc) : M (list Z) :=
  o ← load l; match o with OInts xs => mret xs | _ => raise TypeError end.

Definition load_cells (l : loc) : M (list (list cell)) :=
  o ← load l; match o with OCells t => mret t | _ => raise TypeError end.

Definition load_floats (l : loc) : M (list (list float)) :=
  o ← load l; match o with OFloats t => mret t | _ => raise TypeError end.

(** [d[k] = v] on the dictionary at [l], as the update [f] of its fields. *)
Definition update_dict (l : loc) (f : pardict -> pardict) : M unit :=
  d ← load_dict l; store l (ODict (f d)).

Definition copy_obj (l : loc) : M loc := o ← load l; alloc o.

(** [copy.deepcopy(parameters)]: new copies of the arrays, then a new
    dictionary that refers to the copies. *)
Definition deepcopy (p : loc) : M loc :=
  d ← load_dict p;
  src ← match datafl d with
        | DArray a => a' ← copy_obj a; mret (DArray a')
        | other => mret other
        end;
  v ← copy_obj (ivar d);
  dir ← copy_obj (ivdir d);
  par ← copy_obj (ivpar d);
  alloc (ODict (with_refs src v dir par d)).

(** ** Small pieces of the pipeline *)

(** A [for] loop over the indices [idx], threading the loop state and
    stopping at the first exception. *)
Fixpoint for_each {S : Type} (body : S -> nat -> res S) (s : S) (idx : list nat) : res S :=
  match idx with
  | [] => Ok s
  | i :: rest => s' ← body s i; for_each body s' rest
  end.

(** [a[i, j]] *)
Definition at2 {A} (rs : list (list A)) (i j : nat) : res A :=
  match rs !! i with
  | Some r => match r !! j with
              | Some c => Ok c
              | None => Raise IndexError
              end
  | None => Raise IndexError
  end.

(** [a[i, j] = v] on an array of element type [dt]: an integer array does
    not take [None]. *)
Definition set2_none (dt : dtype) (rs : list (list cell)) (i j : nat) : res (list (list cell)) :=
  _ ← at2 rs i j;
  match dt with
  | DInt => Raise TypeError
  | DObject => Ok (alter (fun r => <[j := CNone]> r) i rs)
  end.

(** [c <= n] and [c < n] for a cell; [None] does not compare to a number. *)
Definition cell_le (c : cell) (n : Z) : res bool :=
  match c with
  | CNone => Raise TypeError
  | CInt z => Ok (z <=? n)
  end.

Definition cell_lt (c : cell) (n : Z) : res bool :=
  match c with
  | CNone => Raise TypeError
  | CInt z => Ok (z <? n)
  end.

(** [c == i] for a cell. *)
Definition cell_eq_int (i : Z) (c : cell) : bool :=
  match c with
  | CNone => false
  | CInt z => z =? i
  end.

Definition allowed_types : list Z := [1; 2; 3; 4; 5; 6; 7; 8; 9; 10].

(** [c in set([1,...,10])] *)
Definition type_allowed (c : cell) : bool := existsb (fun t => cell_eq_int t c) allowed_types.

(** [assert all([i <= n for i in col])]: the comparisons are all made
    before [all] looks at them. *)
Definition assert_all_le (n : nat) (col : list cell) : res unit :=
  bs ← mapM (M := res) (fun c => cell_le c (Z.of_nat n)) col;
  py_assert (forallb id bs).

Definition cut_message (i : nat) : string :=
  "gslib varmap Error inparameter file: cut[" +:+ str_of_nat i +:+ "]=None".

(** One round of the loop over the variogram rows: below type 9 the cut
    is overwritten with [None], from 9 on a missing cut is an error. *)
Definition cut_step (dt : dtype) (rs : list (list cell)) (i : nat) : res (list (list cell)) :=
  ty ← at2 rs i 2;
  small ← cell_lt ty 9;
  if small : bool then set2_none dt rs i 3
  else
    cut ← at2 rs i 3;
    if is_none cut then Raise (NameError (cut_message i)) else Ok rs.

(** The checks on the variogram table, in order: the two index columns,
    the type column, then the loop over the rows. *)
Definition check_ivpar (nvars : nat) (dt : dtype) (a : nparray cell) : res (list (list cell)) :=
  c0 ← column 0 (rows a);
  _ ← assert_all_le nvars c0;
  c1 ← column 1 (rows a);
  _ ← assert_all_le nvars c1;
  c2 ← column 2 (rows a);
  _ ← py_assert (forallb type_allowed c2);
  n ← shape_at a 0;
  for_each (cut_step dt) (rows a) (seq 0 n).

(** The names of the columns in the output file. *)
Definition base_names : list string :=
  ["Lag"; "average separation"; "var funct"; "number of pairs"; "mean on tail"; "mean on head"].

Definition variance_names : list string := ["variance tail"; "variance head"].

(** The column names handed to [read_csv], decided by [any(ivpar[:,2]==4)]. *)
Definition result_names (types : list cell) : list string :=
  if existsb (cell_eq_int 4) types then base_names ++ variance_names else base_names.

(** The rows of the output file that are block headers. *)
Definition ignore_rows (nvarg ndir : nat) (nlag : Z) : res (list Z) :=
  np_arange 0 (Z.of_nat nvarg * Z.of_nat ndir * nlag + Z.of_nat ndir * Z.of_nat nvarg) (nlag + 1).

(** One round of the loop that copies [tail], [head], [type] and [cut] from
    row [i] of the caller's table to the rows of variogram [i]. *)
Definition meta_step (orig : list (list cell)) (vg : DataFrame) (i : nat) : res DataFrame :=
  let put (name : string) (j : nat) (vg : DataFrame) : res DataFrame :=
    c ← at2 orig i j;
    sel ← df_col "Variogram" vg;
    Ok (df_loc_set (map (value_eq_int (Z.of_nat i)) sel) [name] (value_of_cell c) vg) in
  vg ← put "tail" 0%nat vg;
  vg ← put "head" 1%nat vg;
  vg ← put "type" 2%nat vg;
  put "cut" 3%nat vg.

(** Reading the output file and labelling its rows (steps a and b). *)
Definition read_results (nvarg ndir : nat) (nlag0 : Z) (types : list cell)
    (orig : list (list cell)) (file : option (list (list value))) : res DataFrame :=
  let nlag := nlag0 + 2 in
  ignore ← ignore_rows nvarg ndir nlag;
  vg ← read_csv file ignore (result_names types);
  vario ← np_repeat (py_range nvarg) (Z.of_nat ndir * nlag);
  vg ← df_set_col "Variogram" (map VInt vario) vg;
  dirs ← np_repeat (py_range ndir) nlag;
  vg ← df_set_col "Direction" (map VInt (np_tile dirs nvarg)) vg;
  let vg := df_set_scalar "tail" (VInt 0) vg in
  let vg := df_set_scalar "head" (VInt 0) vg in
  let vg := df_set_scalar "type" (VInt 0) vg in
  let vg := df_set_scalar "cut" VNone vg in
  for_each (meta_step orig) vg (seq 0 (length orig)).

(** The two cleaning assignments. *)
Definition cleanup (vg : DataFrame) : res DataFrame :=
  pairs ← df_col "number of pairs" vg;
  let vg := df_loc_set (map value_is_zero pairs) ["var funct"; "mean on tail"; "mean on head"]
                       VNone vg in
  sep ← df_col "average separation" vg;
  Ok (df_loc_set (map value_is_zero sep) ["var funct"] VNone vg).

(** The column-name lines of the temporary data file for [ncol] columns. *)
Definition name_lines (ncol : nat) : list line :=
  [LText "x"; LText "y"; LText "z"]
  ++ map (fun i => LText ("v" +:+ str_of_Z (Z.of_nat i - 2))) (seq 3 (ncol - 3)).

(** The temporary data file written for an in-memory array. *)
Definition data_file (ncol : nat) (a : ndarray) : list line :=
  [LText "temp file "; LText (str_of_nat ncol)] ++ name_lines ncol ++ map LNums (nd_rows a).

(** A key of the dictionary that must have been set. *)
Definition get_key {A} (k : string) (o : option A) : res A :=
  match o with
  | Some x => Ok x
  | None => Raise (KeyError k)
  end.

(** The template [__gamv_par] filled in from the dictionary [mypar]. *)
Definition format_par (d : pardict) : res parfile :=
  nv ← get_key "nvar" (nvar d);
  iv ← get_key "ivar_" (ivar_ d);
  nd ← get_key "ndir" (ndir d);
  ds ← get_key "ivdir_" (ivdir_ d);
  ng ← get_key "nvarg" (nvarg d);
  ps ← get_key "ivpar_" (ivpar_ d);
  Ok (MkParFile (datafl d) (icolx d, icoly d, icolz d) nv iv (tmin d, tmax d) (outfl d)
                (nlag d) (xlag d) (xltol d) nd ds (standardize d) ng ps).

(** ** The function [gamv] *)

Section Gamv.

(** [os.name], and the operating system's answer to starting a program:
    [None] when it cannot be started, otherwise what the finished process
    leaves behind.  The answer may depend on everything written so far. *)
Variable os_name : string.
Variable popen : list string -> list event -> option procres.

Definition default_path (gslib_path : option string) : string :=
  match gslib_path with
  | Some p => p
  | None => if String.eqb os_name "posix" then "~/gslib/gamv" else "c:\gslib\gamv.exe"
  end.

(** Lines 102-127: the working copy, the in-memory data source, the
    default file names. *)
Definition prepare (parameters : loc) : M loc :=
  mypar ← deepcopy parameters;
  p ← load_dict parameters;
  _ ← match datafl p with
      | DArray a =>
        o ← load a;
        match o with
        | ONd arr =>
          _ ← lift (py_assert (Nat.eqb (length (nd_shape arr)) 2));
          _ ← update_dict mypar (with_datafl (DPath "_xxx_.in"));
          _ ← update_dict mypar (with_icol 1 2 3);
          ncol ← lift (match nd_shape arr !! 1%nat with
                       | Some n => Ok n
                       | None => Raise IndexError
                       end);
          iv ← lift (np_arange 4 (Z.of_nat ncol + 1) 1);
          l ← alloc (OInts iv);
          _ ← update_dict mypar (with_ivar l);
          emit (EvWrite "_xxx_.in" (FLines (data_file ncol arr)))
        | _ => raise TypeError
        end
      | DNoFile => update_dict mypar (with_datafl (DPath "_xxx_.in"))
      | DPath _ => mret tt
      end;
  d ← load_dict mypar;
  _ ← match outfl d with
      | None => update_dict mypar (with_outfl (Some "_xxx_.out"))
      | Some _ => mret tt
      end;
  mret mypar.

(** Lines 130-144: the two parameter arrays and their checks.  Returns the
    variogram array after the loop, and the direction array. *)
Definition validate (mypar : loc) : M (nparray cell * nparray float) :=
  d ← load_dict mypar;
  tpar ← load_cells (ivpar d);
  apar ← lift (np_array tpar);
  tdir ← load_floats (ivdir d);
  adir ← lift (np_array tdir);
  w ← lift (shape_at apar 1);
  _ ← lift (py_assert (Nat.eqb w 4));
  w ← lift (shape_at adir 1);
  _ ← lift (py_assert (Nat.eqb w 6));
  vars ← load_ints (ivar d);
  rs ← lift (check_ivpar (length vars) (infer_dtype tpar) apar);
  mret (MkArr (shape apar) rs, adir).

(** Lines 148-161: the derived keys, the rendered text, the parameter file. *)
Definition write_par (mypar : loc) (apar : nparray cell) (adir : nparray float) : M string :=
  d ← load_dict mypar;
  vars ← load_ints (ivar d);
  _ ← update_dict mypar (with_var_block (length vars) (str_join " " (map str_of_Z vars)));
  n ← lift (shape_at apar 0);
  _ ← update_dict mypar (with_varg_block n (rows apar));
  n ← lift (shape_at adir 0);
  _ ← update_dict mypar (with_dir_block n (rows adir));
  d ← load_dict mypar;
  par ← lift (format_par d);
  _ ← emit (EvPrint (PPar par));
  _ ← emit (EvWrite "_xxx_.par" (FPar par));
  mret "_xxx_.par".

(** Lines 165-179: the child process, its exit status, the echo. *)
Definition invoke (gslib_path fpar : string) (silent : flag) : M procres :=
  _ ← emit (EvSpawn [gslib_path; fpar]);
  t ← get_trace;
  match popen [gslib_path; fpar] t with
  | None => raise OSError
  | Some p =>
    if negb (returncode p =? 0) then
      msg ← lift (decode_utf8 (stderr p));
      raise (NameError ("gslib declus NameError" +:+ msg))
    else
      _ ← (if truthy (py_invert silent) then
             match decode_utf8 (stdout p) with
             | Ok s => emit (EvPrint (PStr s))
             | Raise _ => emit (EvPrint (PBytes (stdout p)))
             end
           else mret tt);
      mret p
  end.

(** Lines 182-223: the labelled table read from the output file. *)
Definition parse (parameters mypar : loc) (apar : nparray cell) (p : procres) : M DataFrame :=
  d ← load_dict mypar;
  nvarg ← lift (get_key "nvarg" (nvarg d));
  ndir ← lift (get_key "ndir" (ndir d));
  types ← lift (column 2 (rows apar));
  path ← lift (match outfl d with Some s => Ok s | None => Raise ValueError end);
  orig ← (pd ← load_dict parameters; load_cells (ivpar pd));
  lift (read_results nvarg ndir (nlag d) types orig (files p path)).

(** Lines 96-161: everything that happens before the engine is started. *)
Definition before_engine (parameters : loc) : M (loc * nparray cell * string) :=
  mypar ← prepare parameters;
  '(apar, adir) ← validate mypar;
  fpar ← write_par mypar apar adir;
  mret (mypar, apar, fpar).

(** Lines 181-228: the table built from the output file, cleaned and keyed. *)
Definition after_engine (parameters mypar : loc) (apar : nparray cell) (p : procres)
  : M DataFrame :=
  vg ← parse parameters mypar apar p;
  vg ← lift (cleanup vg);
  lift (df_set_index ["Variogram"; "Direction"; "Lag"] vg).

Definition gamv (parameters : loc) (gslib_path : option string) (silent : flag) : M DataFrame :=
  let gslib_path := default_path gslib_path in
  '(mypar, apar, fpar) ← before_engine parameters;
  p ← invoke gslib_path fpar silent;
  after_engine parameters mypar apar p.

End Gamv.

(** ** Notions used in the statements *)

(** Row [k] of the table has a zero in column [c]. *)
Definition zero_at (vg : DataFrame) (c : string) (k : nat) : bool :=
  match cell_at vg c k with
  | Some v => value_is_zero v
  | None => false
  end.

(** The columns the first cleaning rule resets. *)
Definition stat_columns : list string := ["var funct"; "mean on tail"; "mean on head"].

(** A configuration: the dictionary together with the arrays it refers to. *)
Record config : Type := MkConfig {
  c_dict : pardict;
  c_vars : list Z;
  c_dirs : list (list float);
  c_pars : list (list cell);
  c_data : option ndarray
}.

(** The heap of [w] holds the configuration [c] at location [p]: the
    dictionary is there and its references lead to the arrays of [c]. *)
Definition holds (w : world) (p : loc) (c : config) : Prop :=
  heap w !! p = Some (ODict (c_dict c)) /\
  heap w !! ivar (c_dict c) = Some (OInts (c_vars c)) /\
  heap w !! ivdir (c_dict c) = Some (OFloats (c_dirs c)) /\
  heap w !! ivpar (c_dict c) = Some (OCells (c_pars c)) /\
  match datafl (c_dict c) with
  | DArray a => exists arr, c_data c = Some arr /\ heap w !! a = Some (ONd arr)
  | _ => c_data c = None
  end.

(** [a.shape[1]] of the data array. *)
Definition ncols (arr : ndarray) : nat := default 0%nat (nd_shape arr !! 1%nat).

(** The column numbers [4, ..., ncol]. *)
Definition var_columns (ncol : nat) : list Z :=
  map (fun k => 4 + Z.of_nat k) (seq 0 (ncol - 3)).

(** The variable columns in effect: the caller's, or columns 4 onwards of
    an in-memory array. *)
Definition effective_vars (c : config) : list Z :=
  match c_data c with
  | Some arr => var_columns (ncols arr)
  | None => c_vars c
  end.

(** What the call writes before it looks at the variogram table. *)
Definition data_events (c : config) : list event :=
  match c_data c with
  | Some arr => [EvWrite "_xxx_.in" (FLines (data_file (ncols arr) arr))]
  | None => []
  end.

(** The scalar entries of the working copy after the data source has been
    dealt with (lines 102-124), and after the default output name (line 127). *)
Definition prepared_src (c : config) : pardict :=
  let d := c_dict c in
  match datafl d with
  | DPath _ => d
  | DNoFile => with_datafl (DPath "_xxx_.in") d
  | DArray _ => with_icol 1 2 3 (with_datafl (DPath "_xxx_.in") d)
  end.

Definition with_default_outfl (d : pardict) : pardict :=
  match outfl d with
  | None => with_outfl (Some "_xxx_.out") d
  | Some _ => d
  end.

Definition prepared (c : config) : pardict := with_default_outfl (prepared_src c).

(** The checks of lines 130-144 on the arrays themselves. *)
Definition check_arrays (vars : list Z) (dirs : list (list float)) (pars : list (list cell))
  : res (nparray cell * nparray float) :=
  apar ← np_array pars;
  adir ← np_array dirs;
  w ← shape_at apar 1;
  _ ← py_assert (Nat.eqb w 4);
  w ← shape_at adir 1;
  _ ← py_assert (Nat.eqb w 6);
  rs ← check_ivpar (length vars) (infer_dtype pars) apar;
  Ok (MkArr (shape apar) rs, adir).

(** An event that is neither the writing of the parameter file nor the
    start of the engine. *)
Definition early (e : event) : bool :=
  match e with
  | EvWrite path _ => negb (String.eqb path "_xxx_.par")
  | EvPrint _ => true
  | EvSpawn _ => false
  end.

(** [wp m Q w]: running [m] from [w] ends in an outcome and a world
    related by [Q]. *)
Definition wp {A} (m : M A) (Q : res A -> world -> Prop) (w : world) : Prop :=
  Q (m w).1 (m w).2.

(** The heap of [w] still starts with the objects [h0]. *)
Definition framed (h0 : list obj) (w : world) : Prop := h0 `prefix_of` heap w.

(** The in-memory data array, when there is one, is two-dimensional (the
    assertion of line 106). *)
Definition data_ok (c : config) : Prop :=
  match c_data c with
  | Some arr => length (nd_shape arr) = 2%nat
  | None => True
  end.

(** The configuration [c] with another dictionary. *)
Definition set_dict (d : pardict) (c : config) : config :=
  MkConfig d (c_vars c) (c_dirs c) (c_pars c) (c_data c).

(** [d'] has the entries of [d], except for where the arrays are. *)
Definition same_entries (d d' : pardict) : Prop :=
  d' = with_refs (datafl d) (ivar d') (ivdir d') (ivpar d') d.

(** What a successful run echoes: the decoded standard output, or the raw
    bytes when they do not decode. *)
Definition echo (silent : flag) (p : procres) : list event :=
  if truthy (py_invert silent)
  then [EvPrint (match decode_utf8 (stdout p) with
                 | Ok s => PStr s
                 | Raise _ => PBytes (stdout p)
                 end)]
  else [].

(** The exception raised for a run that ended with a non-zero status. *)
Definition engine_error {A} (p : procres) : res A :=
  msg ← decode_utf8 (stderr p);
  Raise (NameError ("gslib declus NameError" +:+ msg)).

(** [a.shape[0]] of an array that has a first dimension. *)
Definition nrows_of {A} (a : nparray A) : nat := default 0%nat (shape a !! 0%nat).

(** The dictionary after the derived keys have been set (lines 148-155). *)
Definition with_blocks (vars : list Z) (apar : nparray cell) (adir : nparray float)
    (d : pardict) : pardict :=
  with_dir_block (nrows_of adir) (rows adir)
    (with_varg_block (nrows_of apar) (rows apar)
       (with_var_block (length vars) (str_join " " (map str_of_Z vars)) d)).

(** The name of the output file in effect. *)
Definition out_path (c : config) : string := default "_xxx_.out" (outfl (c_dict c)).

(** The table the call returns from what a successful run left behind. *)
Definition result_table (c : config) (apar : nparray cell) (adir : nparray float)
    (p : procres) : res DataFrame :=
  types ← column 2 (rows apar);
  vg ← read_results (nrows_of apar) (nrows_of adir) (nlag (c_dict c)) types (c_pars c)
                    (files p (out_path c));
  vg ← cleanup vg;
  df_set_index ["Variogram"; "Direction"; "Lag"] vg.

(** The parameter file written for the configuration [c]. *)
Definition par_of (c : config) (apar : nparray cell) (adir : nparray float) : parfile :=
  let d := prepared c in
  MkParFile (datafl d) (icolx d, icoly d, icolz d)
            (length (effective_vars c)) (str_join " " (map str_of_Z (effective_vars c)))
            (tmin d, tmax d) (outfl d) (nlag d) (xlag d) (xltol d)
            (nrows_of adir) (rows adir) (standardize d) (nrows_of apar) (rows apar).

Definition data_okb (c : config) : bool :=
  match c_data c with
  | Some arr => Nat.eqb (length (nd_shape arr)) 2
  | None => true
  end.

Section Model.

Variable os_name : string.
Variable popen : list string -> list event -> option procres.

(** The call as a function of the configuration: its outcome and the events
    it adds to a trace [t]. *)
Definition gamv_model (c : config) (gslib_path : option string) (silent : flag)
    (t : list event) : res DataFrame * list event :=
  if data_okb c then
    match check_arrays (effective_vars c) (c_dirs c) (c_pars c) with
    | Raise e => (Raise e, data_events c)
    | Ok (apar, adir) =>
      let par := par_of c apar adir in
      let argv := [default_path os_name gslib_path; "_xxx_.par"] in
      let evs := data_events c
                 ++ [EvPrint (PPar par); EvWrite "_xxx_.par" (FPar par); EvSpawn argv] in
      match popen argv (t ++ evs) with
      | None => (Raise OSError, evs)
      | Some p =>
        if returncode p =? 0
        then (result_table c apar adir p, evs ++ echo silent p)
        else (engine_error p, evs)
      end
    end
  else (Raise AssertionError, []).

End Model.

(** The outcome is not a [NameError]. *)
Definition no_name_error {A} (r : res A) : Prop := forall msg, r <> Raise (NameError msg).

(** The layout the specification gives for the temporary data file: a
    title line, the number of columns, one name per column ([x], [y], [z],
    [v1], [v2], ...), then the rows. *)
Definition spec_column_name (k : nat) : string :=
  match k with
  | 0%nat => "x"
  | 1%nat => "y"
  | 2%nat => "z"
  | _ => "v" +:+ str_of_Z (Z.of_nat k - 2)
  end.

Definition spec_data_file (title : string) (ncol : nat) (rs : list (list float)) : list line :=
  [LText title; LText (str_of_nat ncol)]
  ++ map (fun k => LText (spec_column_name k)) (seq 0 ncol)
  ++ map LNums rs.

(** A variogram row that names a variable beyond the [n] available ones,
    or a type code outside 1..10. *)
Definition bad_row (n : nat) (r : list cell) : Prop :=
  (exists z, r !! 0%nat = Some (CInt z) /\ Z.of_nat n < z) \/
  (exists z, r !! 1%nat = Some (CInt z) /\ Z.of_nat n < z) \/
  (exists z, r !! 2%nat = Some (CInt z) /\ ~ (1 <= z <= 10)).

(** A variogram row that passes the three assertions: tail and head are
    integers not above [n], the type is one of 1..10. *)
Definition row_ok (n : nat) (r : list cell) : Prop :=
  exists t h ty,
    r !! 0%nat = Some (CInt t) /\ t <= Z.of_nat n /\
    r !! 1%nat = Some (CInt h) /\ h <= Z.of_nat n /\
    r !! 2%nat = Some (CInt ty) /\ 1 <= ty <= 10.

(** The columns [gamv] adds to the table read from the file. *)
Definition label_names : list string :=
  ["Variogram"; "Direction"; "tail"; "head"; "type"; "cut"].

(** The entry of a variogram row that a label column is copied from. *)
Definition meta_index (c : string) : option nat :=
  if String.eqb c "tail" then Some 0%nat
  else if String.eqb c "head" then Some 1%nat
  else if String.eqb c "type" then Some 2%nat
  else if String.eqb c "cut" then Some 3%nat
  else None.

(** Row [k] of the table belongs to variogram [i]. *)
Definition is_vario (vg : DataFrame) (k : nat) (i : nat) : bool :=
  match cell_at vg "Variogram" k with
  | Some v => value_eq_int (Z.of_nat i) v
  | None => false
  end.

(** An output file laid out as the engine writes it: blocks of one header
    line followed by data lines. *)
Definition layout (blocks : list (list value * list (list value))) : list (list value) :=
  concat (map (fun b => b.1 :: b.2) blocks).

Definition data_lines (blocks : list (list value * list (list value))) : list (list value) :=
  concat (map snd blocks).

(** A variogram row after the loop of lines 139-144: below type 9 the cut
    has become [None]. *)
Definition forced (r : list cell) : list cell :=
  match r !! 2%nat with
  | Some (CInt ty) => if ty <? 9 then <[3%nat := CNone]> r else r
  | _ => r
  end.

(** A row of type 9 or 10 whose cut is [None]. *)
Definition lacks_cut (r : list cell) : bool :=
  match r !! 2%nat, r !! 3%nat with
  | Some (CInt ty), Some CNone => negb (ty <? 9)
  | _, _ => false
  end.

(** A row of a type below 9. *)
Definition low_type (r : list cell) : bool :=
  match r !! 2%nat with
  | Some (CInt ty) => ty <? 9
  | _ => false
  end.

(** One round of the loop of lines 139-144, as a function of row [i] alone. *)
Definition cut_row (dt : dtype) (i : nat) (r : list cell) : res (list cell) :=
  ty ← match r !! 2%nat with Some c => Ok c | None => Raise IndexError end;
  small ← cell_lt ty 9;
  if small : bool then
    _ ← match r !! 3%nat with Some c => Ok c | None => Raise IndexError end;
    match dt with
    | DInt => Raise TypeError
    | DObject => Ok (<[3%nat := CNone]> r)
    end
  else
    cut ← match r !! 3%nat with Some c => Ok c | None => Raise IndexError end;
    if is_none cut then Raise (NameError (cut_message i)) else Ok r.

(** The loop, row by row, starting at index [i]. *)
Fixpoint cut_rows (dt : dtype) (i : nat) (rs : list (list cell)) : res (list (list cell)) :=
  match rs with
  | [] => Ok []
  | r :: rest =>
    r' ← cut_row dt i r;
    rest' ← cut_rows dt (S i) rest;
    Ok (r' :: rest')
  end.

(** The two parameter tables have the shapes the assertions ask for. *)
Definition well_shaped (c : config) : Prop :=
  c_pars c <> [] /\ Forall (fun r => length r = 4%nat) (c_pars c) /\
  c_dirs c <> [] /\ Forall (fun r => length r = 6%nat) (c_dirs c).

(** [c <= n] for a cell that holds an integer. *)
Definition within (n : nat) (c : cell) : bool :=
  match c with
  | CInt z => z <=? Z.of_nat n
  | CNone => false
  end.

(** Every column of the table has one cell for each row. *)
Definition table_ok (df : DataFrame) : Prop :=
  Forall (fun cv => length cv.2 = nrows df) (columns df).

(** ** A small study

    One variable in column 4, one lag, two directions; the heap of a caller
    who holds such a dictionary at location 0; and an engine that answers
    with a well-formed output file. *)

Module Sample.

Definition dict (src : datasrc) : pardict :=
  MkPar src 1 2 3 1%nat 0%float 1%float None 1 1%float 0.5%float 2%nat 0 3%nat
        None None None None None None.

Definition dirs : list (list float) :=
  [[0; 90; 50; 0; 90; 50]; [90; 22.5; 50; 0; 90; 50]]%float.

(** The caller's heap for a data file on disk and the variogram rows [pars]. *)
Definition world_of (pars : list (list cell)) : world :=
  MkWorld [ODict (dict (DPath "data.dat")); OInts [4]; OFloats dirs; OCells pars] [].

Definition config_of (pars : list (list cell)) : config :=
  MkConfig (dict (DPath "data.dat")) [4] dirs pars None.

(** The same study on an in-memory array. *)
Definition world_on (arr : ndarray) (pars : list (list cell)) : world :=
  MkWorld [ODict (dict (DArray 4%nat)); OInts [4]; OFloats dirs; OCells pars; ONd arr] [].

Definition config_on (arr : ndarray) (pars : list (list cell)) : config :=
  MkConfig (dict (DArray 4%nat)) [4] dirs pars (Some arr).

Definition samples : ndarray :=
  MkNd [2; 4]%nat [[0; 0; 0; 1.5]; [1; 0; 0; 2.5]]%float.

Definition flat_samples : ndarray :=
  MkNd [2; 2]%nat [[0; 0]; [1; 0]]%float.

(** Variogram rows: a semivariogram with a cut the engine has no use for
    and a cross semivariogram without one. *)
Definition with_cut : list (list cell) :=
  [[CInt 1; CInt 1; CInt 1; CInt 5]; [CInt 1; CInt 1; CInt 2; CNone]].

(** Three variograms, the second a covariance. *)
Definition with_covariance : list (list cell) :=
  [[CInt 1; CInt 1; CInt 1; CNone]; [CInt 1; CInt 1; CInt 3; CNone];
   [CInt 1; CInt 1; CInt 1; CNone]].

Definition with_correlogram : list (list cell) :=
  [[CInt 1; CInt 1; CInt 4; CNone]].

(** A head variable that does not exist. *)
Definition with_bad_head : list (list cell) :=
  [[CInt 1; CInt 5; CInt 1; CNone]].

(** Cuts given as integers throughout. *)
Definition all_integers : list (list cell) :=
  [[CInt 1; CInt 1; CInt 1; CInt 5]].

(** A block of the output file: a header line and [nlag + 2] data lines. *)
Definition data_line (lag pairs : Z) : list value :=
  [VInt lag; VFloat (if pairs =? 0 then 0 else 0.5); VFloat 1.5; VInt pairs; VFloat 2; VFloat 3].

Definition block : list value * list (list value) :=
  ([], [data_line 1 0; data_line 2 4; data_line 3 7]).

Definition output (nblocks : nat) (path : string) : option (list (list value)) :=
  if String.eqb path "_xxx_.out" then Some (layout (replicate nblocks block)) else None.

(** An engine that succeeds, and one that fails. *)
Definition engine (nblocks : nat) (argv : list string) (t : list event) : option procres :=
  Some (MkProc 0 (list_byte_of_string "done") [] (output nblocks)).

Definition failing (argv : list string) (t : list event) : option procres :=
  Some (MkProc 1 [] (list_byte_of_string "no data") (fun _ => None)).

(** A table with an empty lag and a lag at distance zero. *)
Definition table : DataFrame :=
  MkDf 3 [("Lag", [VInt 1; VInt 2; VInt 3]);
          ("average separation", [VFloat 0; VFloat 0.5; VInt 0]);
          ("var funct", [VFloat 1; VFloat 2; VFloat 3]);
          ("number of pairs", [VInt 0; VInt 4; VInt 7]);
          ("mean on tail", [VFloat 1; VFloat 2; VFloat 3]);
          ("mean on head", [VFloat 1; VFloat 2; VFloat 3])] [].

End Sample.

(** ** More of the small study

    Tables and engines that go wrong in one way each. *)

Module Cases.

(** Variogram rows without a cut column. *)
Definition short_rows : list (list cell) := [[CInt 1; CInt 1; CInt 1]].

(** A tail index that is [None]. *)
Definition none_tail : list (list cell) := [[CNone; CInt 1; CInt 1; CNone]].

(** A one-dimensional data array. *)
Definition flat_array : ndarray := MkNd [3%nat] [[0; 1; 2]%float].

(** An engine that fails and writes bytes that are not UTF-8 to its
    standard error. *)
Definition garbled (argv : list string) (t : list event) : option procres :=
  Some (MkProc 1 [] [x80; xff] (fun _ => None)).

(** An operating system that cannot start the program. *)
Definition missing (argv : list string) (t : list event) : option procres := None.

End Cases.

(** * Properties *)

(** ** Tables *)

Section Tables.

Implicit Types (df vg : DataFrame) (c : string) (k : nat) (v : value).

Lemma mask_set_lookup mask v vs k :
  mask_set mask v vs !! k
  = (fun old => if default false (mask !! k) then v else old) <$> vs !! k.
Proof. unfold mask_set. apply list_lookup_imap. Qed.

Lemma mask_set_length mask v vs : length (mask_set mask v vs) = length vs.
Proof. unfold mask_set. apply length_imap. Qed.

Lemma assoc_col_loc_set mask cs v cols c :
  assoc_col c
    (map (fun '(c', vs) => if existsb (String.eqb c') cs
                           then (c', mask_set mask v vs) else (c', vs)) cols)
  = (if existsb (String.eqb c) cs then mask_set mask v else id) <$> assoc_col c cols.
Proof.
  induction cols as [|[c' vs] cols IH]; [reflexivity|].
  cbn [map assoc_col].
  destruct (existsb (String.eqb c') cs) eqn:Hin; cbn [assoc_col];
    destruct (String.eqb c c') eqn:Hc; try exact IH;
    apply String.eqb_eq in Hc; subst c'; rewrite Hin; reflexivity.
Qed.

Lemma df_col_loc_set_other mask cs v df c :
  existsb (String.eqb c) cs = false ->
  df_col c (df_loc_set mask cs v df) = df_col c df.
Proof.
  intros Hc. unfold df_col, df_loc_set. cbn [columns].
  rewrite assoc_col_loc_set, Hc. destruct (assoc_col c (columns df)); reflexivity.
Qed.

Lemma cell_at_loc_set mask cs v df c k :
  cell_at (df_loc_set mask cs v df) c k
  = (fun old => if existsb (String.eqb c) cs && default false (mask !! k) then v else old)
      <$> cell_at df c k.
Proof.
  unfold cell_at, df_loc_set. cbn [columns].
  rewrite assoc_col_loc_set.
  destruct (assoc_col c (columns df)) as [vs|]; [|reflexivity].
  destruct (existsb (String.eqb c) cs); cbn.
  - apply mask_set_lookup.
  - destruct (vs !! k); reflexivity.
Qed.

Lemma col_names_loc_set mask cs v df : col_names (df_loc_set mask cs v df) = col_names df.
Proof.
  unfold col_names, df_loc_set. cbn [columns]. rewrite map_map.
  apply map_ext. intros [c vs]. destruct (existsb _ cs); reflexivity.
Qed.

End Tables.

(** ** The cleaning pass *)

Lemma lookup_map {A B} (f : A -> B) (l : list A) (k : nat) : map f l !! k = f <$> l !! k.
Proof. exact (list_lookup_fmap f l k). Qed.

Lemma cleanup_ok_inv vg vg' :
  cleanup vg = Ok vg' ->
  exists pairs sep,
    df_col "number of pairs" vg = Ok pairs /\
    df_col "average separation" vg = Ok sep /\
    vg' = df_loc_set (map value_is_zero sep) ["var funct"] VNone
            (df_loc_set (map value_is_zero pairs) stat_columns VNone vg).
Proof.
  unfold cleanup. intros H.
  destruct (df_col "number of pairs" vg) as [pairs|e] eqn:Hp; [|discriminate].
  cbn in H. rewrite df_col_loc_set_other in H by reflexivity.
  destruct (df_col "average separation" vg) as [sep|e] eqn:Hs; [|discriminate].
  cbn in H. injection H as <-. exists pairs, sep. auto.
Qed.

Lemma cleanup_run vg pairs sep :
  df_col "number of pairs" vg = Ok pairs ->
  df_col "average separation" vg = Ok sep ->
  cleanup vg = Ok (df_loc_set (map value_is_zero sep) ["var funct"] VNone
                     (df_loc_set (map value_is_zero pairs) stat_columns VNone vg)).
Proof.
  intros Hp Hs. unfold cleanup. rewrite Hp. cbn.
  rewrite df_col_loc_set_other by reflexivity. rewrite Hs. reflexivity.
Qed.

Lemma zero_at_col vg c col k :
  df_col c vg = Ok col ->
  default false (map value_is_zero col !! k) = zero_at vg c k.
Proof.
  unfold df_col, zero_at, cell_at. intros H.
  destruct (assoc_col c (columns vg)) as [vs|]; [|discriminate].
  injection H as ->. rewrite lookup_map. cbn. destruct (col !! k); reflexivity.
Qed.

Lemma cleanup_cell vg vg' c k :
  cleanup vg = Ok vg' ->
  cell_at vg' c k
  = (fun old =>
       if (existsb (String.eqb c) stat_columns && zero_at vg "number of pairs" k)
          || (String.eqb c "var funct" && zero_at vg "average separation" k)
       then VNone else old) <$> cell_at vg c k.
Proof.
  intros H. destruct (cleanup_ok_inv _ _ H) as (pairs & sep & Hp & Hs & ->).
  rewrite !cell_at_loc_set.
  rewrite (zero_at_col _ _ _ _ Hp), (zero_at_col _ _ _ _ Hs).
  destruct (cell_at vg c k) as [old|]; [|reflexivity]. cbn [fmap option_fmap option_map].
  f_equal. cbn [existsb]. rewrite orb_false_r.
  destruct (existsb (String.eqb c) stat_columns && zero_at vg "number of pairs" k);
    destruct (String.eqb c "var funct" && zero_at vg "average separation" k); reflexivity.
Qed.

Lemma in_stat_columns c :
  c ∈ stat_columns -> existsb (String.eqb c) stat_columns = true.
Proof.
  intros H. apply existsb_exists. exists c. split.
  - by apply list_elem_of_In.
  - apply String.eqb_refl.
Qed.

Lemma not_in_stat_columns c :
  c ∉ stat_columns -> existsb (String.eqb c) stat_columns = false.
Proof.
  intros H. apply not_true_is_false. intros Hex.
  apply existsb_exists in Hex as (c' & Hin & Heq).
  apply String.eqb_eq in Heq. subst c'. apply H. by apply list_elem_of_In.
Qed.

(** C6.  The cleaning pass succeeds on every table that has a pair-count
    and an average-separation column; it keeps the shape of the table; in a
    row whose pair count is zero the variogram value and both means become
    missing, whatever the average separation; in a row whose average
    separation is zero the variogram value becomes missing; every other
    cell keeps its value. *)
Theorem cleanup_rules (vg : DataFrame) (pairs sep : list value) :
  df_col "number of pairs" vg = Ok pairs ->
  df_col "average separation" vg = Ok sep ->
  exists vg',
    cleanup vg = Ok vg' /\
    nrows vg' = nrows vg /\ col_names vg' = col_names vg /\ index vg' = index vg /\
    forall (c : string) (k : nat) (old : value),
      cell_at vg c k = Some old ->
      (zero_at vg "number of pairs" k = true -> c ∈ stat_columns ->
       cell_at vg' c k = Some VNone) /\
      (zero_at vg "average separation" k = true -> c = "var funct" ->
       cell_at vg' c k = Some VNone) /\
      (~ (zero_at vg "number of pairs" k = true /\ c ∈ stat_columns) ->
       ~ (zero_at vg "average separation" k = true /\ c = "var funct") ->
       cell_at vg' c k = Some old).
Proof.
  intros Hp Hs. eexists. split; [exact (cleanup_run _ _ _ Hp Hs)|].
  pose proof (cleanup_run _ _ _ Hp Hs) as Hrun.
  split; [reflexivity|]. split; [by rewrite !col_names_loc_set|]. split; [reflexivity|].
  intros c k old Hold.
  rewrite (cleanup_cell _ _ c k Hrun), Hold. cbn [fmap option_fmap option_map].
  split; [|split].
  - intros Hz Hc. by rewrite (in_stat_columns _ Hc), Hz.
  - intros Hz ->. rewrite Hz. cbn. by rewrite orb_true_r.
  - intros H1 H2.
    assert (E1 : existsb (String.eqb c) stat_columns && zero_at vg "number of pairs" k = false).
    { destruct (zero_at vg "number of pairs" k); [|apply andb_false_r].
      rewrite andb_true_r. apply not_in_stat_columns. intros Hin. apply H1. by split. }
    assert (E2 : String.eqb c "var funct" && zero_at vg "average separation" k = false).
    { destruct (zero_at vg "average separation" k); [|apply andb_false_r].
      rewrite andb_true_r. apply not_true_is_false. intros Heq.
      apply String.eqb_eq in Heq. apply H2. by split. }
    by rewrite E1, E2.
Qed.

Lemma mask_set_twice m1 m2 v vs :
  mask_set m2 v (mask_set m1 v (mask_set m2 v (mask_set m1 v vs)))
  = mask_set m2 v (mask_set m1 v vs).
Proof.
  apply list_eq. intros k. rewrite !mask_set_lookup.
  destruct (vs !! k) as [old|]; [|reflexivity]. cbn.
  destruct (default false (m1 !! k)), (default false (m2 !! k)); reflexivity.
Qed.

Lemma mask_set_idem m v vs : mask_set m v (mask_set m v vs) = mask_set m v vs.
Proof.
  apply list_eq. intros k. rewrite !mask_set_lookup.
  destruct (vs !! k) as [old|]; [|reflexivity]. cbn.
  destruct (default false (m !! k)); reflexivity.
Qed.

Lemma cleanup_fixed vg vg' : cleanup vg = Ok vg' -> cleanup vg' = Ok vg'.
Proof.
  intros H. destruct (cleanup_ok_inv _ _ H) as (pairs & sep & Hp & Hs & Heq).
  assert (Hp' : df_col "number of pairs" vg' = Ok pairs).
  { subst vg'. by rewrite !df_col_loc_set_other by reflexivity. }
  assert (Hs' : df_col "average separation" vg' = Ok sep).
  { subst vg'. by rewrite !df_col_loc_set_other by reflexivity. }
  rewrite (cleanup_run _ _ _ Hp' Hs'). f_equal.
  clear Hp' Hs' H. subst vg'.
  unfold df_loc_set. cbn [nrows columns index]. f_equal.
  rewrite !map_map. apply map_ext. intros [c vs].
  destruct (existsb (String.eqb c) stat_columns) eqn:H1;
    destruct (existsb (String.eqb c) ["var funct"]) eqn:H2;
    rewrite ?H1, ?H2; try reflexivity; f_equal.
  - apply mask_set_twice.
  - apply mask_set_idem.
  - apply mask_set_idem.
Qed.

(** C9.  Cleaning a cleaned table changes nothing: the pass followed by
    itself is the pass (and where the pass raises, so does the composition). *)
Theorem cleanup_idempotent (vg : DataFrame) :
  (vg' ← cleanup vg; cleanup vg') = cleanup vg.
Proof.
  destruct (cleanup vg) as [vg'|e] eqn:H; [|reflexivity].
  cbn. exact (cleanup_fixed _ _ H).
Qed.

(** ** Reasoning about computations *)

Section Monad.

Context {A B : Type}.

Lemma bind_ok (m : M A) (f : A -> M B) w x w1 :
  m w = (Ok x, w1) -> (m ≫= f) w = f x w1.
Proof. intros H. unfold mbind, M_bind. by rewrite H. Qed.

Lemma bind_raise (m : M A) (f : A -> M B) w e w1 :
  m w = (Raise e, w1) -> (m ≫= f) w = (Raise e, w1).
Proof. intros H. unfold mbind, M_bind. by rewrite H. Qed.

Lemma bind_ok_inv (m : M A) (f : A -> M B) w y w' :
  (m ≫= f) w = (Ok y, w') ->
  exists x w1, m w = (Ok x, w1) /\ f x w1 = (Ok y, w').
Proof.
  unfold mbind, M_bind. destruct (m w) as [[x|e] w1]; intros H; [|discriminate].
  by exists x, w1.
Qed.

Lemma res_bind_ok_inv (r : res A) (f : A -> res B) y :
  r ≫= f = Ok y -> exists x, r = Ok x /\ f x = Ok y.
Proof. destruct r as [x|e]; cbn; intros H; [|discriminate]. by exists x. Qed.

End Monad.

Section Wp.

Context {A B : Type}.

Lemma wp_run (m : M A) Q w r w' : wp m Q w -> m w = (r, w') -> Q r w'.
Proof. unfold wp. intros H E. by rewrite E in H. Qed.

Lemma wp_mono (m : M A) (Q Q' : res A -> world -> Prop) w :
  wp m Q w -> (forall r w', Q r w' -> Q' r w') -> wp m Q' w.
Proof. unfold wp. auto. Qed.

Lemma wp_bind (m : M A) (f : A -> M B) Q w :
  wp m (fun r w1 => match r with
                    | Ok x => wp (f x) Q w1
                    | Raise e => Q (Raise e) w1
                    end) w ->
  wp (m ≫= f) Q w.
Proof. unfold wp, mbind, M_bind. by destruct (m w) as [[x|e] w1]. Qed.

Lemma wp_ret (x : A) Q w : Q (Ok x) w -> wp (mret x) Q w.
Proof. done. Qed.

Lemma wp_lift (r : res A) Q w : Q r w -> wp (lift r) Q w.
Proof. done. Qed.

Lemma wp_raise e (Q : res A -> world -> Prop) w : Q (Raise e) w -> wp (raise e) Q w.
Proof. done. Qed.

End Wp.

Lemma wp_emit e Q w : Q (Ok tt) (MkWorld (heap w) (trace w ++ [e])) -> wp (emit e) Q w.
Proof. done. Qed.

Lemma wp_get_trace Q w : Q (Ok (trace w)) w -> wp get_trace Q w.
Proof. done. Qed.

Lemma wp_alloc o Q w :
  Q (Ok (length (heap w))) (MkWorld (heap w ++ [o]) (trace w)) -> wp (alloc o) Q w.
Proof. done. Qed.

Lemma wp_store l o Q w :
  Q (Ok tt) (MkWorld (<[l := o]> (heap w)) (trace w)) -> wp (store l o) Q w.
Proof. done. Qed.

Lemma wp_load l Q w :
  (forall o, heap w !! l = Some o -> Q (Ok o) w) ->
  (heap w !! l = None -> Q (Raise TypeError) w) ->
  wp (load l) Q w.
Proof.
  unfold wp, load. intros H1 H2. destruct (heap w !! l) as [o|] eqn:E; cbn; auto.
Qed.

Lemma wp_load_dict l Q w :
  (forall d, heap w !! l = Some (ODict d) -> Q (Ok d) w) ->
  Q (Raise TypeError) w ->
  wp (load_dict l) Q w.
Proof.
  intros H1 H2. unfold load_dict. apply wp_bind, wp_load; [|done].
  intros [d| | | |] Ho; try done. by apply wp_ret, H1.
Qed.

Lemma wp_load_ints l Q w :
  (forall xs, heap w !! l = Some (OInts xs) -> Q (Ok xs) w) ->
  Q (Raise TypeError) w ->
  wp (load_ints l) Q w.
Proof.
  intros H1 H2. unfold load_ints. apply wp_bind, wp_load; [|done].
  intros [|xs| | |] Ho; try done. by apply wp_ret, H1.
Qed.

Lemma wp_load_cells l Q w :
  (forall t, heap w !! l = Some (OCells t) -> Q (Ok t) w) ->
  Q (Raise TypeError) w ->
  wp (load_cells l) Q w.
Proof.
  intros H1 H2. unfold load_cells. apply wp_bind, wp_load; [|done].
  intros [| |t| |] Ho; try done. by apply wp_ret, H1.
Qed.

Lemma wp_load_floats l Q w :
  (forall t, heap w !! l = Some (OFloats t) -> Q (Ok t) w) ->
  Q (Raise TypeError) w ->
  wp (load_floats l) Q w.
Proof.
  intros H1 H2. unfold load_floats. apply wp_bind, wp_load; [|done].
  intros [| | |t|] Ho; try done. by apply wp_ret, H1.
Qed.

Lemma wp_update_dict l f Q w :
  (forall d, heap w !! l = Some (ODict d) ->
             Q (Ok tt) (MkWorld (<[l := ODict (f d)]> (heap w)) (trace w))) ->
  Q (Raise TypeError) w ->
  wp (update_dict l f) Q w.
Proof.
  intros H1 H2. unfold update_dict. apply wp_bind, wp_load_dict; [|done].
  intros d Hd. by apply wp_store, H1.
Qed.

Lemma wp_copy_obj l Q w :
  (forall o, heap w !! l = Some o ->
             Q (Ok (length (heap w))) (MkWorld (heap w ++ [o]) (trace w))) ->
  Q (Raise TypeError) w ->
  wp (copy_obj l) Q w.
Proof.
  intros H1 H2. unfold copy_obj. apply wp_bind, wp_load; [|done].
  intros o Ho. by apply wp_alloc, H1.
Qed.

Ltac wp_step :=
  lazymatch goal with
  | |- wp (mbind _ _) _ _ => apply wp_bind
  | |- wp (mret _) _ _ => apply wp_ret
  | |- wp (lift _) _ _ => apply wp_lift
  | |- wp (raise _) _ _ => apply wp_raise
  | |- wp (emit _) _ _ => apply wp_emit
  | |- wp get_trace _ _ => apply wp_get_trace
  | |- wp (alloc _) _ _ => apply wp_alloc
  | |- wp (load_dict _) _ _ => apply wp_load_dict; [intros ? ?|]
  | |- wp (load_ints _) _ _ => apply wp_load_ints; [intros ? ?|]
  | |- wp (load_cells _) _ _ => apply wp_load_cells; [intros ? ?|]
  | |- wp (load_floats _) _ _ => apply wp_load_floats; [intros ? ?|]
  | |- wp (load _) _ _ => apply wp_load; [intros ? ?|intros ?]
  | |- wp (update_dict _ _) _ _ => apply wp_update_dict; [intros ? ?|]
  | |- wp (copy_obj _) _ _ => apply wp_copy_obj; [intros ? ?|]
  | |- wp (match ?x with _ => _ end) _ _ => destruct x eqn:?
  | |- match ?r with Ok _ => _ | Raise _ => _ end => destruct r eqn:?
  end; cbn beta.

Ltac wp_steps := repeat wp_step.

(** ** The caller's objects are left alone *)

Section Frame.

Variable os_name : string.
Variable popen : list string -> list event -> option procres.
Variable h0 : list obj.

Lemma framed_trace w t : framed h0 w -> framed h0 (MkWorld (heap w) t).
Proof. done. Qed.

Lemma framed_alloc w o t : framed h0 w -> framed h0 (MkWorld (heap w ++ [o]) t).
Proof. intros H. by apply prefix_app_r. Qed.

Lemma framed_store w l o t :
  framed h0 w -> (length h0 <= l)%nat -> framed h0 (MkWorld (<[l := o]> (heap w)) t).
Proof.
  unfold framed. cbn. intros [k ->] Hl.
  rewrite insert_app_r_alt by done. by apply prefix_app_r.
Qed.

Lemma framed_length w : framed h0 w -> (length h0 <= length (heap w))%nat.
Proof. apply prefix_length. Qed.

Lemma deepcopy_framed p w :
  framed h0 w ->
  wp (deepcopy p)
     (fun r w' => framed h0 w' /\ forall m, r = Ok m -> (length h0 <= m)%nat) w.
Proof.
  intros Hw. unfold deepcopy.
  wp_steps; try (split; [eauto using framed_alloc|done]).
  all: split; [eauto 6 using framed_alloc|].
  all: intros m [= <-]; cbn; rewrite ?length_app; cbn;
    pose proof (framed_length _ Hw); lia.
Qed.

Lemma update_dict_framed l f w :
  framed h0 w -> (length h0 <= l)%nat ->
  wp (update_dict l f) (fun _ w' => framed h0 w') w.
Proof. intros Hw Hl. wp_steps; [|done]. by apply framed_store. Qed.

Lemma prepare_framed p w :
  framed h0 w ->
  wp (prepare p)
     (fun r w' => framed h0 w' /\ forall m, r = Ok m -> (length h0 <= m)%nat) w.
Proof.
  intros Hw. unfold prepare. apply wp_bind.
  eapply wp_mono; [by apply deepcopy_framed|].
  intros [m|e] w1 [Hw1 Hm]; [|done]. specialize (Hm m eq_refl).
  wp_steps; eauto using framed_store, framed_alloc, framed_trace.
  all: try (split; [eauto 8 using framed_store, framed_alloc, framed_trace|]).
  all: try by intros ? [= <-].
  all: try done.
Qed.

Lemma validate_world m w : wp (validate m) (fun _ w' => w' = w) w.
Proof. unfold validate. wp_steps; done. Qed.

Lemma write_par_framed m apar adir w :
  framed h0 w -> (length h0 <= m)%nat ->
  wp (write_par m apar adir) (fun _ w' => framed h0 w') w.
Proof.
  intros Hw Hm. unfold write_par.
  wp_steps; eauto 8 using framed_store, framed_alloc, framed_trace.
Qed.

Lemma invoke_framed gp fpar silent w :
  framed h0 w -> wp (invoke popen gp fpar silent) (fun _ w' => framed h0 w') w.
Proof.
  intros Hw. unfold invoke. wp_steps; done.
Qed.

Lemma parse_world p m apar pr w : wp (parse p m apar pr) (fun _ w' => w' = w) w.
Proof. unfold parse. wp_steps; done. Qed.

Lemma after_engine_world p m apar pr w :
  wp (after_engine p m apar pr) (fun _ w' => w' = w) w.
Proof.
  unfold after_engine. apply wp_bind.
  eapply wp_mono; [apply parse_world|].
  intros [vg|e] ? ->; [|done]. wp_steps; done.
Qed.

Lemma before_engine_framed p w :
  framed h0 w -> wp (before_engine p) (fun _ w' => framed h0 w') w.
Proof.
  intros Hw. unfold before_engine. apply wp_bind.
  eapply wp_mono; [by apply prepare_framed|].
  intros [m|e] w1 [Hw1 Hm]; [|done]. specialize (Hm m eq_refl).
  apply wp_bind. eapply wp_mono; [apply validate_world|].
  intros [[apar adir]|e] ? ->; [|done].
  apply wp_bind. eapply wp_mono; [by apply write_par_framed|].
  intros [fpar|e] w2 Hw2; [|done]. by apply wp_ret.
Qed.

Lemma gamv_framed p gp silent w :
  framed h0 w -> wp (gamv os_name popen p gp silent) (fun _ w' => framed h0 w') w.
Proof.
  intros Hw. unfold gamv. apply wp_bind.
  eapply wp_mono; [by apply before_engine_framed|].
  intros [[[m apar] fpar]|e] w1 Hw1; [|done].
  apply wp_bind. eapply wp_mono; [by apply invoke_framed|].
  intros [pr|e] w2 Hw2; [|done].
  eapply wp_mono; [apply after_engine_world|]. by intros r ? ->.
Qed.

End Frame.

Lemma holds_prefix w w' p c : holds w p c -> heap w `prefix_of` heap w' -> holds w' p c.
Proof.
  intros (Hd & Hv & Hdir & Hp & Hdata) Hpre. unfold holds.
  repeat split; eauto using prefix_lookup_Some.
  destruct (datafl (c_dict c)); try done.
  destruct Hdata as (arr & ? & ?). eauto using prefix_lookup_Some.
Qed.

(** C10.  Whatever the call does and however it ends, the objects the
    caller had are as they were: the heap of the final world starts with
    the heap of the initial one, so the dictionary [parameters] and the
    arrays it refers to hold the same configuration as before. *)
Theorem gamv_keeps_parameters (os_name : string)
    (popen : list string -> list event -> option procres)
    (parameters : loc) (gslib_path : option string) (silent : flag) (w : world) :
  framed (heap w) (gamv os_name popen parameters gslib_path silent w).2 /\
  forall c, holds w parameters c ->
            holds (gamv os_name popen parameters gslib_path silent w).2 parameters c.
Proof.
  assert (H : framed (heap w) (gamv os_name popen parameters gslib_path silent w).2).
  { assert (H0 : framed (heap w) w) by (unfold framed; reflexivity).
    exact (gamv_framed os_name popen (heap w) parameters gslib_path silent w H0). }
  split; [done|]. intros c Hc. by eapply holds_prefix.
Qed.

(** ** Running the phases on a well-formed heap *)

Lemma wp_load_at l o Q w : heap w !! l = Some o -> Q (Ok o) w -> wp (load l) Q w.
Proof. unfold wp, load. by intros ->. Qed.

Lemma wp_load_dict_at l d Q w :
  heap w !! l = Some (ODict d) -> Q (Ok d) w -> wp (load_dict l) Q w.
Proof.
  intros H HQ. unfold load_dict. eapply wp_bind, wp_load_at; [done|]. by apply wp_ret.
Qed.

Lemma wp_load_ints_at l xs Q w :
  heap w !! l = Some (OInts xs) -> Q (Ok xs) w -> wp (load_ints l) Q w.
Proof.
  intros H HQ. unfold load_ints. eapply wp_bind, wp_load_at; [done|]. by apply wp_ret.
Qed.

Lemma wp_load_cells_at l t Q w :
  heap w !! l = Some (OCells t) -> Q (Ok t) w -> wp (load_cells l) Q w.
Proof.
  intros H HQ. unfold load_cells. eapply wp_bind, wp_load_at; [done|]. by apply wp_ret.
Qed.

Lemma wp_load_floats_at l t Q w :
  heap w !! l = Some (OFloats t) -> Q (Ok t) w -> wp (load_floats l) Q w.
Proof.
  intros H HQ. unfold load_floats. eapply wp_bind, wp_load_at; [done|]. by apply wp_ret.
Qed.

Lemma wp_update_dict_at l d f Q w :
  heap w !! l = Some (ODict d) ->
  Q (Ok tt) (MkWorld (<[l := ODict (f d)]> (heap w)) (trace w)) ->
  wp (update_dict l f) Q w.
Proof.
  intros H HQ. unfold update_dict.
  eapply wp_bind, wp_load_dict_at; [done|]. by apply wp_store.
Qed.

Lemma wp_copy_obj_at l o Q w :
  heap w !! l = Some o ->
  Q (Ok (length (heap w))) (MkWorld (heap w ++ [o]) (trace w)) ->
  wp (copy_obj l) Q w.
Proof.
  intros H HQ. unfold copy_obj. eapply wp_bind, wp_load_at; [done|]. by apply wp_alloc.
Qed.

Lemma lookup_snoc_new {A} (l : list A) x : (l ++ [x]) !! length l = Some x.
Proof. by apply list_lookup_middle. Qed.

Ltac heap_lookup :=
  cbn [heap];
  solve [ repeat first [ eassumption
                       | apply lookup_snoc_new
                       | apply lookup_app_l_Some ] ].

Lemma deepcopy_spec p c w :
  holds w p c ->
  wp (deepcopy p)
     (fun r w' => exists m src v dir par,
        r = Ok m /\ trace w' = trace w /\ framed (heap w) w' /\
        (length (heap w) <= m)%nat /\
        holds w' m (set_dict (with_refs src v dir par (c_dict c)) c) /\
        match datafl (c_dict c) with
        | DArray _ => exists a, src = DArray a
        | o => src = o
        end) w.
Proof.
  intros (Hd & Hv & Hdir & Hp & Hdata).
  unfold deepcopy. eapply wp_bind, wp_load_dict_at; [done|].
  destruct (datafl (c_dict c)) as [path| |a] eqn:Hsrc.
  1,2: wp_step; wp_step.
  3: destruct Hdata as (arr & Harr & Ha); wp_step;
     eapply wp_bind, wp_copy_obj_at; [heap_lookup|]; wp_step.
  all: eapply wp_bind, wp_copy_obj_at; [heap_lookup|].
  all: eapply wp_bind, wp_copy_obj_at; [heap_lookup|].
  all: eapply wp_bind, wp_copy_obj_at; [heap_lookup|].
  all: apply wp_alloc; cbn [heap trace].
  all: eexists _, _, _, _, _; split; [reflexivity|]; split; [reflexivity|].
  all: split; [unfold framed; cbn [heap]; rewrite <- !app_assoc; by apply prefix_app_r|].
  all: split; [rewrite !length_app; lia|].
  all: split;
    [ unfold holds, set_dict; cbn -[lookup]; rewrite ?Hsrc;
      repeat split; try heap_lookup; try done;
      try (eexists; split; [done|heap_lookup])
    | by eauto ].
Qed.

Lemma holds_update w m c d' vars' data' t :
  holds w m c ->
  heap w !! ivar d' = Some (OInts vars') ->
  ivdir d' = ivdir (c_dict c) ->
  ivpar d' = ivpar (c_dict c) ->
  match datafl d' with
  | DArray a => exists arr, data' = Some arr /\ heap w !! a = Some (ONd arr)
  | _ => data' = None
  end ->
  holds (MkWorld (<[m := ODict d']> (heap w)) t) m
        (MkConfig d' vars' (c_dirs c) (c_pars c) data').
Proof.
  intros (Hd & Hv & Hdir & Hp & Hdata) Hv' Edir Epar Hdata'.
  assert (Hm : (m < length (heap w))%nat) by (by eapply lookup_lt_Some).
  unfold holds. cbn -[lookup]. rewrite Edir, Epar.
  split; [by apply list_lookup_insert_eq|].
  split; [rewrite list_lookup_insert_ne; [done|congruence]|].
  split; [rewrite list_lookup_insert_ne; [done|congruence]|].
  split; [rewrite list_lookup_insert_ne; [done|congruence]|].
  destruct (datafl d'); try done.
  destruct Hdata' as (arr & ? & ?). exists arr. split; [done|].
  rewrite list_lookup_insert_ne; [done|congruence].
Qed.

Lemma holds_alloc w m c o t : holds w m c -> holds (MkWorld (heap w ++ [o]) t) m c.
Proof. intros H. eapply holds_prefix; [done|]. by apply prefix_app_r. Qed.

Lemma arange_vars (n : nat) : np_arange 4 (Z.of_nat n + 1) 1 = Ok (var_columns n).
Proof.
  unfold np_arange, var_columns. cbn [Z.eqb]. f_equal.
  replace (Z.to_nat (- ((4 - (Z.of_nat n + 1)) / 1))) with (n - 3)%nat
    by (rewrite Z.div_1_r; lia).
  apply map_ext. intros k. lia.
Qed.

Lemma wp_bind_mid {A B} (m : M A) (f : A -> M B) (Q1 : res A -> world -> Prop) Q w :
  wp m Q1 w ->
  (forall x w1, Q1 (Ok x) w1 -> wp (f x) Q w1) ->
  (forall e w1, Q1 (Raise e) w1 -> Q (Raise e) w1) ->
  wp (m ≫= f) Q w.
Proof.
  intros H1 H2 H3. apply wp_bind. eapply wp_mono; [exact H1|].
  intros [x|e] w1 HQ; auto.
Qed.

Lemma holds_heap w w' m c : heap w' = heap w -> holds w m c -> holds w' m c.
Proof. unfold holds. by intros ->. Qed.

Lemma wp_update_holds m c f vars' data' Q w :
  holds w m c ->
  heap w !! ivar (f (c_dict c)) = Some (OInts vars') ->
  ivdir (f (c_dict c)) = ivdir (c_dict c) ->
  ivpar (f (c_dict c)) = ivpar (c_dict c) ->
  match datafl (f (c_dict c)) with
  | DArray a => exists arr, data' = Some arr /\ heap w !! a = Some (ONd arr)
  | _ => data' = None
  end ->
  (forall w',
      holds w' m (MkConfig (f (c_dict c)) vars' (c_dirs c) (c_pars c) data') ->
      trace w' = trace w ->
      (forall h0, framed h0 w -> (length h0 <= m)%nat -> framed h0 w') ->
      (forall l o, l <> m -> heap w !! l = Some o -> heap w' !! l = Some o) ->
      Q (Ok tt) w') ->
  wp (update_dict m f) Q w.
Proof.
  intros Hc Hv Edir Epar Hdata HQ.
  eapply wp_update_dict_at; [apply Hc|]. apply HQ.
  - by apply holds_update.
  - done.
  - intros h0 Hfr Hm. by apply framed_store.
  - intros l o Hl Ho. cbn [heap]. by rewrite list_lookup_insert_ne.
Qed.

Lemma wp_alloc_holds m c o Q w :
  holds w m c ->
  (forall w' l,
      holds w' m c -> heap w' !! l = Some o -> trace w' = trace w ->
      (forall h0, framed h0 w -> framed h0 w') ->
      Q (Ok l) w') ->
  wp (alloc o) Q w.
Proof.
  intros Hc HQ. apply wp_alloc, HQ.
  - by apply holds_alloc.
  - apply lookup_snoc_new.
  - done.
  - intros h0 Hfr. by apply framed_alloc.
Qed.

Lemma prepare_spec p c w :
  holds w p c -> data_ok c ->
  wp (prepare p)
     (fun r w' => exists m d',
        r = Ok m /\ trace w' = trace w ++ data_events c /\ framed (heap w) w' /\
        (length (heap w) <= m)%nat /\
        holds w' m (MkConfig d' (effective_vars c) (c_dirs c) (c_pars c) None) /\
        same_entries (prepared c) d') w.
Proof.
  intros Hc Hok. unfold prepare. apply wp_bind.
  eapply wp_mono; [by apply deepcopy_spec|]. cbn beta.
  intros r w1 (m & src & v & dir & par & -> & Ht & Hfr & Hm & Hm1 & Hsrc).
  pose proof (holds_prefix _ _ _ _ Hc Hfr) as Hc1.
  destruct Hc1 as (Hd & Hv & Hdir & Hp & Hdata).
  eapply wp_bind, wp_load_dict_at; [done|].
  eapply (wp_bind_mid _ _ (fun r w2 => exists d2,
      r = Ok tt /\ trace w2 = trace w ++ data_events c /\ framed (heap w) w2 /\
      holds w2 m (MkConfig d2 (effective_vars c) (c_dirs c) (c_pars c) None) /\
      same_entries (prepared_src c) d2)).
  - unfold prepared_src, data_events, effective_vars, data_ok, set_dict in *.
    destruct (datafl (c_dict c)) as [path| |a] eqn:Esrc.
    + subst src. wp_step. rewrite Hdata in *. eexists. split; [done|].
      rewrite app_nil_r. split; [done|]. split; [done|]. split; [exact Hm1|].
      unfold same_entries. cbn. by rewrite Esrc.
    + subst src. rewrite Hdata in *.
      eapply wp_update_dict_at; [apply Hm1|].
      eexists. split; [done|]. rewrite app_nil_r. split; [done|].
      split. { apply framed_store; [done|lia]. }
      split.
      { eapply (holds_update _ _ _ _ _ None) in Hm1; [exact Hm1|..]; try done.
        apply Hm1. }
      unfold same_entries. cbn. reflexivity.
    + destruct Hsrc as [a' ->]. destruct Hdata as (arr & Harr & Ha).
      rewrite Harr in *.
      eapply wp_bind, wp_load_at; [done|].
      destruct (nd_shape arr) as [|n0 [|ncol [|? ?]]] eqn:Eshape; try done.
      unfold ncols. rewrite Eshape. cbn [lookup list_lookup default].
      wp_step. wp_step. cbn [length Nat.eqb py_assert].
      eapply wp_bind, (wp_update_holds _ _ _ (c_vars c) None); [exact Hm1|apply Hm1|done|done|done|].
      intros w2 Hm2 Ht2 Hfr2 _.
      eapply wp_bind, (wp_update_holds _ _ _ (c_vars c) None); [exact Hm2|apply Hm2|done|done|done|].
      intros w3 Hm3 Ht3 Hfr3 _.
      wp_step. wp_step. wp_step. wp_step. rewrite arange_vars.
      eapply wp_bind, wp_alloc_holds; [exact Hm3|].
      intros w4 l Hm4 Hl Ht4 Hfr4.
      eapply wp_bind, (wp_update_holds _ _ _ (var_columns ncol) None);
        [exact Hm4|exact Hl|done|done|done|].
      intros w5 Hm5 Ht5 Hfr5 _.
      apply wp_emit. eexists. split; [done|]. cbn [heap trace].
      split. { by rewrite Ht5, Ht4, Ht3, Ht2, Ht. }
      split. { apply framed_trace, Hfr5; [|done]. apply Hfr4, Hfr3; [|done]. by apply Hfr2. }
      split. { eapply holds_heap; [|exact Hm5]. done. }
      unfold same_entries. cbn. reflexivity.
  - intros [] w2 (d2 & _ & Ht2 & Hfr2 & Hm2 & Hd2).
    eapply wp_bind, wp_load_dict_at; [apply Hm2|]. cbn [c_dict].
    assert (Eout : outfl d2 = outfl (prepared_src c)) by (by rewrite Hd2).
    unfold prepared, with_default_outfl. rewrite <- Eout.
    destruct (outfl d2) as [o|] eqn:Eo.
    + wp_step. wp_step. wp_step. by exists m, d2.
    + eapply wp_bind, (wp_update_holds _ _ _ (effective_vars c) None);
        [exact Hm2|apply Hm2|done|done| |].
      { cbn. destruct Hm2 as (_ & _ & _ & _ & H). exact H. }
      intros w3 Hm3 Ht3 Hfr3 _. wp_step.
      eexists m, _. split; [done|]. split; [congruence|].
      split; [by apply Hfr3|]. split; [done|]. split; [exact Hm3|].
      unfold same_entries. cbn. rewrite Hd2. reflexivity.
  - intros e w2 (d2 & [=] & _).
Qed.

Lemma validate_spec m c w :
  holds w m c ->
  wp (validate m)
     (fun r w' => w' = w /\ r = check_arrays (c_vars c) (c_dirs c) (c_pars c)) w.
Proof.
  intros (Hd & Hv & Hdir & Hp & Hdata). unfold validate, check_arrays.
  eapply wp_bind, wp_load_dict_at; [done|].
  eapply wp_bind, wp_load_cells_at; [done|].
  wp_step. wp_step. destruct (np_array (c_pars c)) as [apar|e]; [|done]. cbn [mbind res_bind].
  eapply wp_bind, wp_load_floats_at; [done|].
  wp_step. wp_step. destruct (np_array (c_dirs c)) as [adir|e]; [|done]. cbn [mbind res_bind].
  wp_step. wp_step. destruct (shape_at apar 1) as [n|e]; [|done]. cbn [mbind res_bind].
  wp_step. wp_step. destruct (py_assert (n =? 4)%nat) as [[]|e]; [|done]. cbn [mbind res_bind].
  wp_step. wp_step. destruct (shape_at adir 1) as [n'|e]; [|done]. cbn [mbind res_bind].
  wp_step. wp_step. destruct (py_assert (n' =? 6)%nat) as [[]|e]; [|done]. cbn [mbind res_bind].
  eapply wp_bind, wp_load_ints_at; [done|].
  wp_step. wp_step.
  destruct (check_ivpar _ _ _) as [rs|e]; [|done]. cbn [mbind res_bind].
  by wp_step.
Qed.

Lemma shape_at_nrows {A} (a : nparray A) n : shape_at a 0 = Ok n -> nrows_of a = n.
Proof. unfold shape_at, nrows_of. destruct (shape a !! 0%nat); [|done]. by intros [= ->]. Qed.

Lemma write_par_spec m c apar adir n1 n2 w :
  holds w m c ->
  shape_at apar 0 = Ok n1 -> shape_at adir 0 = Ok n2 ->
  wp (write_par m apar adir)
     (fun r w' => exists par,
        r = Ok "_xxx_.par" /\
        format_par (with_blocks (c_vars c) apar adir (c_dict c)) = Ok par /\
        trace w' = trace w ++ [EvPrint (PPar par); EvWrite "_xxx_.par" (FPar par)] /\
        (forall h0, framed h0 w -> (length h0 <= m)%nat -> framed h0 w') /\
        holds w' m (set_dict (with_blocks (c_vars c) apar adir (c_dict c)) c)) w.
Proof.
  intros Hc H1 H2. unfold write_par.
  pose proof Hc as (Hd & Hv & Hdir & Hp & Hdata).
  eapply wp_bind, wp_load_dict_at; [done|].
  eapply wp_bind, wp_load_ints_at; [done|].
  eapply wp_bind, (wp_update_holds _ _ _ (c_vars c) (c_data c)); [exact Hc|done..|].
  intros w1 Hc1 Ht1 Hfr1 _.
  wp_step. wp_step. rewrite H1. 
  eapply wp_bind, (wp_update_holds _ _ _ (c_vars c) (c_data c)); [exact Hc1|apply Hc1|done|done|apply Hc1|].
  intros w2 Hc2 Ht2 Hfr2 _.
  wp_step. wp_step. rewrite H2.
  eapply wp_bind, (wp_update_holds _ _ _ (c_vars c) (c_data c)); [exact Hc2|apply Hc2|done|done|apply Hc2|].
  intros w3 Hc3 Ht3 Hfr3 _.
  eapply wp_bind, wp_load_dict_at; [apply Hc3|].
  wp_step. wp_step. cbn [c_dict format_par with_dir_block with_varg_block with_var_block
    nvar ivar_ ndir ivdir_ nvarg ivpar_ get_key mbind res_bind].
  wp_step. wp_step. wp_step. wp_step. wp_step.
  eexists. split; [done|]. cbn [heap trace].
  unfold with_blocks. rewrite (shape_at_nrows _ _ H1), (shape_at_nrows _ _ H2).
  split; [reflexivity|].
  split. { rewrite Ht3, Ht2, Ht1, <- !app_assoc. reflexivity. }
  split. { intros h0 Hfr Hm. unfold framed. cbn [heap]. apply Hfr3; [|done].
           apply Hfr2; [|done]. by apply Hfr1. }
  eapply holds_heap; [|exact Hc3]. done.
Qed.

Section Invoke.

Variable os_name : string.
Variable popen : list string -> list event -> option procres.

Lemma invoke_spec gp fpar silent w :
  wp (invoke popen gp fpar silent)
     (fun r w' =>
        heap w' = heap w /\
        let t1 := trace w ++ [EvSpawn [gp; fpar]] in
        match popen [gp; fpar] t1 with
        | None => r = Raise OSError /\ trace w' = t1
        | Some p =>
          if returncode p =? 0
          then r = Ok p /\ trace w' = t1 ++ echo silent p
          else r = engine_error p /\ trace w' = t1
        end) w.
Proof.
  unfold invoke. wp_step. wp_step. wp_step. wp_step. cbn [heap trace]. cbn zeta.
  destruct (popen _ _) as [p|]; [|by wp_step].
  unfold echo, engine_error.
  destruct (returncode p =? 0); cbn [negb].
  - destruct (truthy (py_invert silent)).
    + destruct (decode_utf8 (stdout p)); wp_step; wp_step; by wp_step.
    + wp_step. wp_step. wp_step. cbn [heap trace]. by rewrite app_nil_r.
  - wp_step. wp_step. destruct (decode_utf8 (stderr p)); [by wp_step|done].
Qed.

End Invoke.

Lemma parse_spec p m c0 d apar pr n1 n2 path w :
  holds w p c0 ->
  heap w !! m = Some (ODict d) ->
  nvarg d = Some n1 -> ndir d = Some n2 -> outfl d = Some path ->
  wp (parse p m apar pr)
     (fun r w' => w' = w /\
        r = (types ← column 2 (rows apar);
             read_results n1 n2 (nlag d) types (c_pars c0) (files pr path))) w.
Proof.
  intros (Hd & Hv & Hdir & Hp & Hdata) Hm E1 E2 E3. unfold parse.
  eapply wp_bind, wp_load_dict_at; [done|]. rewrite E1, E2, E3. cbn [get_key].
  wp_step. wp_step. wp_step. wp_step. wp_step. wp_step.
  destruct (column 2 (rows apar)) as [types|e]; [|done]. cbn [mbind res_bind].
  wp_step. wp_step. wp_step.
  eapply wp_bind, wp_load_dict_at; [done|].
  eapply wp_load_cells_at; [done|].
  by wp_step.
Qed.

Lemma after_engine_spec p m c0 d apar pr n1 n2 path w :
  holds w p c0 ->
  heap w !! m = Some (ODict d) ->
  nvarg d = Some n1 -> ndir d = Some n2 -> outfl d = Some path ->
  wp (after_engine p m apar pr)
     (fun r w' => w' = w /\
        r = (types ← column 2 (rows apar);
             vg ← read_results n1 n2 (nlag d) types (c_pars c0) (files pr path);
             vg ← cleanup vg;
             df_set_index ["Variogram"; "Direction"; "Lag"] vg)) w.
Proof.
  intros Hc Hm E1 E2 E3. unfold after_engine.
  eapply wp_bind_mid; [by eapply parse_spec|..].
  - intros vg ? [-> Hr]. 
    destruct (column 2 (rows apar)) as [types|e]; [|done]. cbn [mbind res_bind] in *.
    rewrite <- Hr. cbn [mbind res_bind].
    wp_step. wp_step. destruct (cleanup vg) as [vg'|e]; [|done]. cbn [mbind res_bind].
    by wp_step.
  - intros e ? [-> Hr]. split; [done|].
    destruct (column 2 (rows apar)) as [types|e']; [|done]. cbn [mbind res_bind] in *.
    by rewrite <- Hr.
Qed.

Lemma prepare_bad_data p c w :
  holds w p c -> data_okb c = false ->
  wp (prepare p) (fun r w' => r = Raise AssertionError /\ trace w' = trace w) w.
Proof.
  intros Hc Hbad. unfold prepare. apply wp_bind.
  eapply wp_mono; [by apply deepcopy_spec|]. cbn beta.
  intros r w1 (m & src & v & dir & par & -> & Ht & Hfr & Hm & Hm1 & Hsrc).
  pose proof (holds_prefix _ _ _ _ Hc Hfr) as (Hd & Hv & Hdir & Hp & Hdata).
  eapply wp_bind, wp_load_dict_at; [done|].
  unfold data_okb in Hbad.
  destruct (datafl (c_dict c)) as [path| |a] eqn:Esrc; try (by rewrite Hdata in Hbad).
  destruct Hdata as (arr & Harr & Ha). rewrite Harr in Hbad.
  wp_step. eapply wp_bind, wp_load_at; [done|].
  apply wp_bind, wp_lift. by rewrite Hbad.
Qed.

Lemma np_array_shape {A} (rs : list (list A)) a n :
  np_array rs = Ok a -> shape_at a 1 = Ok n ->
  a = MkArr [length rs; n] rs /\ rs <> [] /\ Forall (fun r => length r = n) rs.
Proof.
  unfold np_array. destruct rs as [|r rest]; [by intros [= <-]|].
  destruct (forallb _ rest) eqn:Hall; [|done]. intros [= <-]. cbn.
  intros [= <-]. split; [done|]. split; [done|].
  constructor; [done|]. apply Forall_forall. intros r' Hr'.
  rewrite forallb_forall in Hall. apply Nat.eqb_eq, Hall. by apply list_elem_of_In.
Qed.

Lemma check_arrays_inv vars dirs pars apar adir :
  check_arrays vars dirs pars = Ok (apar, adir) ->
  pars <> [] /\ dirs <> [] /\
  Forall (fun r => length r = 4%nat) pars /\
  Forall (fun r => length r = 6%nat) dirs /\
  adir = MkArr [length dirs; 6%nat] dirs /\
  shape apar = [length pars; 4%nat] /\
  check_ivpar (length vars) (infer_dtype pars) (MkArr [length pars; 4%nat] pars)
  = Ok (rows apar).
Proof.
  unfold check_arrays. intros H.
  apply res_bind_ok_inv in H as (a1 & Ha1 & H).
  apply res_bind_ok_inv in H as (a2 & Ha2 & H).
  apply res_bind_ok_inv in H as (n1 & Hn1 & H).
  apply res_bind_ok_inv in H as ([] & Hs1 & H).
  apply res_bind_ok_inv in H as (n2 & Hn2 & H).
  apply res_bind_ok_inv in H as ([] & Hs2 & H).
  apply res_bind_ok_inv in H as (rs & Hrs & H).
  injection H as <- <-.
  unfold py_assert in Hs1, Hs2.
  destruct (Nat.eqb_spec n1 4); [subst n1|done].
  destruct (Nat.eqb_spec n2 6); [subst n2|done].
  destruct (np_array_shape _ _ _ Ha1 Hn1) as (-> & ? & ?).
  destruct (np_array_shape _ _ _ Ha2 Hn2) as (-> & ? & ?).
  done.
Qed.

Lemma format_par_blocks c apar adir d' :
  same_entries (prepared c) d' ->
  format_par (with_blocks (effective_vars c) apar adir d') = Ok (par_of c apar adir).
Proof. intros ->. reflexivity. Qed.

Section Refine.

Variable os_name : string.
Variable popen : list string -> list event -> option procres.

Lemma before_engine_spec p c w :
  holds w p c -> data_okb c = true ->
  wp (before_engine p)
     (fun r w' =>
        framed (heap w) w' /\
        match check_arrays (effective_vars c) (c_dirs c) (c_pars c) with
        | Raise e => r = Raise e /\ trace w' = trace w ++ data_events c
        | Ok (apar, adir) =>
          exists m d,
            r = Ok (m, apar, "_xxx_.par") /\
            trace w' = trace w ++ data_events c
                       ++ [EvPrint (PPar (par_of c apar adir));
                           EvWrite "_xxx_.par" (FPar (par_of c apar adir))] /\
            heap w' !! m = Some (ODict d) /\
            nvarg d = Some (nrows_of apar) /\ ndir d = Some (nrows_of adir) /\
            nlag d = nlag (c_dict c) /\ outfl d = Some (out_path c)
        end) w.
Proof.
  intros Hc Hok. unfold before_engine.
  assert (Hok' : data_ok c).
  { unfold data_ok, data_okb in *. destruct (c_data c); [|done]. by apply Nat.eqb_eq. }
  eapply wp_bind_mid; [by apply prepare_spec|..]; cbn beta.
  2:{ by intros e w1 (m & d' & [=] & _). }
  intros m' w1 (m & d' & [= ->] & Ht1 & Hfr1 & Hm & Hm1 & Hd').
  eapply wp_bind_mid; [by eapply validate_spec|..]; cbn beta; cbn [c_vars c_dirs c_pars].
  2:{ intros e ? [-> <-]. split; [done|]. done. }
  intros [apar adir] ? [-> Hchk]. symmetry in Hchk. rewrite Hchk.
  destruct (check_arrays_inv _ _ _ _ _ Hchk) as (_ & _ & _ & _ & -> & Hsh & _).
  eapply wp_bind_mid;
    [eapply (write_par_spec _ _ _ _ (length (c_pars c)) (length (c_dirs c))); [exact Hm1|..]|..].
  { unfold shape_at. by rewrite Hsh. }
  { done. }
  2:{ by intros e w2 (par & [=] & _). }
  cbn beta. cbn [c_vars c_dict].
  intros fpar w2 (par & [= ->] & Hpar & Ht2 & Hfr2 & Hm2).
  rewrite (format_par_blocks _ _ _ _ Hd') in Hpar. injection Hpar as <-.
  wp_step. split; [by apply Hfr2|].
  eexists m, _. split; [done|]. split; [by rewrite Ht2, Ht1, <- app_assoc|].
  split; [apply Hm2|]. cbn. 
  assert (E1 : nlag d' = nlag (c_dict c)).
  { rewrite Hd'. cbn. unfold prepared, with_default_outfl, prepared_src.
    destruct (datafl (c_dict c)); cbn; by destruct (outfl (c_dict c)) eqn:Eo. }
  assert (E2 : outfl d' = Some (out_path c)).
  { rewrite Hd'. cbn. unfold prepared, with_default_outfl, prepared_src, out_path.
    destruct (datafl (c_dict c)); cbn; destruct (outfl (c_dict c)) eqn:Eo; cbn; by rewrite ?Eo. }
  done.
Qed.

Lemma gamv_refines p gp silent c w :
  holds w p c ->
  wp (gamv os_name popen p gp silent)
     (fun r w' =>
        r = (gamv_model os_name popen c gp silent (trace w)).1 /\
        trace w' = trace w ++ (gamv_model os_name popen c gp silent (trace w)).2) w.
Proof.
  intros Hc. unfold gamv, gamv_model.
  destruct (data_okb c) eqn:Hok.
  2:{ unfold before_engine. apply wp_bind, wp_bind.
      eapply wp_mono; [by eapply prepare_bad_data|]. cbn beta.
      intros r w1 [-> ->]. by rewrite app_nil_r. }
  eapply wp_bind_mid; [by apply before_engine_spec|..]; cbn beta.
  2:{ intros e w1 [Hfr H].
      destruct (check_arrays _ _ _) as [[apar adir]|e'].
      - by destruct H as (? & ? & [=] & _).
      - by destruct H as [[= ->] ->]. }
  intros [[m apar] fpar] w1 [Hfr H].
  destruct (check_arrays _ _ _) as [[apar' adir]|e']; [|by destruct H].
  destruct H as (m' & d & [= -> -> ->] & Ht1 & Hm & E1 & E2 & E3 & E4).
  eapply wp_bind_mid; [apply invoke_spec|..]; cbn beta; cbn zeta.
  - intros pr w2 [Hh2 H]. rewrite Ht1, <- !app_assoc in H. cbn [app] in H.
    destruct (popen _ _) as [pr'|]; [|by destruct H].
    destruct (returncode pr' =? 0).
    2:{ destruct H as [H _]. unfold engine_error in H.
        by destruct (decode_utf8 (stderr pr')). }
    destruct H as [[= <-] Ht2].
    eapply wp_mono.
    { eapply (after_engine_spec _ _ c); [|by rewrite Hh2|done..].
      eapply holds_heap; [exact Hh2|]. by eapply holds_prefix. }
    cbn beta. intros r ? [-> ->]. split.
    + cbn [fst]. unfold result_table. by rewrite E3.
    + cbn [snd]. rewrite Ht2, <- !app_assoc. reflexivity.
  - intros e w2 [Hh2 H]. rewrite Ht1, <- !app_assoc in H. cbn [app] in H.
    destruct (popen _ _) as [pr'|].
    + destruct (returncode pr' =? 0); [by destruct H|].
      destruct H as [He Ht2]. rewrite Ht2. split; [|done]. cbn [fst].
      unfold engine_error in *. destruct (decode_utf8 (stderr pr')); cbn in *; congruence.
    + destruct H as [[= ->] Ht2]. by rewrite Ht2.
Qed.

End Refine.

(** ** The engine's exit status *)

Lemma nne_ok {A} (x : A) : no_name_error (Ok x).
Proof. by intros msg. Qed.

Lemma nne_bind {A B} (r : res A) (f : A -> res B) :
  no_name_error r -> (forall x, no_name_error (f x)) -> no_name_error (r ≫= f).
Proof. destruct r as [x|e]; cbn; [auto|]. intros H _ msg [= ->]. by apply (H msg). Qed.

Ltac nne :=
  repeat first
    [ apply nne_ok
    | (intros ?msg; discriminate)
    | apply nne_bind; [|intros ?]
    | match goal with
      | |- no_name_error (match ?x with _ => _ end) => destruct x
      | |- no_name_error (let _ := _ in _) => cbv zeta
      end ].

Lemma nne_for_each {S} (body : S -> nat -> res S) idx s :
  (forall s i, no_name_error (body s i)) -> no_name_error (for_each body s idx).
Proof.
  intros Hb. revert s. induction idx as [|i idx IH]; intros s; cbn; [apply nne_ok|].
  apply nne_bind; auto.
Qed.

Lemma nne_mapM {A B} (f : A -> res B) l :
  (forall x, no_name_error (f x)) -> no_name_error (mapM f l).
Proof.
  intros Hf. induction l as [|x l IH]; cbn; [apply nne_ok|].
  apply nne_bind; [auto|]. intros y. apply nne_bind; [auto|]. intros ys. apply nne_ok.
Qed.

Lemma nne_at2 {A} (rs : list (list A)) i j : no_name_error (at2 rs i j).
Proof. unfold at2. nne. Qed.

Lemma nne_df_col c vg : no_name_error (df_col c vg).
Proof. unfold df_col. nne. Qed.

Lemma nne_column {A} j (rs : list (list A)) : no_name_error (column j rs).
Proof. unfold column. apply nne_mapM. intros r. nne. Qed.

Lemma nne_read_results nvarg ndir nlag0 types orig file :
  no_name_error (read_results nvarg ndir nlag0 types orig file).
Proof.
  unfold read_results, ignore_rows, np_arange, read_csv, np_repeat, df_set_col.
  cbv zeta. nne.
  all: apply nne_for_each; intros s i; unfold meta_step; cbv zeta; nne;
    try apply nne_at2; try apply nne_df_col.
Qed.

Lemma nne_cleanup vg : no_name_error (cleanup vg).
Proof. unfold cleanup. nne; apply nne_df_col. Qed.

Lemma nne_set_index ks vg : no_name_error (df_set_index ks vg).
Proof. unfold df_set_index. nne. Qed.

Lemma after_engine_no_name_error p m apar pr w :
  wp (after_engine p m apar pr) (fun r _ => no_name_error r) w.
Proof.
  unfold after_engine, parse. wp_steps; try (intros ?; discriminate).
  all: try match goal with H : _ = Raise _ |- _ => revert H end.
  all: try match goal with H : _ = Ok _ |- _ => clear H end.
  - apply nne_set_index.
  - intros H2 msg [= ->]. by eapply nne_cleanup.
  - intros H2 msg [= ->]. by eapply nne_read_results.
  - intros H2 msg [= ->]. by destruct (outfl d).
  - intros H2 msg [= ->]. by eapply nne_column.
  - intros H2 msg [= ->]. by destruct (ndir d).
  - intros H2 msg [= ->]. by destruct (nvarg d).
Qed.

Section Engine.

Variable os_name : string.
Variable popen : list string -> list event -> option procres.

Lemma gamv_after_before p gp silent w m apar fpar w1 :
  before_engine p w = (Ok (m, apar, fpar), w1) ->
  gamv os_name popen p gp silent w
  = (invoke popen (default_path os_name gp) fpar silent
       ≫= after_engine p m apar) w1.
Proof. intros H. unfold gamv. by rewrite (bind_ok _ _ _ _ _ H). Qed.

Lemma append_empty_r (s : string) : s +:+ "" = s.
Proof.
  induction s as [|a s IH]; [done|].
  change (String a (s +:+ "") = String a s). by rewrite IH.
Qed.

Lemma str_contains_suffix pre s : str_contains s (pre +:+ s).
Proof. exists pre, "". by rewrite append_empty_r. Qed.

(** C4 (amended).  Once everything before the engine has succeeded and
    the engine has run to completion: with a non-zero exit status the call
    raises and returns no table; when the captured standard error is valid
    UTF-8 and decodes to the text [msg], the exception is the [NameError]
    whose message is the fixed prefix followed by [msg], so the message
    contains [msg] verbatim; when it is not valid UTF-8, the exception is
    the [UnicodeDecodeError] of the decoding and no [NameError] is raised;
    with exit status zero the call raises no [NameError] at all. *)
Theorem engine_failure (parameters : loc) (gslib_path : option string) (silent : flag)
    (w w1 : world) (mypar : loc) (apar : nparray cell) (fpar : string) (p : procres) :
  before_engine parameters w = (Ok (mypar, apar, fpar), w1) ->
  popen [default_path os_name gslib_path; fpar]
        (trace w1 ++ [EvSpawn [default_path os_name gslib_path; fpar]]) = Some p ->
  let out := (gamv os_name popen parameters gslib_path silent w).1 in
  (returncode p <> 0 ->
   is_raise out = true /\
   (forall msg, decode_utf8 (stderr p) = Ok msg ->
      out = Raise (NameError ("gslib declus NameError" +:+ msg)) /\
      str_contains msg ("gslib declus NameError" +:+ msg)) /\
   (utf8_valid (stderr p) = false -> out = Raise UnicodeDecodeError)) /\
  (returncode p = 0 -> forall msg, out <> Raise (NameError msg)).
Proof.
  intros Hb Hp out. subst out. rewrite (gamv_after_before _ _ _ _ _ _ _ _ Hb).
  pose proof (invoke_spec popen (default_path os_name gslib_path) fpar silent w1) as Hi.
  unfold wp in Hi. cbn zeta in Hi. rewrite Hp in Hi.
  destruct (invoke popen _ fpar silent w1) as [r w2] eqn:Ei. cbn [fst snd] in Hi.
  destruct Hi as [Hh Hi]. split.
  - intros Hrc. apply Z.eqb_neq in Hrc. rewrite Hrc in Hi. destruct Hi as [-> Ht].
    unfold mbind, M_bind. rewrite Ei. unfold engine_error, decode_utf8.
    destruct (utf8_valid (stderr p)); cbn; (split; [done|]); split; try done.
    intros msg [= <-]. split; [done|]. apply str_contains_suffix.
  - intros Hrc. rewrite Hrc in Hi. cbn in Hi. destruct Hi as [-> Ht].
    unfold mbind, M_bind. rewrite Ei.
    exact (after_engine_no_name_error parameters mypar apar p w2).
Qed.

(** C7.  After a run with exit status zero the captured standard output
    is printed for both values of a Boolean [silent]: [~True] is [-2] and
    [~False] is [-1], and both are true. *)
Theorem echo_ignores_silent (gslib_path fpar : string) (w : world) (p : procres) (b : bool) :
  popen [gslib_path; fpar] (trace w ++ [EvSpawn [gslib_path; fpar]]) = Some p ->
  returncode p = 0 ->
  invoke popen gslib_path fpar (FBool b) w
  = (Ok p, MkWorld (heap w)
             (trace w ++ [EvSpawn [gslib_path; fpar];
                          EvPrint (match decode_utf8 (stdout p) with
                                   | Ok s => PStr s
                                   | Raise _ => PBytes (stdout p)
                                   end)])).
Proof.
  intros Hp Hrc. unfold invoke, mbind, M_bind, emit, get_trace. cbn [heap trace].
  rewrite Hp, Hrc. cbn [Z.eqb negb].
  replace (truthy (py_invert (FBool b))) with true by (by destruct b).
  destruct (decode_utf8 (stdout p)); cbn; by rewrite <- app_assoc.
Qed.

End Engine.

(** ** The in-memory data source *)

Lemma name_lines_spec (ncol : nat) :
  (3 <= ncol)%nat ->
  name_lines ncol = map (fun k => LText (spec_column_name k)) (seq 0 ncol).
Proof.
  intros H. unfold name_lines.
  replace ncol with (3 + (ncol - 3))%nat at 2 by lia.
  rewrite seq_app, map_app. cbn [seq map spec_column_name Nat.add app]. do 3 f_equal.
  apply map_ext_in. intros k Hk. apply in_seq in Hk.
  destruct k as [|[|[|k]]]; try lia. reflexivity.
Qed.

Lemma data_file_spec (ncol : nat) (arr : ndarray) :
  (3 <= ncol)%nat -> data_file ncol arr = spec_data_file "temp file " ncol (nd_rows arr).
Proof. intros H. unfold data_file, spec_data_file. by rewrite name_lines_spec. Qed.

Lemma model_trace_data os_name popen c gp silent t :
  data_okb c = true ->
  exists evs, (gamv_model os_name popen c gp silent t).2 = data_events c ++ evs.
Proof.
  intros Hok. unfold gamv_model. rewrite Hok.
  destruct (check_arrays _ _ _) as [[apar adir]|e]; cbn zeta.
  - destruct (popen _ _) as [p|]; [destruct (returncode p =? 0)|]; cbn [snd];
      rewrite <- ?app_assoc; eauto.
  - exists []. by rewrite app_nil_r.
Qed.

(** C5 (amended).  For a data source that is an in-memory array of shape
    [(n, ncol)]: the working copy gets the data file name [_xxx_.in], the
    coordinate columns 1, 2, 3 and the variable columns 4..ncol, whatever
    the caller supplied; the array is written to [_xxx_.in] as the first
    thing the call does; and when [ncol] is at least 3 the file is a title
    line, the line [ncol], one name line per column ([x], [y], [z], [v1],
    ...), and the rows. *)
Theorem in_memory_data (os_name : string)
    (popen : list string -> list event -> option procres)
    (parameters : loc) (c : config) (w : world) (arr : ndarray) (n ncol : nat) :
  holds w parameters c -> c_data c = Some arr -> nd_shape arr = [n; ncol] ->
  (exists mypar w' d,
     prepare parameters w = (Ok mypar, w') /\
     heap w' !! mypar = Some (ODict d) /\
     datafl d = DPath "_xxx_.in" /\
     (icolx d, icoly d, icolz d) = (1, 2, 3) /\
     heap w' !! ivar d = Some (OInts (var_columns ncol)) /\
     trace w' = trace w ++ [EvWrite "_xxx_.in" (FLines (data_file ncol arr))]) /\
  (forall gslib_path silent, exists evs,
     trace (gamv os_name popen parameters gslib_path silent w).2
     = trace w ++ EvWrite "_xxx_.in" (FLines (data_file ncol arr)) :: evs) /\
  ((3 <= ncol)%nat ->
   data_file ncol arr = spec_data_file "temp file " ncol (nd_rows arr)).
Proof.
  intros Hc Harr Hsh.
  assert (Hncol : ncols arr = ncol) by (unfold ncols; by rewrite Hsh).
  assert (Hok : data_ok c) by (unfold data_ok; by rewrite Harr, Hsh).
  assert (Hokb : data_okb c = true) by (unfold data_okb; by rewrite Harr, Hsh).
  assert (Hev : data_events c = [EvWrite "_xxx_.in" (FLines (data_file ncol arr))]).
  { unfold data_events. by rewrite Harr, Hncol. }
  split; [|split].
  - pose proof (prepare_spec parameters c w Hc Hok) as H. unfold wp in H.
    destruct (prepare parameters w) as [r w']. cbn [fst snd] in H.
    destruct H as (m & d & -> & Ht & _ & _ & Hm & Hd).
    exists m, w', d. split; [done|].
    destruct Hm as (Hm & Hv & _). cbn [c_dict c_vars] in *.
    split; [done|].
    assert (Hsrc : exists a, datafl (c_dict c) = DArray a).
    { destruct Hc as (_ & _ & _ & _ & H). destruct (datafl (c_dict c)); eauto; congruence. }
    destruct Hsrc as [a Hsrc].
    unfold effective_vars in Hv. rewrite Harr, Hncol in Hv.
    rewrite Hd. unfold prepared, with_default_outfl, prepared_src. rewrite Hsrc.
    rewrite Hd in Hv. cbn [ivar with_refs] in Hv. cbn.
    split; [by destruct (outfl (c_dict c))|].
    split; [by destruct (outfl (c_dict c))|].
    split; [done|]. by rewrite Ht, Hev.
  - intros gp silent.
    pose proof (gamv_refines os_name popen parameters gp silent c w Hc) as [_ Ht].
    destruct (model_trace_data os_name popen c gp silent (trace w) Hokb) as [evs Hevs].
    rewrite Hevs, Hev in Ht. exists evs. by rewrite Ht.
  - by apply data_file_spec.
Qed.

(** ** The assertions on the variogram table *)

Lemma mapM_ok_inv {A B} (f : A -> res B) (l : list A) (k : list B) :
  mapM f l = Ok k -> Forall2 (fun x y => f x = Ok y) l k.
Proof.
  revert k. induction l as [|x l IH]; intros k; cbn.
  - intros [= <-]. constructor.
  - intros H. apply res_bind_ok_inv in H as (y & Hy & H).
    apply res_bind_ok_inv in H as (k' & Hk' & H). injection H as <-.
    constructor; auto.
Qed.

Lemma column_inv {A} (j : nat) (rs : list (list A)) (col : list A) :
  column j rs = Ok col -> Forall2 (fun r c => r !! j = Some c) rs col.
Proof.
  intros H. apply mapM_ok_inv in H. eapply Forall2_impl; [exact H|].
  intros r c. cbn. destruct (r !! j); [|done]. by intros [= ->].
Qed.

Lemma assert_all_le_inv (n : nat) (col : list cell) :
  assert_all_le n col = Ok tt ->
  Forall (fun c => exists z, c = CInt z /\ z <= Z.of_nat n) col.
Proof.
  unfold assert_all_le. intros H.
  apply res_bind_ok_inv in H as (bs & Hbs & H).
  apply mapM_ok_inv in Hbs. unfold py_assert in H.
  destruct (forallb id bs) eqn:Hall; [clear H|done].
  induction Hbs as [|c b col bs Hc _ IH]; [constructor|].
  cbn in Hall. apply andb_true_iff in Hall as [Hb Hall].
  constructor; [|by apply IH].
  destruct c as [|z]; [done|]. injection Hc as <-. exists z. split; [done|].
  by apply Z.leb_le.
Qed.

Lemma type_allowed_inv (c : cell) :
  type_allowed c = true -> exists z, c = CInt z /\ 1 <= z <= 10.
Proof.
  destruct c as [|z]; [done|]. unfold type_allowed, allowed_types. cbn.
  rewrite !orb_true_iff, !Z.eqb_eq. intros H. exists z. split; [done|]. lia.
Qed.

Lemma check_ivpar_rows_ok (n : nat) (dt : dtype) (a : nparray cell) (rs : list (list cell)) :
  check_ivpar n dt a = Ok rs -> Forall (row_ok n) (rows a).
Proof.
  unfold check_ivpar. intros H.
  apply res_bind_ok_inv in H as (c0 & Hc0 & H).
  apply res_bind_ok_inv in H as ([] & H0 & H).
  apply res_bind_ok_inv in H as (c1 & Hc1 & H).
  apply res_bind_ok_inv in H as ([] & H1 & H).
  apply res_bind_ok_inv in H as (c2 & Hc2 & H).
  apply res_bind_ok_inv in H as ([] & H2 & _).
  apply column_inv in Hc0, Hc1, Hc2.
  apply assert_all_le_inv in H0, H1.
  unfold py_assert in H2. destruct (forallb type_allowed c2) eqn:Hall; [|done].
  rewrite forallb_forall in Hall.
  apply Forall_lookup_2. intros i r Hr.
  destruct (Forall2_lookup_l _ _ _ _ _ Hc0 Hr) as (x0 & Hx0 & Hr0).
  destruct (Forall2_lookup_l _ _ _ _ _ Hc1 Hr) as (x1 & Hx1 & Hr1).
  destruct (Forall2_lookup_l _ _ _ _ _ Hc2 Hr) as (x2 & Hx2 & Hr2).
  destruct (Forall_lookup_1 _ _ _ _ H0 Hx0) as (t & -> & Ht).
  destruct (Forall_lookup_1 _ _ _ _ H1 Hx1) as (h & -> & Hh).
  destruct (type_allowed_inv x2) as (ty & -> & Hty).
  { apply Hall. apply list_elem_of_In. by eapply list_elem_of_lookup_2. }
  by exists t, h, ty.
Qed.

Lemma bad_row_not_ok (n : nat) (r : list cell) : bad_row n r -> ~ row_ok n r.
Proof.
  intros Hbad (t & h & ty & Ht & Htn & Hh & Hhn & Hty & Hrange).
  destruct Hbad as [(z & Hz & Hlt)|[(z & Hz & Hlt)|(z & Hz & Hout)]];
    rewrite Hz in *; simplify_eq; lia.
Qed.

Lemma early_data_events (c : config) : forallb early (data_events c) = true.
Proof. unfold data_events. by destruct (c_data c). Qed.

(** C8.  A configuration with a variogram row whose tail or head index
    is above the number of variable columns in effect, or whose type code
    is outside 1..10, makes the call raise, and what the call has done by
    then does not include writing the parameter file or starting the
    engine. *)
Theorem bad_spec_rejected (os_name : string)
    (popen : list string -> list event -> option procres)
    (parameters : loc) (gslib_path : option string) (silent : flag)
    (c : config) (w : world) (r : list cell) :
  holds w parameters c ->
  r ∈ c_pars c ->
  bad_row (length (effective_vars c)) r ->
  is_raise (gamv os_name popen parameters gslib_path silent w).1 = true /\
  exists evs,
    trace (gamv os_name popen parameters gslib_path silent w).2 = trace w ++ evs /\
    forallb early evs = true.
Proof.
  intros Hc Hr Hbad.
  destruct (gamv_refines os_name popen parameters gslib_path silent c w Hc) as [-> ->].
  unfold gamv_model. destruct (data_okb c); [|by eauto].
  destruct (check_arrays _ _ _) as [[apar adir]|e] eqn:Hchk.
  - exfalso. apply check_arrays_inv in Hchk as (_ & _ & _ & _ & _ & _ & Hchk).
    apply check_ivpar_rows_ok in Hchk. cbn [rows] in Hchk.
    rewrite Forall_forall in Hchk. by eapply bad_row_not_ok, Hchk.
  - cbn. split; [done|]. eexists. split; [done|]. apply early_data_events.
Qed.

(** ** Repeating and tiling *)

Section Repeat.

Context {A : Type}.
Implicit Types (xs : list A) (k n j : nat).

Lemma repeat_each_length k xs :
  length (concat (map (replicate k) xs)) = (length xs * k)%nat.
Proof.
  induction xs as [|x xs IH]; [done|].
  cbn [map concat]. rewrite length_app, length_replicate, IH. cbn [length]. lia.
Qed.

Lemma repeat_each_lookup k xs j :
  (0 < k)%nat ->
  concat (map (replicate k) xs) !! j = xs !! (j / k)%nat.
Proof.
  intros Hk. revert j. induction xs as [|x xs IH]; intros j; [done|].
  cbn [map concat]. destruct (decide (j < k)%nat) as [Hj|Hj].
  - rewrite lookup_app_l by (by rewrite length_replicate).
    rewrite Nat.div_small by done. cbn. by apply lookup_replicate_2.
  - rewrite lookup_app_r by (rewrite length_replicate; lia).
    rewrite length_replicate, IH.
    replace (j / k)%nat with (S ((j - k) / k)); [done|].
    replace j with ((j - k) + 1 * k)%nat at 2 by lia.
    rewrite Nat.div_add by lia. lia.
Qed.

Lemma tile_length n xs : length (np_tile xs n) = (n * length xs)%nat.
Proof.
  unfold np_tile. induction n as [|n IH]; [done|].
  cbn [replicate concat]. rewrite length_app, IH. lia.
Qed.

Lemma tile_lookup n xs j :
  (j < n * length xs)%nat -> np_tile xs n !! j = xs !! (j mod length xs)%nat.
Proof.
  unfold np_tile. revert j. induction n as [|n IH]; intros j Hj; [lia|].
  cbn [replicate concat]. destruct (decide (j < length xs)%nat) as [Hlt|Hge].
  - rewrite lookup_app_l by done. by rewrite Nat.mod_small.
  - rewrite lookup_app_r by lia. rewrite IH by lia.
    replace j with ((j - length xs) + 1 * length xs)%nat at 2 by lia.
    rewrite Nat.Div0.mod_add. done.
Qed.

End Repeat.

Lemma py_range_lookup (n i : nat) : (i < n)%nat -> py_range n !! i = Some (Z.of_nat i).
Proof.
  intros H. unfold py_range. rewrite lookup_map.
  rewrite lookup_seq_lt by done. done.
Qed.

Lemma py_range_length (n : nat) : length (py_range n) = n.
Proof. unfold py_range. by rewrite length_map, length_seq. Qed.

Lemma div_mod_swap (k s n : nat) :
  (0 < s)%nat -> ((k mod (n * s)) / s = (k / s) mod n)%nat.
Proof.
  intros Hs. destruct (decide (n = 0)%nat) as [->|Hn].
  - cbn. done.
  - rewrite (Nat.mul_comm n s). rewrite Nat.Div0.mod_mul_r.
    rewrite (Nat.mul_comm s), Nat.div_add by lia.
    rewrite Nat.div_small by (apply Nat.mod_upper_bound; lia). lia.
Qed.

(** ** Setting columns *)

Lemma assoc_col_put_eq c vs cols : assoc_col c (put_col c vs cols) = Some vs.
Proof.
  induction cols as [|[c' vs'] cols IH]; cbn.
  - by rewrite String.eqb_refl.
  - destruct (String.eqb c c') eqn:E; cbn; rewrite E; [done|exact IH].
Qed.

Lemma assoc_col_put_ne c c' vs cols :
  c <> c' -> assoc_col c' (put_col c vs cols) = assoc_col c' cols.
Proof.
  intros Hne. assert (Hne' : String.eqb c' c = false) by (apply String.eqb_neq; congruence).
  induction cols as [|[c1 vs1] cols IH]; cbn.
  - by rewrite Hne'.
  - destruct (String.eqb c c1) eqn:E; cbn.
    + apply String.eqb_eq in E. subst c1. by rewrite Hne'.
    + destruct (String.eqb c' c1); [done|exact IH].
Qed.

Lemma col_names_put_new c vs cols :
  existsb (String.eqb c) (map fst cols) = false ->
  map fst (put_col c vs cols) = map fst cols ++ [c].
Proof.
  induction cols as [|[c1 vs1] cols IH]; cbn; [done|].
  intros H. apply orb_false_iff in H as [E H]. rewrite E. cbn. by rewrite IH.
Qed.

Lemma cell_at_put_eq df c vs k n i :
  cell_at (MkDf n (put_col c vs (columns df)) i) c k = vs !! k.
Proof. unfold cell_at. cbn [columns]. by rewrite assoc_col_put_eq. Qed.

Lemma cell_at_put_ne df c c' vs k n i :
  c <> c' -> cell_at (MkDf n (put_col c vs (columns df)) i) c' k = cell_at df c' k.
Proof. intros H. unfold cell_at. cbn [columns]. by rewrite assoc_col_put_ne. Qed.

(** ** The loop that copies the variogram parameters *)

Lemma meta_step_inv orig vg i vg' :
  meta_step orig vg i = Ok vg' ->
  exists row c0 c1 c2 c3 sel,
    orig !! i = Some row /\
    row !! 0%nat = Some c0 /\ row !! 1%nat = Some c1 /\
    row !! 2%nat = Some c2 /\ row !! 3%nat = Some c3 /\
    df_col "Variogram" vg = Ok sel /\
    let m := map (value_eq_int (Z.of_nat i)) sel in
    vg' = df_loc_set m ["cut"] (value_of_cell c3)
            (df_loc_set m ["type"] (value_of_cell c2)
               (df_loc_set m ["head"] (value_of_cell c1)
                  (df_loc_set m ["tail"] (value_of_cell c0) vg))).
Proof.
  unfold meta_step. cbv zeta. intros H.
  assert (Hat : forall j c, at2 orig i j = Ok c ->
                exists row, orig !! i = Some row /\ row !! j = Some c).
  { intros j c. unfold at2. destruct (orig !! i) as [row|]; [|done].
    destruct (row !! j) eqn:E; [|done]. intros [= ->]. eauto. }
  apply res_bind_ok_inv in H as (vg1 & H1 & H).
  apply res_bind_ok_inv in H as (vg2 & H2 & H).
  apply res_bind_ok_inv in H as (vg3 & H3 & H).
  apply res_bind_ok_inv in H1 as (c0 & Hc0 & H1).
  apply res_bind_ok_inv in H1 as (sel & Hsel & H1). injection H1 as <-.
  apply res_bind_ok_inv in H2 as (c1 & Hc1 & H2).
  apply res_bind_ok_inv in H2 as (sel1 & Hsel1 & H2). injection H2 as <-.
  apply res_bind_ok_inv in H3 as (c2 & Hc2 & H3).
  apply res_bind_ok_inv in H3 as (sel2 & Hsel2 & H3). injection H3 as <-.
  apply res_bind_ok_inv in H as (c3 & Hc3 & H).
  apply res_bind_ok_inv in H as (sel3 & Hsel3 & H). injection H as <-.
  rewrite !df_col_loc_set_other in Hsel3 by reflexivity.
  rewrite !df_col_loc_set_other in Hsel2 by reflexivity.
  rewrite !df_col_loc_set_other in Hsel1 by reflexivity.
  rewrite Hsel in Hsel1, Hsel2, Hsel3.
  injection Hsel1 as <-. injection Hsel2 as <-. injection Hsel3 as <-.
  destruct (Hat _ _ Hc0) as (row & Hrow & Hr0).
  destruct (Hat _ _ Hc1) as (row1 & Hrow1 & Hr1).
  destruct (Hat _ _ Hc2) as (row2 & Hrow2 & Hr2).
  destruct (Hat _ _ Hc3) as (row3 & Hrow3 & Hr3).
  simplify_eq. by exists row, c0, c1, c2, c3, sel.
Qed.

Lemma mask_vario vg sel i k :
  df_col "Variogram" vg = Ok sel ->
  default false (map (value_eq_int (Z.of_nat i)) sel !! k) = is_vario vg k i.
Proof.
  unfold df_col, is_vario, cell_at. intros H.
  destruct (assoc_col "Variogram" (columns vg)) as [vs|]; [|done].
  injection H as ->. rewrite lookup_map. cbn. by destruct (sel !! k).
Qed.

Lemma meta_step_cell orig vg i vg' c k :
  meta_step orig vg i = Ok vg' ->
  exists row, orig !! i = Some row /\ (4 <= length row)%nat /\
    cell_at vg' c k
    = (fun old => match meta_index c with
                  | Some j => if is_vario vg k i
                              then value_of_cell (default CNone (row !! j)) else old
                  | None => old
                  end) <$> cell_at vg c k.
Proof.
  intros H. apply meta_step_inv in H
    as (row & c0 & c1 & c2 & c3 & sel & Hrow & H0 & H1 & H2 & H3 & Hsel & ->).
  exists row. split; [done|]. split; [by apply lookup_lt_Some in H3|].
  rewrite !cell_at_loc_set, !(mask_vario _ _ _ _ Hsel). cbn [existsb].
  rewrite !orb_false_r. unfold meta_index.
  destruct (cell_at vg c k) as [old|]; [|done]. cbn. f_equal.
  destruct (String.eqb c "tail") eqn:E0;
    [apply String.eqb_eq in E0; subst c; cbn; rewrite H0; by destruct (is_vario vg k i)|].
  destruct (String.eqb c "head") eqn:E1;
    [apply String.eqb_eq in E1; subst c; cbn; rewrite H1; by destruct (is_vario vg k i)|].
  destruct (String.eqb c "type") eqn:E2;
    [apply String.eqb_eq in E2; subst c; cbn; rewrite H2; by destruct (is_vario vg k i)|].
  destruct (String.eqb c "cut") eqn:E3;
    [apply String.eqb_eq in E3; subst c; cbn; rewrite H3; by destruct (is_vario vg k i)|].
  done.
Qed.

Lemma meta_step_shape orig vg i vg' :
  meta_step orig vg i = Ok vg' ->
  nrows vg' = nrows vg /\ col_names vg' = col_names vg /\ index vg' = index vg.
Proof.
  intros H. apply meta_step_inv in H
    as (row & c0 & c1 & c2 & c3 & sel & Hrow & H0 & H1 & H2 & H3 & Hsel & ->).
  cbv zeta. by rewrite !col_names_loc_set.
Qed.

Lemma meta_step_vario orig vg i vg' k j :
  meta_step orig vg i = Ok vg' -> is_vario vg' k j = is_vario vg k j.
Proof.
  intros H. destruct (meta_step_cell _ _ _ _ "Variogram" k H) as (row & _ & _ & Hc).
  unfold is_vario. rewrite Hc. cbn. by destruct (cell_at vg "Variogram" k).
Qed.

Lemma meta_loop_shape orig idx vg vg' :
  for_each (meta_step orig) vg idx = Ok vg' ->
  nrows vg' = nrows vg /\ col_names vg' = col_names vg /\ index vg' = index vg.
Proof.
  revert vg. induction idx as [|i idx IH]; intros vg; cbn.
  - by intros [= <-].
  - intros H. apply res_bind_ok_inv in H as (vg1 & H1 & H).
    apply meta_step_shape in H1 as (<- & <- & <-). by apply IH.
Qed.

Lemma meta_loop_other orig idx vg vg' c k :
  for_each (meta_step orig) vg idx = Ok vg' ->
  meta_index c = None \/ (forall i, i ∈ idx -> is_vario vg k i = false) ->
  cell_at vg' c k = cell_at vg c k.
Proof.
  revert vg. induction idx as [|i idx IH]; intros vg; cbn.
  - by intros [= <-].
  - intros H Hc. apply res_bind_ok_inv in H as (vg1 & H1 & H).
    rewrite (IH _ H).
    + destruct (meta_step_cell _ _ _ _ c k H1) as (row & _ & _ & ->).
      destruct (cell_at vg c k) as [old|]; [|done]. cbn. f_equal.
      destruct Hc as [->|Hc]; [done|].
      destruct (meta_index c); [|done]. rewrite Hc; [done|]. by left.
    + destruct Hc as [Hc|Hc]; [by left|]. right. intros i' Hi'.
      rewrite (meta_step_vario _ _ _ _ _ _ H1). apply Hc. by right.
Qed.

Lemma is_vario_unique vg k i j :
  is_vario vg k i = true -> i <> j -> is_vario vg k j = false.
Proof.
  unfold is_vario. destruct (cell_at vg "Variogram" k) as [[|z|x]|]; try done.
  cbn. intros H1%Z.eqb_eq Hne. apply Z.eqb_neq. lia.
Qed.

Lemma meta_loop_cell orig idx vg vg' c j k v old :
  for_each (meta_step orig) vg idx = Ok vg' ->
  NoDup idx -> v ∈ idx ->
  meta_index c = Some j ->
  is_vario vg k v = true ->
  cell_at vg c k = Some old ->
  exists row, orig !! v = Some row /\ (4 <= length row)%nat /\
    cell_at vg' c k = Some (value_of_cell (default CNone (row !! j))).
Proof.
  revert vg old. induction idx as [|i idx IH]; intros vg old; cbn; [by intros _ _ ?%elem_of_nil|].
  intros H Hnd Hv Hc Hk Hold.
  apply res_bind_ok_inv in H as (vg1 & H1 & H).
  apply NoDup_cons in Hnd as [Hi Hnd].
  destruct (meta_step_cell _ _ _ _ c k H1) as (row & Hrow & Hlen & Hcell).
  rewrite Hold, Hc in Hcell. cbn in Hcell.
  apply elem_of_cons in Hv as [->|Hv].
  - rewrite Hk in Hcell. exists row. split; [done|]. split; [done|].
    rewrite (meta_loop_other _ _ _ _ _ _ H); [done|].
    right. intros i' Hi'. rewrite (meta_step_vario _ _ _ _ _ _ H1).
    apply (is_vario_unique _ _ i); [done|]. intros ->. done.
  - eapply IH; try done.
    by rewrite (meta_step_vario _ _ _ _ _ _ H1).
Qed.

(** ** Reading the output file *)

Lemma read_csv_inv file skip names vg :
  read_csv file skip names = Ok vg ->
  exists lines,
    file = Some lines /\
    nrows vg = length (kept_lines skip lines) /\
    index vg = [] /\
    columns vg = imap (fun j name => (name, map (fun ln => default VNone (ln !! j))
                                                (kept_lines skip lines))) names.
Proof.
  unfold read_csv. destruct file as [lines|]; [|done].
  intros [= <-]. by exists lines.
Qed.

Lemma col_names_imap {A} (f : nat -> string -> A) (names : list string) (g : A -> string) :
  (forall j n, g (f j n) = n) -> map g (imap f names) = names.
Proof.
  intros H. revert f H. induction names as [|n names IH]; intros f H; [done|].
  cbn. rewrite H. f_equal. apply IH. intros j n'. apply H.
Qed.

Lemma np_repeat_inv {A} (xs : list A) k ys :
  np_repeat xs k = Ok ys -> 0 <= k /\ ys = concat (map (replicate (Z.to_nat k)) xs).
Proof.
  unfold np_repeat. destruct (Z.ltb_spec k 0); [done|]. by intros [= <-].
Qed.

(** A successful [df[c] = vs] is the plain replacement of a column in a
    table [df0] of as many rows as [vs] has entries: [df] itself, or, for a
    [df] without rows, [df] with its columns filled with missing values. *)
Lemma df_set_col_inv c vs df df' :
  df_set_col c vs df = Ok df' ->
  exists df0,
    df' = MkDf (nrows df0) (put_col c vs (columns df0)) (index df0) /\
    nrows df0 = length vs /\ index df0 = index df /\
    map fst (columns df0) = map fst (columns df) /\
    ((nrows df = length vs /\ df0 = df) \/
     (nrows df = 0%nat /\ length vs <> 0%nat /\
      columns df0 = map (fun cv => (cv.1, replicate (length vs) VNone)) (columns df))).
Proof.
  unfold df_set_col.
  destruct (Nat.eqb_spec (nrows df) 0) as [E0|E0];
    destruct (Nat.eqb_spec (length vs) 0) as [El|El]; cbn [andb negb].
  - destruct (Nat.eqb_spec (length vs) (nrows df)) as [E|E]; [|done].
    intros [= <-]. exists df. repeat split; try done. by left.
  - intros [= <-].
    exists (MkDf (length vs) (map (fun cv => (cv.1, replicate (length vs) VNone)) (columns df))
                 (index df)).
    cbn [nrows columns index]. repeat split; try done.
    + rewrite map_map. by apply map_ext.
    + by right.
  - destruct (Nat.eqb_spec (length vs) (nrows df)) as [E|E]; [|done].
    intros [= <-]. exists df. repeat split; try done. by left.
  - destruct (Nat.eqb_spec (length vs) (nrows df)) as [E|E]; [|done].
    intros [= <-]. exists df. repeat split; try done. by left.
Qed.

(** The second of two assignments of arrays of one length is a plain
    replacement. *)
Lemma df_set_col_same c vs df df' :
  df_set_col c vs df = Ok df' -> nrows df = length vs ->
  df' = MkDf (nrows df) (put_col c vs (columns df)) (index df).
Proof.
  intros H Hn. apply df_set_col_inv in H as (df0 & -> & _ & _ & _ & [[_ ->]|(E0 & El & _)]);
    [done|lia].
Qed.

Lemma names_fresh types :
  forall c, c ∈ label_names ->
            existsb (String.eqb c) (result_names types) = false.
Proof.
  intros c Hc. unfold result_names.
  destruct (existsb (cell_eq_int 4) types);
    repeat (apply elem_of_cons in Hc as [->|Hc]; [reflexivity|]);
    by apply elem_of_nil in Hc.
Qed.

Lemma col_names_put_fresh c vs cols names :
  map fst cols = names ->
  existsb (String.eqb c) names = false ->
  map fst (put_col c vs cols) = names ++ [c].
Proof. intros <- H. by apply col_names_put_new. Qed.

Lemma meta_index_inv c j :
  meta_index c = Some j ->
  (c = "tail" /\ j = 0%nat) \/ (c = "head" /\ j = 1%nat) \/
  (c = "type" /\ j = 2%nat) \/ (c = "cut" /\ j = 3%nat).
Proof.
  unfold meta_index.
  destruct (String.eqb_spec c "tail"); [intros [= <-]; auto|].
  destruct (String.eqb_spec c "head"); [intros [= <-]; auto|].
  destruct (String.eqb_spec c "type"); [intros [= <-]; auto|].
  destruct (String.eqb_spec c "cut"); [intros [= <-]; auto 6|]. done.
Qed.

Ltac names_tac H :=
  first [ exact H | eapply col_names_put_fresh; [names_tac H|reflexivity] ].

Lemma read_results_inv nvarg ndir nlag0 types orig file vg :
  read_results nvarg ndir nlag0 types orig file = Ok vg ->
  let s := Z.to_nat (nlag0 + 2) in
  0 <= nlag0 + 2 /\
  nrows vg = (nvarg * ndir * s)%nat /\
  col_names vg = result_names types ++ label_names /\
  index vg = [] /\
  forall k, (k < nrows vg)%nat ->
    cell_at vg "Variogram" k = Some (VInt (Z.of_nat (k / (ndir * s)))) /\
    cell_at vg "Direction" k = Some (VInt (Z.of_nat ((k / s) mod ndir))) /\
    forall c j, meta_index c = Some j ->
      (k / (ndir * s) < length orig)%nat ->
      exists row, orig !! (k / (ndir * s))%nat = Some row /\ (4 <= length row)%nat /\
        cell_at vg c k = Some (value_of_cell (default CNone (row !! j))).
Proof.
  unfold read_results. cbv zeta. intros H.
  apply res_bind_ok_inv in H as (ignore & Hig & H).
  apply res_bind_ok_inv in H as (read & Hcsv & H).
  apply res_bind_ok_inv in H as (vario & Hvario & H).
  apply res_bind_ok_inv in H as (vg1 & H1 & H).
  apply res_bind_ok_inv in H as (dirs & Hdirs & H).
  apply res_bind_ok_inv in H as (vg2 & H2 & H).
  apply read_csv_inv in Hcsv as (lines & -> & _ & Hi00 & Hcols00).
  apply np_repeat_inv in Hvario as (Hk1 & ->).
  apply np_repeat_inv in Hdirs as (Hk2 & ->).
  set (s := Z.to_nat (nlag0 + 2)) in *.
  assert (HK : Z.to_nat (Z.of_nat ndir * (nlag0 + 2)) = (ndir * s)%nat).
  { unfold s. rewrite Z2Nat.inj_mul by lia. by rewrite Nat2Z.id. }
  rewrite HK in *.
  apply df_set_col_inv in H1 as (vg0 & -> & Hlen1 & Hi0 & Hnm0 & _).
  rewrite length_map, repeat_each_length, py_range_length in Hlen1.
  rewrite Hi00 in Hi0.
  assert (Hc0 : map fst (columns vg0) = result_names types).
  { rewrite Hnm0, Hcols00. by apply col_names_imap. }
  clear read Hi00 Hcols00 Hnm0.
  apply df_set_col_same in H2.
  2:{ cbn [nrows]. by rewrite length_map, tile_length, repeat_each_length, py_range_length. }
  subst vg2. cbn [nrows columns index] in *.
  split; [done|].
  pose proof (meta_loop_shape _ _ _ _ H) as (Hn & Hnames & Hidx).
  unfold df_set_scalar in Hn, Hnames, Hidx. cbn [nrows index] in Hn, Hidx.
  split; [lia|]. split.
  { rewrite Hnames. unfold col_names. cbn [columns].
    unfold result_names in *.
    destruct (existsb (cell_eq_int 4) types).
    all: etrans; [names_tac Hc0|reflexivity]. }
  split; [by rewrite Hidx|].
  intros k Hk. rewrite Hn in Hk.
  assert (Hs : (0 < s)%nat).
  { destruct (Nat.eq_0_gt_0_cases s) as [E|E]; [|done].
    rewrite E, !Nat.mul_0_r in Hlen1. lia. }
  assert (Hnv : (0 < nvarg)%nat) by (destruct nvarg; [cbn in Hlen1|]; lia).
  assert (Hnd : (0 < ndir)%nat).
  { destruct ndir; [|lia]. rewrite Nat.mul_0_l, Nat.mul_0_r in Hlen1. lia. }
  assert (Hv : (k / (ndir * s) < nvarg)%nat).
  { apply Nat.Div0.div_lt_upper_bound. lia. }
  assert (Hvario : forall vg', for_each (meta_step orig) vg' (seq 0 (length orig)) = Ok vg ->
            cell_at vg' "Variogram" k = Some (VInt (Z.of_nat (k / (ndir * s)))) ->
            cell_at vg "Variogram" k = Some (VInt (Z.of_nat (k / (ndir * s))))).
  { intros vg' H' <-. apply (meta_loop_other _ _ _ _ _ _ H'). by left. }
  assert (Hvar0 : cell_at (df_set_scalar "cut" VNone
         (df_set_scalar "type" (VInt 0)
            (df_set_scalar "head" (VInt 0)
               (df_set_scalar "tail" (VInt 0)
                  {|
                    nrows := nrows vg0;
                    columns :=
                      put_col "Direction"
                        (map VInt
                           (np_tile
                              (concat (map (replicate s) (py_range ndir)))
                              nvarg))
                        (put_col "Variogram"
                           (map VInt
                              (concat
                                 (map (replicate (ndir * s)) (py_range nvarg))))
                           (columns vg0));
                    index := index vg0
                  |})))) "Variogram" k = Some (VInt (Z.of_nat (k / (ndir * s))))).
  { unfold cell_at, df_set_scalar. cbn [columns].
    rewrite !assoc_col_put_ne by done. rewrite assoc_col_put_eq. cbn.
    rewrite lookup_map, repeat_each_lookup by lia.
    by rewrite py_range_lookup. }
  split; [by eapply Hvario|]. split.
  - rewrite (meta_loop_other _ _ _ _ "Direction" k H) by (by left).
    unfold cell_at, df_set_scalar. cbn [columns].
    rewrite !assoc_col_put_ne by done. rewrite assoc_col_put_eq. cbn.
    rewrite lookup_map, tile_lookup
      by (rewrite repeat_each_length, py_range_length; lia).
    rewrite repeat_each_length, py_range_length, repeat_each_lookup by lia.
    rewrite div_mod_swap by lia.
    rewrite py_range_lookup; [done|]. apply Nat.mod_upper_bound. lia.
  - intros c j Hc Hlt.
    assert (Hold : is_Some (cell_at (df_set_scalar "cut" VNone
         (df_set_scalar "type" (VInt 0)
            (df_set_scalar "head" (VInt 0)
               (df_set_scalar "tail" (VInt 0)
                  {|
                    nrows := nrows vg0;
                    columns :=
                      put_col "Direction"
                        (map VInt
                           (np_tile
                              (concat (map (replicate s) (py_range ndir)))
                              nvarg))
                        (put_col "Variogram"
                           (map VInt
                              (concat
                                 (map (replicate (ndir * s)) (py_range nvarg))))
                           (columns vg0));
                    index := index vg0
                  |})))) c k)).
    { unfold cell_at, df_set_scalar. cbn [columns nrows].
      assert (Hrep : forall v : value, replicate (nrows vg0) v !! k = Some v).
      { intros v. apply lookup_replicate_2. lia. }
      destruct (meta_index_inv _ _ Hc) as [[-> _]|[[-> _]|[[-> _]|[-> _]]]];
        rewrite ?assoc_col_put_eq, ?(assoc_col_put_ne "cut"), ?assoc_col_put_eq,
          ?(assoc_col_put_ne "type"), ?assoc_col_put_eq,
          ?(assoc_col_put_ne "head"), ?assoc_col_put_eq by done;
        cbn; rewrite Hrep; eauto. }
    destruct Hold as [old Hold].
    eapply (meta_loop_cell _ _ _ _ _ _ _ (k / (ndir * s))) in H as (row & Hrow & Hlen & Hcell);
      [eauto| | | | |exact Hold].
    + apply NoDup_seq.
    + apply elem_of_seq. lia.
    + done.
    + unfold is_vario. rewrite Hvar0. cbn. apply Z.eqb_refl.
Qed.

(** ** The header rows *)

Lemma ignore_rows_spec (nvarg ndir : nat) (nlag0 : Z) :
  0 < nlag0 + 3 ->
  ignore_rows nvarg ndir (nlag0 + 2)
  = Ok (map (fun b => Z.of_nat b * (nlag0 + 3)) (seq 0 (nvarg * ndir))).
Proof.
  intros H. unfold ignore_rows, np_arange.
  replace (nlag0 + 2 + 1) with (nlag0 + 3) by lia.
  destruct (Z.eqb_spec (nlag0 + 3) 0); [lia|]. f_equal.
  replace (0 - (Z.of_nat nvarg * Z.of_nat ndir * (nlag0 + 2) + Z.of_nat ndir * Z.of_nat nvarg))
    with (- Z.of_nat (nvarg * ndir) * (nlag0 + 3)) by lia.
  rewrite Z.div_mul by lia. rewrite Z.opp_involutive, Nat2Z.id.
  apply map_ext. intros b. lia.
Qed.

Lemma in_headers (step : Z) (total : nat) (x : Z) :
  existsb (Z.eqb x) (map (fun b => Z.of_nat b * step) (seq 0 total)) = true
  <-> exists b, (b < total)%nat /\ x = Z.of_nat b * step.
Proof.
  rewrite existsb_exists. split.
  - intros (y & Hy & Hx). apply in_map_iff in Hy as (b & <- & Hb).
    apply in_seq in Hb. apply Z.eqb_eq in Hx. exists b. split; [lia|done].
  - intros (b & Hb & ->). exists (Z.of_nat b * step). split; [|apply Z.eqb_refl].
    apply in_map_iff. exists b. split; [done|]. apply in_seq. lia.
Qed.

Lemma skip_lines_keep {A} (i : nat) (skip : list Z) (d rest : list A) :
  (forall j, (j < length d)%nat -> existsb (Z.eqb (Z.of_nat (i + j))) skip = false) ->
  skip_lines i skip (d ++ rest) = d ++ skip_lines (i + length d) skip rest.
Proof.
  revert i. induction d as [|x d IH]; intros i H.
  - cbn. by rewrite Nat.add_0_r.
  - cbn [app skip_lines]. specialize (H 0%nat ltac:(cbn; lia)) as H0.
    rewrite Nat.add_0_r in H0. rewrite H0. f_equal.
    rewrite IH.
    + cbn [length]. f_equal. f_equal. lia.
    + intros j Hj. replace (S i + j)%nat with (i + S j)%nat by lia.
      apply H. cbn. lia.
Qed.

Lemma skip_layout (step total n0 : nat) (blocks : list (list value * list (list value))) :
  Forall (fun b => S (length b.2) = step) blocks ->
  (n0 + length blocks <= total)%nat ->
  skip_lines (n0 * step)
             (map (fun b => Z.of_nat b * Z.of_nat step) (seq 0 total)) (layout blocks)
  = data_lines blocks.
Proof.
  intros Hb. revert n0. induction Hb as [|[h d] blocks Hd Hb IH]; intros n0 Hn; [done|].
  cbn [fst snd length] in *. unfold layout, data_lines. cbn [map concat fst snd].
  cbn [app skip_lines].
  assert (Hin : existsb (Z.eqb (Z.of_nat (n0 * step)))
                  (map (fun b => Z.of_nat b * Z.of_nat step) (seq 0 total)) = true).
  { apply in_headers. exists n0. split; lia. }
  rewrite Hin. rewrite skip_lines_keep.
  - f_equal. replace (S (n0 * step) + length d)%nat with (S n0 * step)%nat by (simpl; lia).
    apply IH. lia.
  - intros j Hj. apply not_true_is_false. intros Hex.
    apply in_headers in Hex as (b & _ & Hx).
    rewrite <- Nat2Z.inj_mul in Hx. apply Nat2Z.inj in Hx.
    destruct (Nat.le_gt_cases b n0) as [Hle|Hgt].
    + pose proof (Nat.mul_le_mono_r _ _ step Hle). lia.
    + pose proof (Nat.mul_le_mono_r _ _ step Hgt). simpl in *. lia.
Qed.

(** ** Data cells and totality *)

Lemma assoc_col_imap (names : list string) (g : nat -> list value) (j : nat) (name : string) :
  NoDup names -> names !! j = Some name ->
  assoc_col name (imap (fun j n => (n, g j)) names) = Some (g j).
Proof.
  intros Hnd. revert g j. induction Hnd as [|n names Hn Hnd IH]; intros g j Hj; [done|].
  cbn [imap assoc_col]. destruct j as [|j]; cbn in Hj.
  - injection Hj as ->. by rewrite String.eqb_refl.
  - destruct (String.eqb_spec name n) as [->|Hne].
    + exfalso. apply Hn. by eapply list_elem_of_lookup_2.
    + apply (IH (fun j => g (S j)) j Hj).
Qed.

Lemma result_names_nodup types : NoDup (result_names types).
Proof.
  unfold result_names. destruct (existsb (cell_eq_int 4) types);
    apply (bool_decide_unpack _); vm_compute; exact I.
Qed.

Lemma result_names_not_label types name :
  name ∈ result_names types -> (name ∉ label_names) /\ meta_index name = None.
Proof.
  unfold result_names. intros H.
  destruct (existsb (cell_eq_int 4) types);
    repeat (apply elem_of_cons in H as [->|H];
            [split; [apply (bool_decide_unpack _); vm_compute; exact I|reflexivity]|]);
    by apply elem_of_nil in H.
Qed.

Lemma read_results_data nvarg ndir nlag0 types orig file vg :
  read_results nvarg ndir nlag0 types orig file = Ok vg ->
  exists lines ignore,
    file = Some lines /\
    ignore_rows nvarg ndir (nlag0 + 2) = Ok ignore /\
    (kept_lines ignore lines <> [] ->
     forall j name, result_names types !! j = Some name ->
       forall k, cell_at vg name k
                 = (fun ln => default VNone (ln !! j)) <$> kept_lines ignore lines !! k).
Proof.
  unfold read_results. cbv zeta. intros H.
  apply res_bind_ok_inv in H as (ignore & Hig & H).
  apply res_bind_ok_inv in H as (vg0 & Hcsv & H).
  apply res_bind_ok_inv in H as (vario & Hvario & H).
  apply res_bind_ok_inv in H as (vg1 & H1 & H).
  apply res_bind_ok_inv in H as (dirs & Hdirs & H).
  apply res_bind_ok_inv in H as (vg2 & H2 & H).
  apply read_csv_inv in Hcsv as (lines & -> & Hn0 & Hi0 & Hcols0).
  exists lines, ignore. split; [done|]. split; [done|].
  intros Hkept.
  assert (Hpos : nrows vg0 <> 0%nat).
  { rewrite Hn0. by destruct (kept_lines ignore lines). }
  apply df_set_col_inv in H1 as (? & -> & _ & _ & _ & [[_ ->]|(E0 & _)]); [|done].
  apply df_set_col_inv in H2 as (? & -> & _ & _ & _ & [[_ ->]|(E0 & _)]); [|done].
  cbn [nrows columns index] in *.
  intros j name Hname k.
  destruct (result_names_not_label types name) as [Hnl Hmi];
    [by eapply list_elem_of_lookup_2|].
  rewrite (meta_loop_other _ _ _ _ name k H) by (by left).
  unfold cell_at, df_set_scalar. cbn [columns].
  rewrite !assoc_col_put_ne
    by (intros <-; apply Hnl; apply (bool_decide_unpack _); vm_compute; exact I).
  rewrite Hcols0.
  rewrite (assoc_col_imap _ (fun j => map (fun ln => default VNone (ln !! j))
                                          (kept_lines ignore lines)) j name);
    [|apply result_names_nodup|done].
  cbn. apply lookup_map.
Qed.

Lemma meta_step_run orig vg i row sel :
  orig !! i = Some row -> (4 <= length row)%nat ->
  df_col "Variogram" vg = Ok sel ->
  exists vg', meta_step orig vg i = Ok vg' /\ df_col "Variogram" vg' = Ok sel.
Proof.
  intros Hrow Hlen Hsel.
  assert (Hat : forall j, (j < 4)%nat -> exists c, at2 orig i j = Ok c).
  { intros j Hj. unfold at2. rewrite Hrow.
    destruct (lookup_lt_is_Some_2 row j) as [c Hc]; [lia|]. rewrite Hc. eauto. }
  destruct (Hat 0%nat) as [c0 H0]; [lia|]. destruct (Hat 1%nat) as [c1 H1]; [lia|].
  destruct (Hat 2%nat) as [c2 H2]; [lia|]. destruct (Hat 3%nat) as [c3 H3]; [lia|].
  unfold meta_step. cbv zeta. rewrite H0. cbn [mbind res_bind]. rewrite Hsel.
  cbn [mbind res_bind]. rewrite H1. cbn [mbind res_bind].
  rewrite df_col_loc_set_other, Hsel by reflexivity. cbn [mbind res_bind].
  rewrite H2. cbn [mbind res_bind].
  rewrite !df_col_loc_set_other, Hsel by reflexivity. cbn [mbind res_bind].
  rewrite H3. cbn [mbind res_bind].
  rewrite !df_col_loc_set_other, Hsel by reflexivity. cbn [mbind res_bind].
  eexists. split; [done|]. by rewrite !df_col_loc_set_other by reflexivity.
Qed.

Lemma meta_loop_total orig idx vg sel :
  Forall (fun i => exists row, orig !! i = Some row /\ (4 <= length row)%nat) idx ->
  df_col "Variogram" vg = Ok sel ->
  exists vg', for_each (meta_step orig) vg idx = Ok vg'.
Proof.
  intros Hidx. revert vg. induction Hidx as [|i idx (row & Hrow & Hlen) _ IH]; intros vg Hsel.
  - by exists vg.
  - destruct (meta_step_run _ _ _ _ _ Hrow Hlen Hsel) as (vg1 & H1 & Hsel1).
    cbn [for_each]. rewrite H1. cbn [mbind res_bind]. by apply IH.
Qed.

Lemma data_lines_length (s : nat) (blocks : list (list value * list (list value))) :
  Forall (fun b => length b.2 = s) blocks ->
  length (data_lines blocks) = (length blocks * s)%nat.
Proof.
  intros H. unfold data_lines. induction H as [|[h d] blocks Hd _ IH]; [done|].
  cbn [map concat snd length] in *. rewrite length_app, IH. lia.
Qed.

Lemma filter_no_blank (lns : list (list value)) :
  Forall (fun ln => ln <> []) lns -> List.filter (fun ln => negb (is_blank ln)) lns = lns.
Proof.
  induction 1 as [|ln lns Hln _ IH]; [done|].
  cbn [List.filter]. destruct ln; [done|]. cbn. by rewrite IH.
Qed.

Lemma kept_lines_layout (step total : nat) (blocks : list (list value * list (list value))) :
  Forall (fun b => S (length b.2) = step) blocks ->
  (length blocks <= total)%nat ->
  Forall (fun ln => ln <> []) (data_lines blocks) ->
  kept_lines (map (fun b => Z.of_nat b * Z.of_nat step) (seq 0 total)) (layout blocks)
  = data_lines blocks.
Proof.
  intros Hb Hlen Hne. unfold kept_lines.
  pose proof (skip_layout step total 0 blocks Hb Hlen) as E. cbn [Nat.mul] in E. rewrite E.
  by apply filter_no_blank.
Qed.

Lemma df_set_col_run c vs df :
  length vs = nrows df ->
  df_set_col c vs df = Ok (MkDf (nrows df) (put_col c vs (columns df)) (index df)).
Proof.
  intros H. unfold df_set_col. rewrite H, Nat.eqb_refl.
  by destruct (Nat.eqb (nrows df) 0).
Qed.

Lemma read_results_total nvarg ndir nlag0 types orig blocks :
  (0 < nvarg)%nat -> (0 < ndir)%nat -> 0 < nlag0 + 2 ->
  length blocks = (nvarg * ndir)%nat ->
  Forall (fun b => length b.2 = Z.to_nat (nlag0 + 2)) blocks ->
  Forall (fun ln => ln <> []) (data_lines blocks) ->
  Forall (fun r => (4 <= length r)%nat) orig ->
  exists vg,
    read_results nvarg ndir nlag0 types orig (Some (layout blocks)) = Ok vg /\
    forall j name, result_names types !! j = Some name ->
      forall k, cell_at vg name k
                = (fun ln => default VNone (ln !! j)) <$> data_lines blocks !! k.
Proof.
  intros Hnv Hnd Hs Hlen Hblocks Hne Horig.
  set (s := Z.to_nat (nlag0 + 2)) in *.
  assert (Hskip : kept_lines (map (fun b => Z.of_nat b * (nlag0 + 3)) (seq 0 (nvarg * ndir)))
                    (layout blocks) = data_lines blocks).
  { replace (nlag0 + 3) with (Z.of_nat (S s)) by (unfold s; lia).
    apply (kept_lines_layout (S s) (nvarg * ndir)); [|lia|done].
    eapply Forall_impl; [exact Hblocks|]. intros b Hb. cbn in Hb. by rewrite Hb. }
  assert (Hdl : length (data_lines blocks) = (nvarg * ndir * s)%nat).
  { rewrite (data_lines_length s) by done. by rewrite Hlen. }
  assert (Hex : exists vg, read_results nvarg ndir nlag0 types orig (Some (layout blocks)) = Ok vg).
  { unfold read_results. cbv zeta. rewrite ignore_rows_spec by lia. cbn [mbind res_bind].
    unfold read_csv. cbv zeta. rewrite Hskip. cbn [mbind res_bind].
    unfold np_repeat.
    destruct (Z.ltb_spec (Z.of_nat ndir * (nlag0 + 2)) 0); [nia|].
    destruct (Z.ltb_spec (nlag0 + 2) 0); [lia|]. cbn [mbind res_bind].
    assert (HK : Z.to_nat (Z.of_nat ndir * (nlag0 + 2)) = (ndir * s)%nat).
    { unfold s. rewrite Z2Nat.inj_mul by lia. by rewrite Nat2Z.id. }
    rewrite HK. fold s.
    rewrite df_set_col_run
      by (cbn [nrows]; rewrite length_map, repeat_each_length, py_range_length; lia).
    cbn [mbind res_bind nrows columns index].
    rewrite df_set_col_run
      by (cbn [nrows]; rewrite length_map, tile_length, repeat_each_length, py_range_length; lia).
    cbn [mbind res_bind nrows columns index].
    eapply meta_loop_total.
    - apply Forall_forall. intros i Hi. apply elem_of_seq in Hi.
      destruct (lookup_lt_is_Some_2 orig i) as [row Hrow]; [lia|].
      exists row. split; [done|]. by eapply (Forall_lookup_1 _ _ _ _ Horig).
    - unfold df_col, df_set_scalar. cbn [columns].
      rewrite !assoc_col_put_ne by done. by rewrite assoc_col_put_eq. }
  destruct Hex as [vg Hvg]. exists vg. split; [done|].
  destruct (read_results_data _ _ _ _ _ _ _ Hvg) as (lines & ignore & [= <-] & Hig & Hcells).
  rewrite ignore_rows_spec in Hig by lia. injection Hig as <-.
  rewrite Hskip in Hcells.
  intros j name Hname k. apply Hcells; [|done].
  intros E. rewrite E in Hdl. cbn in Hdl. nia.
Qed.

(** ** The loop over the variogram rows *)

Lemma at2_middle {A} (done : list (list A)) r rest j :
  at2 (done ++ r :: rest) (length done) j
  = match r !! j with Some c => Ok c | None => Raise IndexError end.
Proof. unfold at2. by rewrite list_lookup_middle. Qed.

Lemma cut_step_middle dt done r rest :
  cut_step dt (done ++ r :: rest) (length done)
  = (r' ← cut_row dt (length done) r; Ok (done ++ r' :: rest)).
Proof.
  unfold cut_step, cut_row, set2_none. rewrite !at2_middle.
  destruct (r !! 2%nat) as [ty|]; [|done]. cbn [mbind res_bind].
  destruct (cell_lt ty 9) as [[]|e]; [| |done]; cbn [mbind res_bind].
  - destruct (r !! 3%nat) as [c|]; [|done]. cbn [mbind res_bind].
    destruct dt; [done|]. cbn. f_equal.
    replace (length done) with (length done + 0)%nat at 1 by lia.
    by rewrite alter_app_r.
  - destruct (r !! 3%nat) as [c|]; [|done]. cbn [mbind res_bind].
    by destruct (is_none c).
Qed.

Lemma for_each_cut dt done todo :
  for_each (cut_step dt) (done ++ todo) (seq (length done) (length todo))
  = (rest ← cut_rows dt (length done) todo; Ok (done ++ rest)).
Proof.
  revert done. induction todo as [|r todo IH]; intros done.
  - cbn. by rewrite app_nil_r.
  - cbn [length seq for_each cut_rows]. rewrite cut_step_middle.
    destruct (cut_row dt (length done) r) as [r'|e]; [|done]. cbn [mbind res_bind].
    replace (done ++ r' :: todo) with ((done ++ [r']) ++ todo) by (by rewrite <- app_assoc).
    replace (S (length done)) with (length (done ++ [r'])) by (rewrite length_app; cbn; lia).
    rewrite IH. destruct (cut_rows _ _ todo) as [rest|e]; [|done].
    cbn. by rewrite <- app_assoc.
Qed.

Lemma cut_row_inv dt i r r' :
  cut_row dt i r = Ok r' ->
  r' = forced r /\ lacks_cut r = false /\ (low_type r = true -> dt = DObject).
Proof.
  unfold cut_row, forced, lacks_cut, low_type.
  destruct (r !! 2%nat) as [[|ty]|]; [done| |done]. cbn [mbind res_bind cell_lt].
  destruct (ty <? 9); cbn [mbind res_bind].
  - destruct (r !! 3%nat) as [c|]; [|done]. cbn [mbind res_bind].
    destruct dt; [done|]. intros [= <-]. by destruct c.
  - destruct (r !! 3%nat) as [[|z]|]; [done| |done]. cbn. by intros [= <-].
Qed.

Lemma cut_rows_inv dt i rs rs' :
  cut_rows dt i rs = Ok rs' ->
  rs' = map forced rs /\
  Forall (fun r => lacks_cut r = false) rs /\
  (dt = DObject \/ Forall (fun r => low_type r = false) rs).
Proof.
  revert i rs'. induction rs as [|r rs IH]; intros i rs'; cbn.
  - intros [= <-]. auto.
  - intros H. apply res_bind_ok_inv in H as (r' & Hr & H).
    apply res_bind_ok_inv in H as (rest & Hrest & H). injection H as <-.
    apply cut_row_inv in Hr as (-> & Hl & Hd).
    apply IH in Hrest as (-> & Hls & Hds).
    split; [done|]. split; [by constructor|].
    destruct (low_type r) eqn:E; [left; auto|].
    destruct Hds as [->|Hds]; [by left|right; by constructor].
Qed.

Lemma cut_row_run dt i r :
  length r = 4%nat -> (exists ty, r !! 2%nat = Some (CInt ty)) ->
  lacks_cut r = false -> (low_type r = true -> dt = DObject) ->
  cut_row dt i r = Ok (forced r).
Proof.
  intros Hlen [ty Hty] Hl Hd. unfold cut_row, forced, lacks_cut, low_type in *.
  rewrite Hty in *. cbn [mbind res_bind cell_lt].
  destruct (lookup_lt_is_Some_2 r 3%nat) as [c Hc]; [lia|]. rewrite Hc in *.
  destruct (ty <? 9); cbn [mbind res_bind].
  - by rewrite Hd.
  - destruct c; [done|]. done.
Qed.

Lemma cut_row_fail dt i r :
  lacks_cut r = true -> cut_row dt i r = Raise (NameError (cut_message i)).
Proof.
  unfold cut_row, lacks_cut.
  destruct (r !! 2%nat) as [[|ty]|]; [done| |done].
  destruct (r !! 3%nat) as [[|z]|]; [|done|done]. cbn.
  by destruct (ty <? 9).
Qed.

Lemma cut_rows_run dt i rs :
  Forall (fun r => length r = 4%nat /\ exists ty, r !! 2%nat = Some (CInt ty)) rs ->
  Forall (fun r => lacks_cut r = false) rs ->
  (dt = DObject \/ Forall (fun r => low_type r = false) rs) ->
  cut_rows dt i rs = Ok (map forced rs).
Proof.
  intros Hrs. revert i. induction Hrs as [|r rs [Hlen Hty] _ IH]; intros i Hl Hd; [done|].
  apply Forall_cons in Hl as [Hl Hls]. cbn.
  rewrite cut_row_run; try done.
  - cbn. rewrite IH; [done|done|]. destruct Hd as [?|Hd]; [by left|].
    right. by apply Forall_cons in Hd as [_ ?].
  - intros Hlow. destruct Hd as [?|Hd]; [done|].
    apply Forall_cons in Hd as [Hd _]. congruence.
Qed.

Lemma cut_rows_fail dt i pre r post :
  Forall (fun r => length r = 4%nat /\ exists ty, r !! 2%nat = Some (CInt ty)) pre ->
  Forall (fun r => lacks_cut r = false) pre ->
  (dt = DObject \/ Forall (fun r => low_type r = false) pre) ->
  lacks_cut r = true ->
  cut_rows dt i (pre ++ r :: post) = Raise (NameError (cut_message (i + length pre))).
Proof.
  intros Hpre. revert i. induction Hpre as [|r0 pre [Hlen Hty] _ IH]; intros i Hl Hd Hr.
  - cbn. rewrite cut_row_fail by done. cbn. by rewrite Nat.add_0_r.
  - apply Forall_cons in Hl as [Hl Hls]. cbn [app cut_rows].
    rewrite cut_row_run; try done.
    + cbn [mbind res_bind]. rewrite IH; try done.
      * cbn. do 3 f_equal. lia.
      * destruct Hd as [?|Hd]; [by left|]. right. by apply Forall_cons in Hd as [_ ?].
    + intros Hlow. destruct Hd as [?|Hd]; [done|].
      apply Forall_cons in Hd as [Hd _]. congruence.
Qed.

(** ** The checks as a whole *)

Lemma np_array_run {A} (rs : list (list A)) (n : nat) :
  rs <> [] -> Forall (fun r => length r = n) rs -> np_array rs = Ok (MkArr [length rs; n] rs).
Proof.
  intros Hne Hall. unfold np_array. destruct rs as [|r rest]; [done|].
  apply Forall_cons in Hall as [<- Hall].
  replace (forallb (fun r' => Nat.eqb (length r') (length r)) rest) with true; [done|].
  symmetry. apply forallb_forall. intros r' Hr'. apply Nat.eqb_eq.
  rewrite Forall_forall in Hall. apply Hall. by apply list_elem_of_In.
Qed.

Lemma column_run {A} (j : nat) (rs : list (list A)) :
  Forall (fun r => (j < length r)%nat) rs -> exists col, column j rs = Ok col.
Proof.
  unfold column. induction 1 as [|r rs Hr _ [col IH]]; [by exists []|].
  destruct (lookup_lt_is_Some_2 r j Hr) as [c Hc].
  exists (c :: col). cbn. rewrite Hc. cbn. by rewrite IH.
Qed.

Lemma assert_all_le_run (n : nat) (col : list cell) :
  Forall (fun c => exists z, c = CInt z /\ z <= Z.of_nat n) col -> assert_all_le n col = Ok tt.
Proof.
  intros H. unfold assert_all_le.
  assert (E : mapM (fun c => cell_le c (Z.of_nat n)) col = Ok (map (fun _ => true) col)).
  { induction H as [|c col (z & -> & Hz) _ IH]; [done|].
    cbn. rewrite IH. cbn. by apply Z.leb_le in Hz as ->. }
  rewrite E. cbn. replace (forallb id (map (fun _ => true) col)) with true; [done|].
  clear. by induction col.
Qed.

Lemma type_allowed_run (z : Z) : 1 <= z <= 10 -> type_allowed (CInt z) = true.
Proof.
  intros H. unfold type_allowed, allowed_types. cbn.
  rewrite !orb_true_iff, !Z.eqb_eq. lia.
Qed.

Lemma check_ivpar_run (n : nat) (dt : dtype) (rs : list (list cell)) :
  Forall (row_ok n) rs -> Forall (fun r => length r = 4%nat) rs ->
  check_ivpar n dt (MkArr [length rs; 4%nat] rs) = cut_rows dt 0 rs.
Proof.
  intros Hok Hlen. unfold check_ivpar. cbn [rows].
  assert (Hcol : forall j, (j < 4)%nat -> exists col, column j rs = Ok col).
  { intros j Hj. apply column_run. eapply Forall_impl; [exact Hlen|]. cbn. lia. }
  destruct (Hcol 0%nat) as [c0 H0]; [lia|]. destruct (Hcol 1%nat) as [c1 H1]; [lia|].
  destruct (Hcol 2%nat) as [c2 H2]; [lia|].
  rewrite H0, H1, H2. cbn [mbind res_bind].
  pose proof (column_inv _ _ _ H0) as F0. pose proof (column_inv _ _ _ H1) as F1.
  pose proof (column_inv _ _ _ H2) as F2.
  rewrite (assert_all_le_run n c0).
  2:{ apply Forall_lookup_2. intros i c Hc.
      destruct (Forall2_lookup_r _ _ _ _ _ F0 Hc) as (r & Hr & Hrc).
      destruct (Forall_lookup_1 _ _ _ _ Hok Hr) as (t & h & ty & Ht & ? & _).
      exists t. split; [congruence|done]. }
  cbn [mbind res_bind]. rewrite (assert_all_le_run n c1).
  2:{ apply Forall_lookup_2. intros i c Hc.
      destruct (Forall2_lookup_r _ _ _ _ _ F1 Hc) as (r & Hr & Hrc).
      destruct (Forall_lookup_1 _ _ _ _ Hok Hr) as (t & h & ty & _ & _ & Hh & ? & _).
      exists h. split; [congruence|done]. }
  cbn [mbind res_bind].
  replace (forallb type_allowed c2) with true.
  2:{ symmetry. apply forallb_forall. intros c Hc. apply list_elem_of_In in Hc.
      apply list_elem_of_lookup in Hc as [i Hc].
      destruct (Forall2_lookup_r _ _ _ _ _ F2 Hc) as (r & Hr & Hrc).
      destruct (Forall_lookup_1 _ _ _ _ Hok Hr) as (t & h & ty & _ & _ & _ & _ & Hty & ?).
      replace c with (CInt ty) by congruence. by apply type_allowed_run. }
  cbn. pose proof (for_each_cut dt [] rs) as H. cbn in H. rewrite H.
  by destruct (cut_rows dt 0 rs).
Qed.

Lemma check_arrays_run (vars : list Z) (dirs : list (list float)) (pars : list (list cell)) :
  pars <> [] -> Forall (fun r => length r = 4%nat) pars ->
  dirs <> [] -> Forall (fun r => length r = 6%nat) dirs ->
  Forall (row_ok (length vars)) pars ->
  check_arrays vars dirs pars
  = (rs ← cut_rows (infer_dtype pars) 0 pars;
     Ok (MkArr [length pars; 4%nat] rs, MkArr [length dirs; 6%nat] dirs)).
Proof.
  intros Hp Hp4 Hd Hd6 Hok. unfold check_arrays.
  rewrite (np_array_run pars 4), (np_array_run dirs 6) by done.
  cbn [mbind res_bind shape_at shape lookup list_lookup py_assert Nat.eqb].
  by rewrite check_ivpar_run.
Qed.

Lemma row_ok_shape n r :
  row_ok n r -> exists ty, r !! 2%nat = Some (CInt ty).
Proof. intros (t & h & ty & _ & _ & _ & _ & H & _). eauto. Qed.

Lemma check_arrays_ok_inv vars dirs pars apar adir :
  check_arrays vars dirs pars = Ok (apar, adir) ->
  apar = MkArr [length pars; 4%nat] (map forced pars) /\
  adir = MkArr [length dirs; 6%nat] dirs /\
  pars <> [] /\ Forall (fun r => length r = 4%nat) pars /\
  dirs <> [] /\ Forall (fun r => length r = 6%nat) dirs /\
  Forall (row_ok (length vars)) pars /\
  Forall (fun r => lacks_cut r = false) pars /\
  (infer_dtype pars = DObject \/ Forall (fun r => low_type r = false) pars).
Proof.
  intros H. pose proof (check_arrays_inv _ _ _ _ _ H)
    as (Hp & Hd & Hp4 & Hd6 & -> & Hsh & Hchk).
  pose proof (check_ivpar_rows_ok _ _ _ _ Hchk) as Hok. cbn [rows] in Hok.
  rewrite check_ivpar_run in Hchk by done.
  apply cut_rows_inv in Hchk as (Hrows & Hl & Hdt).
  destruct apar as [sh rs]. cbn in *. subst. done.
Qed.

(** ** What a returned table says about the call *)

Lemma forced_lookup (r : list cell) (j : nat) : j <> 3%nat -> forced r !! j = r !! j.
Proof.
  intros Hj. unfold forced. destruct (r !! 2%nat) as [[|ty]|]; try done.
  destruct (ty <? 9); [|done]. by rewrite list_lookup_insert_ne.
Qed.

Lemma forced_length r : length (forced r) = length r.
Proof.
  unfold forced. destruct (r !! 2%nat) as [[|ty]|]; try done.
  destruct (ty <? 9); [|done]. by rewrite length_insert.
Qed.

Lemma types_of_forced (pars : list (list cell)) (types : list cell) :
  column 2 (map forced pars) = Ok types ->
  Forall2 (fun r c => r !! 2%nat = Some c) pars types.
Proof.
  intros H. apply column_inv in H. apply Forall2_fmap_l in H.
  eapply Forall2_impl; [exact H|]. intros r c. cbn. by rewrite forced_lookup.
Qed.

Lemma any_type_4 (pars : list (list cell)) (types : list cell) :
  Forall2 (fun r c => r !! 2%nat = Some c) pars types ->
  existsb (cell_eq_int 4) types = true <-> exists r, r ∈ pars /\ r !! 2%nat = Some (CInt 4).
Proof.
  intros H. rewrite existsb_exists. split.
  - intros (c & Hc & H4). destruct c as [|z]; [done|]. cbn in H4. apply Z.eqb_eq in H4 as ->.
    apply list_elem_of_In, list_elem_of_lookup in Hc as [i Hi].
    destruct (Forall2_lookup_r _ _ _ _ _ H Hi) as (r & Hr & Hrc).
    exists r. split; [by eapply list_elem_of_lookup_2|done].
  - intros (r & Hr & H4). apply list_elem_of_lookup in Hr as [i Hi].
    destruct (Forall2_lookup_l _ _ _ _ _ H Hi) as (c & Hc & Hrc).
    exists c. split; [apply list_elem_of_In; by eapply list_elem_of_lookup_2|].
    rewrite H4 in Hrc. by injection Hrc as <-.
Qed.

Section Returned.

Variable os_name : string.
Variable popen : list string -> list event -> option procres.

Lemma gamv_ok_inv p gp silent c w vg :
  holds w p c ->
  (gamv os_name popen p gp silent w).1 = Ok vg ->
  exists adir pr types vg1 vg2,
    check_arrays (effective_vars c) (c_dirs c) (c_pars c)
    = Ok (MkArr [length (c_pars c); 4%nat] (map forced (c_pars c)), adir) /\
    returncode pr = 0 /\
    column 2 (map forced (c_pars c)) = Ok types /\
    read_results (length (c_pars c)) (length (c_dirs c)) (nlag (c_dict c)) types (c_pars c)
                 (files pr (out_path c)) = Ok vg1 /\
    cleanup vg1 = Ok vg2 /\
    df_set_index ["Variogram"; "Direction"; "Lag"] vg2 = Ok vg.
Proof.
  intros Hc Hvg.
  destruct (gamv_refines os_name popen p gp silent c w Hc) as [Hr _].
  rewrite Hr in Hvg. clear Hr. unfold gamv_model in Hvg.
  destruct (data_okb c); [|done].
  destruct (check_arrays _ _ _) as [[apar adir]|e] eqn:Hchk; [|done].
  cbn zeta in Hvg. destruct (popen _ _) as [pr|]; [|done].
  destruct (Z.eqb_spec (returncode pr) 0) as [Hrc|Hrc].
  2:{ cbn in Hvg. unfold engine_error in Hvg. by destruct (decode_utf8 (stderr pr)). }
  cbn [fst] in Hvg.
  pose proof (check_arrays_ok_inv _ _ _ _ _ Hchk) as (-> & -> & _).
  unfold result_table, nrows_of in Hvg. cbn [rows shape lookup list_lookup default] in Hvg.
  apply res_bind_ok_inv in Hvg as (types & Hty & Hvg).
  apply res_bind_ok_inv in Hvg as (vg1 & H1 & Hvg).
  apply res_bind_ok_inv in Hvg as (vg2 & H2 & Hvg).
  by exists (MkArr [length (c_dirs c); 6%nat] (c_dirs c)), pr, types, vg1, vg2.
Qed.

Lemma assoc_col_drop (keys : list string) (cols : list (string * list value)) (c : string) :
  assoc_col c (List.filter (fun cv => negb (existsb (String.eqb cv.1) keys)) cols)
  = if existsb (String.eqb c) keys then None else assoc_col c cols.
Proof.
  induction cols as [|[c' vs] cols IH]; [by destruct (existsb _ keys)|].
  cbn [List.filter fst assoc_col].
  destruct (String.eqb_spec c c') as [<-|Hne].
  - destruct (existsb (String.eqb c) keys) eqn:E; cbn [negb]; [done|].
    cbn [assoc_col]. by rewrite String.eqb_refl.
  - destruct (existsb (String.eqb c') keys); cbn [negb]; [done|].
    cbn [assoc_col]. by destruct (String.eqb_spec c c').
Qed.

Lemma assoc_col_levels (keys : list string) (f : string -> list value) (c : string) :
  c ∈ keys -> assoc_col c (map (fun k => (k, f k)) keys) = Some (f c).
Proof.
  induction keys as [|k keys IH]; intros H; [by apply elem_of_nil in H|].
  cbn. destruct (String.eqb_spec c k) as [->|Hne]; [done|].
  apply elem_of_cons in H as [H|H]; [done|]. by apply IH.
Qed.

(** What [set_index] makes of a table: the rows stay, the key columns
    leave the columns and are the levels of the index. *)
Lemma set_index_inv keys vg vg' :
  df_set_index keys vg = Ok vg' ->
  nrows vg' = nrows vg /\
  col_names vg'
  = List.filter (fun c => negb (existsb (String.eqb c) keys)) (col_names vg) /\
  map fst (index vg') = keys /\
  (forall c k, existsb (String.eqb c) keys = false -> cell_at vg' c k = cell_at vg c k) /\
  (forall c k, c ∈ keys -> level_at vg' c k = cell_at vg c k).
Proof.
  unfold df_set_index. destruct (find _ keys); [done|]. intros [= <-].
  cbn [nrows columns index]. split; [done|]. split; [|split; [|split]].
  - unfold col_names. cbn [columns]. induction (columns vg) as [|[c vs] cols IH]; [done|].
    cbn [List.filter map fst]. destruct (existsb (String.eqb c) keys); cbn; by rewrite IH.
  - rewrite map_map. cbn. apply map_id.
  - intros c k Hc. unfold cell_at. cbn [columns]. by rewrite assoc_col_drop, Hc.
  - intros c k Hc. unfold level_at, cell_at. cbn [index].
    rewrite (assoc_col_levels keys (fun k => default [] (assoc_col k (columns vg))) c Hc).
    cbn. by destruct (assoc_col c (columns vg)).
Qed.

(** C1 (amended).  For a call that returns a table: the table has the
    column [variance tail], and likewise the column [variance head], exactly
    when some variogram row of the configuration has type code 4, the
    correlogram. *)
Theorem variance_columns (parameters : loc) (gslib_path : option string) (silent : flag)
    (c : config) (w : world) (vg : DataFrame) :
  holds w parameters c ->
  (gamv os_name popen parameters gslib_path silent w).1 = Ok vg ->
  ("variance tail" ∈ col_names vg
   <-> exists r, r ∈ c_pars c /\ r !! 2%nat = Some (CInt 4)) /\
  ("variance head" ∈ col_names vg
   <-> exists r, r ∈ c_pars c /\ r !! 2%nat = Some (CInt 4)).
Proof.
  intros Hc Hvg.
  destruct (gamv_ok_inv _ _ _ _ _ _ Hc Hvg)
    as (adir & pr & types & vg1 & vg2 & _ & _ & Hty & H1 & H2 & H3).
  apply set_index_inv in H3 as (_ & Hcols & _).
  assert (Hnames : col_names vg
                   = List.filter (fun c => negb (existsb (String.eqb c)
                                                         ["Variogram"; "Direction"; "Lag"]))
                                 (result_names types ++ label_names)).
  { rewrite Hcols.
    apply cleanup_ok_inv in H2 as (pairs & sep & _ & _ & ->).
    rewrite !col_names_loc_set.
    by apply read_results_inv in H1 as (_ & _ & -> & _). }
  rewrite Hnames. rewrite <- (any_type_4 _ _ (types_of_forced _ _ Hty)).
  unfold result_names.
  destruct (existsb (cell_eq_int 4) types); split; split; try done.
  all: try (intros _; apply (bool_decide_unpack _); vm_compute; exact I).
  all: intros H; exfalso; revert H; apply (bool_decide_unpack _); vm_compute; exact I.
Qed.

Lemma cleanup_keeps vg vg' c k :
  cleanup vg = Ok vg' -> existsb (String.eqb c) stat_columns = false ->
  cell_at vg' c k = cell_at vg c k.
Proof.
  intros H Hc. rewrite (cleanup_cell _ _ c k H). rewrite Hc.
  assert (E : String.eqb c "var funct" = false).
  { cbn in Hc. by apply orb_false_iff in Hc as [-> _]. }
  rewrite E. cbn. by destruct (cell_at vg c k).
Qed.

Lemma gamv_labels p gp silent c w vg :
  holds w p c ->
  (gamv os_name popen p gp silent w).1 = Ok vg ->
  let nvarg := length (c_pars c) in
  let ndir := length (c_dirs c) in
  let s := Z.to_nat (nlag (c_dict c) + 2) in
  nrows vg = (nvarg * ndir * s)%nat /\
  forall k, (k < nrows vg)%nat ->
    level_at vg "Variogram" k = Some (VInt (Z.of_nat (k / (ndir * s)))) /\
    level_at vg "Direction" k = Some (VInt (Z.of_nat ((k / s) mod ndir))) /\
    exists row, c_pars c !! (k / (ndir * s))%nat = Some row /\ (4 <= length row)%nat /\
      forall name j, meta_index name = Some j ->
        cell_at vg name k = Some (value_of_cell (default CNone (row !! j))).
Proof.
  intros Hc Hvg nvarg ndir s.
  destruct (gamv_ok_inv _ _ _ _ _ _ Hc Hvg)
    as (adir & pr & types & vg1 & vg2 & _ & _ & Hty & H1 & H2 & H3).
  apply set_index_inv in H3 as (Hn & _ & _ & Hcol & Hlevel).
  pose proof (cleanup_ok_inv _ _ H2) as (pairs & sep & _ & _ & Hvg2).
  assert (Hn2 : nrows vg2 = nrows vg1) by (by rewrite Hvg2).
  pose proof (read_results_inv _ _ _ _ _ _ _ H1) as (Hs & Hrows & _ & _ & Hcells).
  fold nvarg ndir s in Hrows, Hcells.
  split; [congruence|]. intros k Hk.
  assert (Hk1 : (k < nrows vg1)%nat) by congruence.
  destruct (Hcells k Hk1) as (Hv & Hd & Hm).
  rewrite !Hlevel by (repeat constructor).
  rewrite !(cleanup_keeps _ _ _ _ H2) by reflexivity.
  split; [done|]. split; [done|].
  assert (Hlt : (k / (ndir * s) < nvarg)%nat).
  { apply Nat.Div0.div_lt_upper_bound. lia. }
  destruct (lookup_lt_is_Some_2 (c_pars c) (k / (ndir * s))%nat Hlt) as [row Hrow].
  exists row. split; [done|].
  destruct (Hm "tail" 0%nat eq_refl Hlt) as (row' & Hrow' & Hlen & _).
  split; [congruence|]. intros name j Hj.
  destruct (Hm name j Hj Hlt) as (row'' & Hrow'' & _ & Hcj).
  assert (Hname : name = "tail" \/ name = "head" \/ name = "type" \/ name = "cut").
  { destruct (meta_index_inv _ _ Hj) as [[-> _]|[[-> _]|[[-> _]|[-> _]]]]; auto. }
  rewrite Hcol, (cleanup_keeps _ _ _ _ H2); [congruence|..];
    by destruct Hname as [->|[->|[->| ->]]].
Qed.

End Returned.

(** C2.  With [nvarg] variograms, [ndir] directions and [nlag0] lags:
    the rows handed to [read_csv] to skip are 0, [nlag0 + 3],
    [2 * (nlag0 + 3)], ..., one before each of the [nvarg * ndir] blocks;
    the table read, before the cleaning pass, has
    [nvarg * ndir * (nlag0 + 2)] rows; row [k] carries the variogram number
    [k / (ndir * (nlag0 + 2))], the direction number
    [(k / (nlag0 + 2)) mod ndir], and the tail, head, type and cut of the
    caller's variogram row of that number; on a file laid out in such
    blocks, with data lines that are not blank and not longer than the list
    of column names, the reading succeeds and keeps the data lines in order;
    and the table a call returns is the one read this way from the output
    file of the engine, cleaned and indexed. *)
Theorem result_layout (nvarg ndir : nat) (nlag0 : Z) (types : list cell)
    (orig : list (list cell)) :
  let s := Z.to_nat (nlag0 + 2) in
  (0 < nlag0 + 3 ->
   ignore_rows nvarg ndir (nlag0 + 2)
   = Ok (map (fun b => Z.of_nat b * (nlag0 + 3)) (seq 0 (nvarg * ndir)))) /\
  (forall file vg,
     read_results nvarg ndir nlag0 types orig file = Ok vg ->
     nrows vg = (nvarg * ndir * s)%nat /\
     forall k, (k < nrows vg)%nat ->
       cell_at vg "Variogram" k = Some (VInt (Z.of_nat (k / (ndir * s)))) /\
       cell_at vg "Direction" k = Some (VInt (Z.of_nat ((k / s) mod ndir))) /\
       forall row, orig !! (k / (ndir * s))%nat = Some row ->
         cell_at vg "tail" k = Some (value_of_cell (default CNone (row !! 0%nat))) /\
         cell_at vg "head" k = Some (value_of_cell (default CNone (row !! 1%nat))) /\
         cell_at vg "type" k = Some (value_of_cell (default CNone (row !! 2%nat))) /\
         cell_at vg "cut" k = Some (value_of_cell (default CNone (row !! 3%nat)))) /\
  (forall blocks,
     (0 < nvarg)%nat -> (0 < ndir)%nat -> 0 < nlag0 + 2 ->
     length blocks = (nvarg * ndir)%nat ->
     Forall (fun b => length b.2 = s) blocks ->
     Forall (fun ln => ln <> [] /\ (length ln <= length (result_names types))%nat)
            (data_lines blocks) ->
     Forall (fun r => (4 <= length r)%nat) orig ->
     exists vg,
       read_results nvarg ndir nlag0 types orig (Some (layout blocks)) = Ok vg /\
       forall j name, result_names types !! j = Some name ->
         forall k, cell_at vg name k
                   = (fun ln => default VNone (ln !! j)) <$> data_lines blocks !! k) /\
  (forall os_name popen parameters gslib_path silent c w vg,
     holds w parameters c ->
     (gamv os_name popen parameters gslib_path silent w).1 = Ok vg ->
     exists p tys vg1 vg2,
       read_results (length (c_pars c)) (length (c_dirs c)) (nlag (c_dict c)) tys
                    (c_pars c) (files p (out_path c)) = Ok vg1 /\
       cleanup vg1 = Ok vg2 /\
       df_set_index ["Variogram"; "Direction"; "Lag"] vg2 = Ok vg).
Proof.
  intros s. split; [|split; [|split]].
  - apply ignore_rows_spec.
  - intros file vg H.
    pose proof (read_results_inv _ _ _ _ _ _ _ H) as (Hs & Hrows & _ & _ & Hcells).
    fold s in Hrows, Hcells. split; [done|]. intros k Hk.
    destruct (Hcells k Hk) as (Hv & Hd & Hm). split; [done|]. split; [done|].
    intros row Hrow.
    assert (Hlt : (k / (ndir * s) < length orig)%nat) by (by eapply lookup_lt_Some).
    assert (Hmeta : forall name j, meta_index name = Some j ->
              cell_at vg name k = Some (value_of_cell (default CNone (row !! j)))).
    { intros name j Hj. destruct (Hm name j Hj Hlt) as (row' & Hrow' & _ & ->). congruence. }
    by rewrite (Hmeta "tail" 0%nat eq_refl), (Hmeta "head" 1%nat eq_refl),
      (Hmeta "type" 2%nat eq_refl), (Hmeta "cut" 3%nat eq_refl).
  - intros blocks Hv Hd Hl Hlen Hblocks Hlines Horig.
    apply read_results_total; try done.
    eapply Forall_impl; [exact Hlines|]. by intros ln [? _].
  - intros os_name popen parameters gslib_path silent c w vg Hc Hvg.
    destruct (gamv_ok_inv _ _ _ _ _ _ _ _ Hc Hvg)
      as (adir & pr & tys & vg1 & vg2 & _ & _ & _ & H1 & H2 & H3).
    by exists pr, tys, vg1, vg2.
Qed.

(** ** Cut-offs *)

Lemma lacks_cut_none (r : list cell) : lacks_cut r = true -> existsb is_none r = true.
Proof.
  unfold lacks_cut. destruct (r !! 2%nat) as [[|ty]|]; try done.
  destruct (r !! 3%nat) as [[|z]|] eqn:E; try done. intros _.
  apply existsb_exists. exists CNone. split; [|done].
  apply list_elem_of_In. by eapply list_elem_of_lookup_2.
Qed.

Lemma infer_dtype_none (pre post : list (list cell)) (r : list cell) :
  existsb is_none r = true -> infer_dtype (pre ++ r :: post) = DObject.
Proof.
  intros H. unfold infer_dtype.
  replace (existsb (existsb is_none) (pre ++ r :: post)) with true; [done|].
  symmetry. rewrite existsb_app. cbn. rewrite H. by rewrite orb_true_r.
Qed.

Lemma forced_cut (r : list cell) :
  length r = 4%nat -> low_type r = true -> forced r !! 3%nat = Some CNone.
Proof.
  intros Hlen. unfold low_type, forced.
  destruct (r !! 2%nat) as [[|ty]|]; try done. intros ->.
  apply list_lookup_insert_eq. lia.
Qed.

Lemma rows_shape (n : nat) (rs : list (list cell)) :
  Forall (fun r => length r = 4%nat) rs -> Forall (row_ok n) rs ->
  Forall (fun r => length r = 4%nat /\ exists ty, r !! 2%nat = Some (CInt ty)) rs.
Proof.
  intros H4 Hok. apply Forall_forall. intros r Hr.
  rewrite Forall_forall in H4, Hok. split; [by apply H4|].
  by eapply row_ok_shape, Hok.
Qed.

(** C3 (amended).  For a configuration that passes the shape and index
    assertions: (a) the first variogram row of type 9 or 10 whose cut is
    [None] makes the call raise the [NameError] that names the position of
    that row, and by then the call has done nothing beyond writing the
    in-memory data; (b) when no such row exists and the table holds a
    [None] somewhere (or no row has a type below 9), validation succeeds,
    every row of a type below 9 has the cut [None] in the validated array,
    whatever the caller gave, and that array is the one written to the
    parameter file; (c) in a returned table the [cut] column of a row shows
    the cut the caller gave for the variogram of that row. *)
Theorem cutoff_rules (os_name : string)
    (popen : list string -> list event -> option procres)
    (parameters : loc) (gslib_path : option string) (silent : flag)
    (c : config) (w : world) :
  holds w parameters c -> data_okb c = true -> well_shaped c ->
  Forall (row_ok (length (effective_vars c))) (c_pars c) ->
  let out := gamv os_name popen parameters gslib_path silent w in
  (forall pre r post,
     c_pars c = pre ++ r :: post -> lacks_cut r = true ->
     Forall (fun r' => lacks_cut r' = false) pre ->
     out.1 = Raise (NameError (cut_message (length pre))) /\
     trace out.2 = trace w ++ data_events c) /\
  (Forall (fun r => lacks_cut r = false) (c_pars c) ->
   infer_dtype (c_pars c) = DObject \/ Forall (fun r => low_type r = false) (c_pars c) ->
   check_arrays (effective_vars c) (c_dirs c) (c_pars c)
   = Ok (MkArr [length (c_pars c); 4%nat] (map forced (c_pars c)),
         MkArr [length (c_dirs c); 6%nat] (c_dirs c)) /\
   (forall r, r ∈ c_pars c -> low_type r = true -> forced r !! 3%nat = Some CNone) /\
   exists par evs,
     trace out.2 = trace w ++ data_events c
                   ++ EvPrint (PPar par) :: EvWrite "_xxx_.par" (FPar par) :: evs /\
     pf_ivpar par = map forced (c_pars c)) /\
  (forall vg k,
     out.1 = Ok vg -> (k < nrows vg)%nat ->
     exists v row,
       level_at vg "Variogram" k = Some (VInt (Z.of_nat v)) /\
       c_pars c !! v = Some row /\
       cell_at vg "cut" k = Some (value_of_cell (default CNone (row !! 3%nat)))).
Proof.
  intros Hc Hok (Hp & Hp4 & Hd & Hd6) Hrows out.
  pose proof (gamv_refines os_name popen parameters gslib_path silent c w Hc) as [Hr Ht].
  fold out in Hr, Ht.
  pose proof (check_arrays_run (effective_vars c) _ _ Hp Hp4 Hd Hd6 Hrows) as Hchk.
  pose proof (rows_shape _ _ Hp4 Hrows) as Hshape.
  split; [|split].
  - intros pre r post Epars Hr0 Hpre.
    assert (Hfail : check_arrays (effective_vars c) (c_dirs c) (c_pars c)
                    = Raise (NameError (cut_message (length pre)))).
    { rewrite Hchk, Epars. rewrite Epars in Hshape.
      rewrite (cut_rows_fail _ 0 pre r post); try done.
      - by apply Forall_app in Hshape as [? _].
      - left. apply infer_dtype_none. by apply lacks_cut_none. }
    unfold gamv_model in Hr, Ht. rewrite Hok, Hfail in Hr, Ht. done.
  - intros Hl Hdt. rewrite cut_rows_run in Hchk by done. cbn [mbind res_bind] in Hchk.
    split; [done|]. split.
    { intros r Hr0. apply forced_cut. rewrite Forall_forall in Hp4. by apply Hp4. }
    unfold gamv_model in Ht. rewrite Hok, Hchk in Ht. cbn zeta in Ht.
    exists (par_of c (MkArr [length (c_pars c); 4%nat] (map forced (c_pars c)))
                     (MkArr [length (c_dirs c); 6%nat] (c_dirs c))).
    destruct (popen _ _) as [p|]; [destruct (returncode p =? 0)|]; cbn [snd] in Ht;
      rewrite Ht, <- ?app_assoc; cbn [app]; eauto.
  - intros vg k Hvg Hk.
    destruct (gamv_labels os_name popen _ _ _ _ _ _ Hc Hvg) as (_ & Hcells).
    destruct (Hcells k Hk) as (Hv & _ & row & Hrow & _ & Hm).
    eexists _, row. split; [exact Hv|]. split; [done|]. by apply Hm.
Qed.

(** ** Tables of integers *)






(** * The call as a whole *)

(** ** What the call does to the outside *)

Lemma model_outcomes os_name popen c gp silent t :
  let m := gamv_model os_name popen c gp silent t in
  let argv := [default_path os_name gp; "_xxx_.par"] in
  (data_okb c = false /\ m = (Raise AssertionError, [])) \/
  (data_okb c = true /\
   exists e, check_arrays (effective_vars c) (c_dirs c) (c_pars c) = Raise e /\
             m = (Raise e, data_events c)) \/
  (data_okb c = true /\
   exists apar adir,
     check_arrays (effective_vars c) (c_dirs c) (c_pars c) = Ok (apar, adir) /\
     let par := par_of c apar adir in
     let evs := data_events c ++ [EvPrint (PPar par); EvWrite "_xxx_.par" (FPar par); EvSpawn argv] in
     (popen argv (t ++ evs) = None /\ m = (Raise OSError, evs)) \/
     (exists p, popen argv (t ++ evs) = Some p /\ returncode p <> 0 /\
                m = (engine_error p, evs)) \/
     (exists p, popen argv (t ++ evs) = Some p /\ returncode p = 0 /\
                m = (result_table c apar adir p, evs ++ echo silent p))).
Proof.
  intros m argv. subst m. unfold gamv_model.
  destruct (data_okb c); [|by left]. right.
  destruct (check_arrays _ _ _) as [[apar adir]|e]; [right|left; eauto].
  split; [done|]. exists apar, adir. split; [done|]. cbn zeta. fold argv.
  destruct (popen _ _) as [p|]; [|by left]. right.
  destruct (Z.eqb_spec (returncode p) 0); [right|left]; eauto.
Qed.

(** X1.  The whole of what a call does to the outside, in order: nothing at
    all; or the writing of the in-memory data; or that, then the parameter
    text printed and written to [_xxx_.par], then the engine started once on
    two arguments, the program (the caller's path, or the default for the
    operating system) and [_xxx_.par], then at most one thing printed. *)
Theorem side_effects_in_order (os_name : string)
    (popen : list string -> list event -> option procres)
    (parameters : loc) (gslib_path : option string) (silent : flag)
    (c : config) (w : world) :
  holds w parameters c ->
  let out := gamv os_name popen parameters gslib_path silent w in
  let program := match gslib_path with
                 | Some p => p
                 | None => if String.eqb os_name "posix" then "~/gslib/gamv"
                           else "c:\gslib\gamv.exe"
                 end in
  let data := match c_data c with
              | Some arr => [EvWrite "_xxx_.in" (FLines (data_file (ncols arr) arr))]
              | None => []
              end in
  trace out.2 = trace w \/
  trace out.2 = trace w ++ data \/
  exists par rest,
    trace out.2
    = trace w ++ data ++ [EvPrint (PPar par); EvWrite "_xxx_.par" (FPar par);
                          EvSpawn [program; "_xxx_.par"]] ++ rest /\
    (rest = [] \/ exists s, rest = [EvPrint s]).
Proof.
  intros Hc out program data.
  destruct (gamv_refines os_name popen parameters gslib_path silent c w Hc) as [_ Ht].
  fold out in Ht. rewrite Ht.
  destruct (model_outcomes os_name popen c gslib_path silent (trace w))
    as [[_ ->]|[(_ & e & _ & ->)|(_ & apar & adir & _ & H)]]; cbn [snd].
  - left. by rewrite app_nil_r.
  - right; left. done.
  - right; right. cbn zeta in H. exists (par_of c apar adir).
    destruct H as [[_ ->]|[(p & _ & _ & ->)|(p & _ & _ & ->)]]; cbn [snd].
    + exists []. split; [|by left]. by rewrite app_nil_r.
    + exists []. split; [|by left]. by rewrite app_nil_r.
    + exists (echo silent p). split; [by rewrite <- app_assoc|].
      unfold echo. destruct (truthy _); eauto.
Qed.

(** X2.  The parameter file a call writes, entry by entry: the data file is
    the caller's path, or [_xxx_.in] when the caller gave none or an array;
    the coordinate columns are the caller's, or 1, 2, 3 for an array; the
    variables are counted and joined with blanks; the output file is the
    caller's or [_xxx_.out]; directions and variograms are counted; the
    direction table is the caller's, the variogram table the caller's with
    the cut of every row below type 9 replaced by [None]; everything else
    is passed on as given. *)
Theorem parameter_file_contents (os_name : string)
    (popen : list string -> list event -> option procres)
    (parameters : loc) (gslib_path : option string) (silent : flag)
    (c : config) (w : world) (evs : list event) (par : parfile) :
  holds w parameters c ->
  trace (gamv os_name popen parameters gslib_path silent w).2 = trace w ++ evs ->
  EvWrite "_xxx_.par" (FPar par) ∈ evs ->
  let d := c_dict c in
  pf_datafl par = match datafl d with DPath p => DPath p | _ => DPath "_xxx_.in" end /\
  pf_icol par = match datafl d with
                | DArray _ => (1, 2, 3)
                | _ => (icolx d, icoly d, icolz d)
                end /\
  pf_nvar par = length (effective_vars c) /\
  pf_ivar par = str_join " " (map str_of_Z (effective_vars c)) /\
  pf_trim par = (tmin d, tmax d) /\
  pf_outfl par = Some (default "_xxx_.out" (outfl d)) /\
  pf_nlag par = nlag d /\ pf_xlag par = xlag d /\ pf_xltol par = xltol d /\
  pf_ndir par = length (c_dirs c) /\ pf_ivdir par = c_dirs c /\
  pf_standardize par = standardize d /\
  pf_nvarg par = length (c_pars c) /\ pf_ivpar par = map forced (c_pars c).
Proof.
  intros Hc Ht Hin d.
  destruct (gamv_refines os_name popen parameters gslib_path silent c w Hc) as [_ Ht'].
  rewrite Ht' in Ht. apply app_inv_head in Ht. subst evs.
  assert (Hdata : EvWrite "_xxx_.par" (FPar par) ∉ data_events c).
  { unfold data_events. destruct (c_data c); [|by apply not_elem_of_nil].
    intros H. apply list_elem_of_singleton in H. discriminate. }
  destruct (model_outcomes os_name popen c gslib_path silent (trace w))
    as [[_ E]|[(_ & e & _ & E)|(_ & apar & adir & Hchk & H)]].
  { rewrite E in Hin. by apply elem_of_nil in Hin. }
  { rewrite E in Hin. done. }
  assert (Hpar : par = par_of c apar adir).
  { cbn zeta in H.
    assert (Hcases : exists rest,
               (gamv_model os_name popen c gslib_path silent (trace w)).2
               = data_events c
                 ++ [EvPrint (PPar (par_of c apar adir));
                     EvWrite "_xxx_.par" (FPar (par_of c apar adir));
                     EvSpawn [default_path os_name gslib_path; "_xxx_.par"]] ++ rest /\
               forall ev, ev ∈ rest -> exists s, ev = EvPrint s).
    { destruct H as [[_ ->]|[(p & _ & _ & ->)|(p & _ & _ & ->)]]; cbn [snd].
      - exists []. split; [by rewrite app_nil_r|]. intros ev Hev. by apply elem_of_nil in Hev.
      - exists []. split; [by rewrite app_nil_r|]. intros ev Hev. by apply elem_of_nil in Hev.
      - exists (echo silent p). split; [by rewrite <- app_assoc|].
        unfold echo. intros ev Hev. destruct (truthy _); [|by apply elem_of_nil in Hev].
        apply list_elem_of_singleton in Hev. eauto. }
    destruct Hcases as (rest & E & Hrest). rewrite E in Hin.
    apply elem_of_app in Hin as [Hin|Hin]; [done|].
    apply elem_of_app in Hin as [Hin|Hin].
    - apply elem_of_cons in Hin as [Hin|Hin]; [discriminate|].
      apply elem_of_cons in Hin as [Hin|Hin]; [congruence|].
      apply list_elem_of_singleton in Hin. discriminate.
    - destruct (Hrest _ Hin) as [s Hs]. discriminate. }
  subst par. clear H Hin.
  pose proof (check_arrays_ok_inv _ _ _ _ _ Hchk) as (-> & -> & _).
  unfold par_of, nrows_of, prepared, with_default_outfl, prepared_src. fold d.
  cbn [rows shape lookup list_lookup default].
  destruct (datafl d) eqn:Esrc; destruct (outfl d) eqn:Eout; cbn; rewrite ?Esrc, ?Eout;
    cbn; by rewrite ?Eout.
Qed.

(** ** Rejected tables *)

Lemma gamv_check_fails os_name popen p gp silent c w e :
  holds w p c -> data_okb c = true ->
  check_arrays (effective_vars c) (c_dirs c) (c_pars c) = Raise e ->
  (gamv os_name popen p gp silent w).1 = Raise e /\
  trace (gamv os_name popen p gp silent w).2 = trace w ++ data_events c.
Proof.
  intros Hc Hok Hchk.
  destruct (gamv_refines os_name popen p gp silent c w Hc) as [-> ->].
  unfold gamv_model. by rewrite Hok, Hchk.
Qed.

Lemma np_array_uniform {A} (rs : list (list A)) (m : nat) :
  Forall (fun r => length r = m) rs ->
  np_array rs = Ok (MkArr (if rs is [] then [0%nat] else [length rs; m]) rs).
Proof.
  intros H. destruct rs as [|r rest] eqn:E; [done|]. rewrite <- E in *.
  apply np_array_run; [by subst|done].
Qed.

(** X3.  The shapes of the two tables are checked before anything else is
    looked at in them.  With a direction table whose rows have one length:
    an empty variogram table ends the call with [IndexError]; variogram rows
    of one length that is not 4 end it with [AssertionError]; with variogram
    rows of length 4, an empty direction table ends it with [IndexError] and
    direction rows of a length that is not 6 with [AssertionError].  In each
    case the call has written nothing but the in-memory data. *)
Theorem table_shapes_checked (os_name : string)
    (popen : list string -> list event -> option procres)
    (parameters : loc) (gslib_path : option string) (silent : flag)
    (c : config) (w : world) (m : nat) :
  holds w parameters c -> data_okb c = true ->
  Forall (fun r => length r = m) (c_dirs c) ->
  let out := gamv os_name popen parameters gslib_path silent w in
  let ends e := out.1 = Raise e /\ trace out.2 = trace w ++ data_events c in
  (c_pars c = [] -> ends IndexError) /\
  (forall n, c_pars c <> [] -> Forall (fun r => length r = n) (c_pars c) -> n <> 4%nat ->
             ends AssertionError) /\
  (c_pars c <> [] -> Forall (fun r => length r = 4%nat) (c_pars c) ->
   (c_dirs c = [] -> ends IndexError) /\
   (c_dirs c <> [] -> m <> 6%nat -> ends AssertionError)).
Proof.
  intros Hc Hok Hdirs out ends.
  pose proof (np_array_uniform _ _ Hdirs) as Ed.
  split; [|split].
  - intros E. apply gamv_check_fails; [done|done|].
    unfold check_arrays. rewrite E, Ed. done.
  - intros n Hne Hn Hn4. apply gamv_check_fails; [done|done|].
    unfold check_arrays. rewrite (np_array_run (c_pars c) n), Ed by done.
    cbn [mbind res_bind shape_at shape lookup list_lookup].
    by destruct (Nat.eqb_spec n 4).
  - intros Hne H4. split.
    + intros E. apply gamv_check_fails; [done|done|].
      unfold check_arrays. rewrite (np_array_run (c_pars c) 4), Ed, E by done. done.
    + intros Hd Hm. apply gamv_check_fails; [done|done|].
      unfold check_arrays. rewrite (np_array_run (c_pars c) 4), (np_array_run (c_dirs c) m) by done.
      cbn [mbind res_bind shape_at shape lookup list_lookup py_assert Nat.eqb].
      by destruct (Nat.eqb_spec m 6).
Qed.

Lemma column_of_rows {A} (j : nat) (rs : list (list A)) :
  Forall (fun r => (j < length r)%nat) rs ->
  exists col, column j rs = Ok col /\ Forall2 (fun r c => r !! j = Some c) rs col.
Proof.
  intros H. destruct (column_run j rs H) as [col Hcol].
  exists col. split; [done|]. by apply column_inv.
Qed.

Lemma assert_all_le_none (n : nat) (col : list cell) :
  CNone ∈ col -> assert_all_le n col = Raise TypeError.
Proof.
  intros H. unfold assert_all_le.
  assert (E : mapM (fun c => cell_le c (Z.of_nat n)) col = Raise TypeError).
  { induction col as [|c col IH]; [by apply elem_of_nil in H|].
    destruct c as [|z]; [done|].
    apply elem_of_cons in H as [H|H]; [done|]. cbn. by rewrite IH. }
  by rewrite E.
Qed.

Lemma assert_all_le_ints (n : nat) (col : list cell) :
  Forall (fun c => c <> CNone) col ->
  assert_all_le n col = py_assert (forallb (within n) col).
Proof.
  intros H. unfold assert_all_le.
  assert (E : mapM (fun c => cell_le c (Z.of_nat n)) col = Ok (map (within n) col)).
  { induction H as [|c col Hc _ IH]; [done|].
    destruct c as [|z]; [done|]. cbn. by rewrite IH. }
  rewrite E. cbn. f_equal. clear. induction col as [|c col IH]; [done|]. cbn. by rewrite IH.
Qed.

Lemma check_arrays_shaped (vars : list Z) (dirs : list (list float)) (pars : list (list cell)) :
  pars <> [] -> Forall (fun r => length r = 4%nat) pars ->
  dirs <> [] -> Forall (fun r => length r = 6%nat) dirs ->
  check_arrays vars dirs pars
  = (rs ← check_ivpar (length vars) (infer_dtype pars) (MkArr [length pars; 4%nat] pars);
     Ok (MkArr [length pars; 4%nat] rs, MkArr [length dirs; 6%nat] dirs)).
Proof.
  intros Hp Hp4 Hd Hd6. unfold check_arrays.
  rewrite (np_array_run pars 4), (np_array_run dirs 6) by done. done.
Qed.

(** X4.  Which exception a bad index or type code gives, for tables of
    the right shapes.  A [None] as a tail index ends the call with
    [TypeError]; when tail, head and type are integers in every row, a tail
    or head above the number of variables or a type outside 1..10 ends it
    with [AssertionError]; and so does a [None] as a type code next to
    indices that are in range.  Nothing but the in-memory data has been
    written by then. *)
Theorem index_check_exceptions (os_name : string)
    (popen : list string -> list event -> option procres)
    (parameters : loc) (gslib_path : option string) (silent : flag)
    (c : config) (w : world) :
  holds w parameters c -> data_okb c = true -> well_shaped c ->
  let out := gamv os_name popen parameters gslib_path silent w in
  let ends e := out.1 = Raise e /\ trace out.2 = trace w ++ data_events c in
  let n := length (effective_vars c) in
  ((exists r, r ∈ c_pars c /\ r !! 0%nat = Some CNone) -> ends TypeError) /\
  (Forall (fun r => exists t h ty, r !! 0%nat = Some (CInt t) /\ r !! 1%nat = Some (CInt h) /\
                                    r !! 2%nat = Some (CInt ty)) (c_pars c) ->
   (exists r, r ∈ c_pars c /\ bad_row n r) -> ends AssertionError) /\
  (Forall (fun r => exists t h, r !! 0%nat = Some (CInt t) /\ t <= Z.of_nat n /\
                                 r !! 1%nat = Some (CInt h) /\ h <= Z.of_nat n) (c_pars c) ->
   (exists r, r ∈ c_pars c /\ r !! 2%nat = Some CNone) -> ends AssertionError).
Proof.
  intros Hc Hok (Hp & Hp4 & Hd & Hd6) out ends n.
  pose proof (check_arrays_shaped (effective_vars c) _ _ Hp Hp4 Hd Hd6) as Hchk.
  fold n in Hchk.
  assert (Hcol : forall j, (j < 4)%nat ->
            exists col, column j (c_pars c) = Ok col /\
                        Forall2 (fun r x => r !! j = Some x) (c_pars c) col).
  { intros j Hj. apply column_of_rows. eapply Forall_impl; [exact Hp4|]. cbn. lia. }
  destruct (Hcol 0%nat) as (c0 & E0 & F0); [lia|].
  destruct (Hcol 1%nat) as (c1 & E1 & F1); [lia|].
  destruct (Hcol 2%nat) as (c2 & E2 & F2); [lia|].
  assert (Hfail : forall e,
            check_ivpar n (infer_dtype (c_pars c)) (MkArr [length (c_pars c); 4%nat] (c_pars c))
            = Raise e -> ends e).
  { intros e He. apply gamv_check_fails; [done|done|]. by rewrite Hchk, He. }
  unfold check_ivpar in Hfail. cbn [rows] in Hfail. rewrite E0, E1, E2 in Hfail.
  cbn [mbind res_bind] in Hfail.
  split; [|split].
  - intros (r & Hr & Hnone). apply Hfail.
    rewrite (assert_all_le_none n c0); [reflexivity|].
    apply list_elem_of_lookup in Hr as [i Hi].
    destruct (Forall2_lookup_l _ _ _ _ _ F0 Hi) as (x & Hx & Hrx).
    replace CNone with x by congruence. by eapply list_elem_of_lookup_2.
  - intros Hints (r & Hr & Hbad). apply Hfail.
    assert (I0 : Forall (fun x => x <> CNone) c0).
    { apply Forall_lookup_2. intros i x Hx.
      destruct (Forall2_lookup_r _ _ _ _ _ F0 Hx) as (r' & Hr' & Hrx).
      destruct (Forall_lookup_1 _ _ _ _ Hints Hr') as (t & h & ty & ? & ? & ?). congruence. }
    assert (I1 : Forall (fun x => x <> CNone) c1).
    { apply Forall_lookup_2. intros i x Hx.
      destruct (Forall2_lookup_r _ _ _ _ _ F1 Hx) as (r' & Hr' & Hrx).
      destruct (Forall_lookup_1 _ _ _ _ Hints Hr') as (t & h & ty & ? & ? & ?). congruence. }
    rewrite (assert_all_le_ints n c0 I0), (assert_all_le_ints n c1 I1).
    destruct (forallb (within n) c0) eqn:B0; [|reflexivity].
    destruct (forallb (within n) c1) eqn:B1; [|reflexivity].
    destruct (forallb type_allowed c2) eqn:B2; [|reflexivity].
    exfalso. apply list_elem_of_lookup in Hr as [i Hi].
    destruct (Forall_lookup_1 _ _ _ _ Hints Hi) as (t & h & ty & Ht & Hh & Hty).
    destruct (Forall2_lookup_l _ _ _ _ _ F0 Hi) as (x0 & Hx0 & Hrx0).
    destruct (Forall2_lookup_l _ _ _ _ _ F1 Hi) as (x1 & Hx1 & Hrx1).
    destruct (Forall2_lookup_l _ _ _ _ _ F2 Hi) as (x2 & Hx2 & Hrx2).
    rewrite forallb_forall in B0, B1, B2.
    pose proof (B0 x0 (proj1 (list_elem_of_In _ _) (list_elem_of_lookup_2 _ _ _ Hx0))) as W0.
    pose proof (B1 x1 (proj1 (list_elem_of_In _ _) (list_elem_of_lookup_2 _ _ _ Hx1))) as W1.
    pose proof (B2 x2 (proj1 (list_elem_of_In _ _) (list_elem_of_lookup_2 _ _ _ Hx2))) as W2.
    replace x0 with (CInt t) in W0 by congruence.
    replace x1 with (CInt h) in W1 by congruence.
    replace x2 with (CInt ty) in W2 by congruence.
    cbn in W0, W1. apply Z.leb_le in W0, W1. apply type_allowed_inv in W2 as (z & [= <-] & Hz).
    apply (bad_row_not_ok n r Hbad). exists t, h, ty. done.
  - intros Hidx (r & Hr & Hnone). apply Hfail.
    rewrite (assert_all_le_run n c0), (assert_all_le_run n c1).
    + cbn [mbind res_bind].
      replace (forallb type_allowed c2) with false; [reflexivity|].
      symmetry. apply not_true_is_false. intros B2. rewrite forallb_forall in B2.
      apply list_elem_of_lookup in Hr as [i Hi].
      destruct (Forall2_lookup_l _ _ _ _ _ F2 Hi) as (x2 & Hx2 & Hrx2).
      pose proof (B2 x2 (proj1 (list_elem_of_In _ _) (list_elem_of_lookup_2 _ _ _ Hx2))) as W2.
      replace x2 with CNone in W2 by congruence. done.
    + apply Forall_lookup_2. intros i x Hx.
      destruct (Forall2_lookup_r _ _ _ _ _ F1 Hx) as (r' & Hr' & Hrx).
      destruct (Forall_lookup_1 _ _ _ _ Hidx Hr') as (t & h & ? & ? & ? & ?).
      exists h. split; [congruence|done].
    + apply Forall_lookup_2. intros i x Hx.
      destruct (Forall2_lookup_r _ _ _ _ _ F0 Hx) as (r' & Hr' & Hrx).
      destruct (Forall_lookup_1 _ _ _ _ Hidx Hr') as (t & h & ? & ? & ? & ?).
      exists t. split; [congruence|done].
Qed.

(** ** The engine *)

(** X7.  Once everything before the engine has succeeded: when the program
    cannot be started the call ends with [OSError]; when it ends with a
    non-zero status and its standard error is not valid UTF-8 the call ends
    with [UnicodeDecodeError], not with the [NameError] of line 173; and in
    both cases, as for every non-zero status, nothing is printed, the output
    file is not read and the working copy stays as it was when the engine
    was started. *)
Theorem engine_failure_effects (os_name : string)
    (popen : list string -> list event -> option procres)
    (parameters : loc) (gslib_path : option string) (silent : flag)
    (w w1 : world) (mypar : loc) (apar : nparray cell) (fpar : string) :
  before_engine parameters w = (Ok (mypar, apar, fpar), w1) ->
  let argv := [default_path os_name gslib_path; fpar] in
  let out := gamv os_name popen parameters gslib_path silent w in
  let stopped := MkWorld (heap w1) (trace w1 ++ [EvSpawn argv]) in
  (popen argv (trace w1 ++ [EvSpawn argv]) = None -> out = (Raise OSError, stopped)) /\
  (forall p, popen argv (trace w1 ++ [EvSpawn argv]) = Some p -> returncode p <> 0 ->
     is_raise out.1 = true /\ out.2 = stopped /\
     (utf8_valid (stderr p) = false -> out.1 = Raise UnicodeDecodeError)).
Proof.
  intros Hb argv out stopped. subst out.
  rewrite (gamv_after_before os_name popen _ _ _ _ _ _ _ _ Hb).
  unfold invoke, mbind, M_bind, emit, get_trace. cbn [heap trace]. fold argv.
  split.
  - by intros ->.
  - intros p -> Hrc. apply Z.eqb_neq in Hrc. rewrite Hrc. cbn [negb].
    unfold lift, raise, decode_utf8.
    destruct (utf8_valid (stderr p)); cbn; done.
Qed.

Lemma model_result_silent os_name popen c gp (s1 s2 : flag) t :
  (gamv_model os_name popen c gp s1 t).1 = (gamv_model os_name popen c gp s2 t).1.
Proof.
  unfold gamv_model. destruct (data_okb c); [|done].
  destruct (check_arrays _ _ _) as [[apar adir]|e]; [|done]. cbn zeta.
  destruct (popen _ _) as [p|]; [|done]. by destruct (returncode p =? 0).
Qed.

Lemma model_trace_silent os_name popen c gp (s : flag) t :
  exists rest,
    (gamv_model os_name popen c gp s t).2
    = (gamv_model os_name popen c gp (FInt (-1)) t).2 ++ rest /\
    (rest = [] \/ exists x, rest = [EvPrint x]).
Proof.
  unfold gamv_model. destruct (data_okb c); [|by exists []; split; [|left]].
  destruct (check_arrays _ _ _) as [[apar adir]|e];
    [|by exists []; split; [rewrite app_nil_r|left]]. cbn zeta.
  destruct (popen _ _) as [p|]; [|by exists []; split; [rewrite app_nil_r|left]].
  destruct (returncode p =? 0); [|by exists []; split; [rewrite app_nil_r|left]].
  cbn [snd]. exists (echo s p). split.
  - unfold echo at 2. cbn. by rewrite app_nil_r.
  - unfold echo. destruct (truthy _); eauto.
Qed.

(** X8.  The flag [silent] has no part in what a call returns or raises:
    two calls that differ in it end the same way, and what a call does to
    the outside is what the call with [silent = -1] does, followed by at
    most one thing printed. *)
Theorem silent_only_prints (os_name : string)
    (popen : list string -> list event -> option procres)
    (parameters : loc) (gslib_path : option string) (s1 s2 : flag)
    (c : config) (w : world) :
  holds w parameters c ->
  (gamv os_name popen parameters gslib_path s1 w).1
  = (gamv os_name popen parameters gslib_path s2 w).1 /\
  exists rest,
    trace (gamv os_name popen parameters gslib_path s1 w).2
    = trace (gamv os_name popen parameters gslib_path (FInt (-1)) w).2 ++ rest /\
    (rest = [] \/ exists x, rest = [EvPrint x]).
Proof.
  intros Hc.
  destruct (gamv_refines os_name popen parameters gslib_path s1 c w Hc) as [R1 T1].
  destruct (gamv_refines os_name popen parameters gslib_path s2 c w Hc) as [R2 _].
  destruct (gamv_refines os_name popen parameters gslib_path (FInt (-1)) c w Hc) as [_ T0].
  split.
  - rewrite R1, R2. apply model_result_silent.
  - destruct (model_trace_silent os_name popen c gslib_path s1 (trace w)) as (rest & E & Hrest).
    exists rest. split; [|done]. by rewrite T1, T0, E, app_assoc.
Qed.

(** X9.  After a run with exit status zero, and for a flag [silent] that
    is a Python [bool], a NumPy boolean or an integer: the output of the
    engine is left unprinted exactly when [silent] is the integer -1 or
    NumPy's [True], the two values whose inversion is false; for every
    other such value, Python's [True] and [False] included, it is printed. *)
Theorem echo_suppressed_by_minus_one (popen : list string -> list event -> option procres)
    (gslib_path fpar : string) (silent : flag) (w : world) (p : procres) :
  popen [gslib_path; fpar] (trace w ++ [EvSpawn [gslib_path; fpar]]) = Some p ->
  returncode p = 0 ->
  trace (invoke popen gslib_path fpar silent w).2 = trace w ++ [EvSpawn [gslib_path; fpar]]
  <-> silent = FInt (-1) \/ silent = FNpBool true.
Proof.
  intros Hp Hrc. unfold invoke, mbind, M_bind, emit, get_trace. cbn [heap trace].
  rewrite Hp, Hrc. cbn [Z.eqb negb].
  assert (Ht : truthy (py_invert silent) = false
               <-> silent = FInt (-1) \/ silent = FNpBool true).
  { unfold truthy, py_invert. rewrite negb_false_iff, Z.eqb_eq.
    destruct silent as [[]|[]|z]; cbn; split; intros H; try done; auto.
    - by destruct H.
    - by destruct H.
    - by destruct H.
    - left. f_equal. lia.
    - destruct H as [H|H]; [|done]. injection H as ->. done. }
  destruct (truthy (py_invert silent)) eqn:E.
  - split; [|by intros H; apply Ht in H].
    intros H. exfalso.
    destruct (decode_utf8 (stdout p)); cbn in H; rewrite <- app_assoc in H;
      apply app_inv_head in H; discriminate.
  - split; [by intros _; apply Ht|]. done.
Qed.

(** ** The output file *)

Lemma arange_runs (stop step : Z) : step <> 0 -> exists l, np_arange 0 stop step = Ok l.
Proof. intros H. unfold np_arange. destruct (Z.eqb_spec step 0); [done|]. eauto. Qed.

Lemma model_after_success os_name popen c gp silent t apar adir p :
  data_okb c = true ->
  check_arrays (effective_vars c) (c_dirs c) (c_pars c) = Ok (apar, adir) ->
  popen [default_path os_name gp; "_xxx_.par"]
        (t ++ data_events c
           ++ [EvPrint (PPar (par_of c apar adir));
               EvWrite "_xxx_.par" (FPar (par_of c apar adir));
               EvSpawn [default_path os_name gp; "_xxx_.par"]]) = Some p ->
  returncode p = 0 ->
  exists types,
    column 2 (map forced (c_pars c)) = Ok types /\
    (gamv_model os_name popen c gp silent t).1
    = (vg ← read_results (length (c_pars c)) (length (c_dirs c)) (nlag (c_dict c)) types
                         (c_pars c) (files p (out_path c));
       vg ← cleanup vg;
       df_set_index ["Variogram"; "Direction"; "Lag"] vg).
Proof.
  intros Hok Hchk Hp Hrc. unfold gamv_model. rewrite Hok, Hchk. cbn zeta.
  rewrite Hp, Hrc. cbn [Z.eqb fst].
  pose proof (check_arrays_ok_inv _ _ _ _ _ Hchk) as (-> & -> & _ & Hp4 & _).
  unfold result_table, nrows_of. cbn [rows shape lookup list_lookup default].
  destruct (column_run 2 (map forced (c_pars c))) as [types Hty].
  { apply Forall_fmap. eapply Forall_impl; [exact Hp4|]. cbn. intros r Hr.
    rewrite forced_length. lia. }
  exists types. split; [done|]. by rewrite Hty.
Qed.

(** X10.  What a call makes of an output file that is not what it expects,
    after a run with exit status zero.  The lag count -3 makes the step
    between header rows zero and ends the call with [ZeroDivisionError];
    for any other lag count a file that is not there ends the call with
    [FileNotFoundError]; and with a positive number [nlag + 2] of lines per
    block, a file of lines of at most six fields that, once the header rows
    are skipped and the blank lines dropped, leaves some lines but not
    [nvarg * ndir * (nlag + 2)] of them ends it with [ValueError], so that
    no table with misplaced labels is returned. *)
Theorem output_file_problems (os_name : string)
    (popen : list string -> list event -> option procres)
    (parameters : loc) (gslib_path : option string) (silent : flag)
    (c : config) (w : world) (apar : nparray cell) (adir : nparray float) (p : procres) :
  holds w parameters c -> data_okb c = true ->
  check_arrays (effective_vars c) (c_dirs c) (c_pars c) = Ok (apar, adir) ->
  let argv := [default_path os_name gslib_path; "_xxx_.par"] in
  let par := par_of c apar adir in
  popen argv (trace w ++ data_events c
                ++ [EvPrint (PPar par); EvWrite "_xxx_.par" (FPar par); EvSpawn argv])
  = Some p ->
  returncode p = 0 ->
  let out := gamv os_name popen parameters gslib_path silent w in
  let file := files p (default "_xxx_.out" (outfl (c_dict c))) in
  let blocks := (length (c_pars c) * length (c_dirs c))%nat in
  let nlag0 := nlag (c_dict c) in
  (nlag0 = -3 -> out.1 = Raise ZeroDivisionError) /\
  (file = None -> nlag0 <> -3 -> out.1 = Raise FileNotFoundError) /\
  (forall lines, file = Some lines -> 0 < nlag0 + 2 ->
     Forall (fun ln => (length ln <= 6)%nat) lines ->
     let kept := kept_lines (map (fun b => Z.of_nat b * (nlag0 + 3)) (seq 0 blocks)) lines in
     kept <> [] -> length kept <> (blocks * Z.to_nat (nlag0 + 2))%nat ->
     out.1 = Raise ValueError).
Proof.
  intros Hc Hok Hchk argv par Hp Hrc out file blocks nlag0.
  destruct (gamv_refines os_name popen parameters gslib_path silent c w Hc) as [Hr _].
  fold out in Hr.
  destruct (model_after_success os_name popen c gslib_path silent (trace w) apar adir p
              Hok Hchk Hp Hrc) as (types & Hty & Hm).
  rewrite Hm in Hr. clear Hm. unfold out_path in Hr. fold file nlag0 in Hr.
  unfold read_results in Hr. cbv zeta in Hr.
  split; [|split].
  - intros Hn. rewrite Hr, Hn. reflexivity.
  - intros Hfile Hn. rewrite Hr, Hfile. unfold ignore_rows.
    destruct (arange_runs
                (Z.of_nat (length (c_pars c)) * Z.of_nat (length (c_dirs c)) * (nlag0 + 2)
                 + Z.of_nat (length (c_dirs c)) * Z.of_nat (length (c_pars c)))
                (nlag0 + 2 + 1)) as [l ->]; [lia|]. done.
  - intros lines Hfile Hs _ kept Hne Hlen.
    rewrite ignore_rows_spec in Hr by lia. fold blocks in Hr.
    rewrite Hfile in Hr. cbn [mbind res_bind] in Hr. unfold read_csv in Hr.
    cbv zeta in Hr. fold kept in Hr. rewrite Hr. cbn [mbind res_bind].
    assert (E1 : np_repeat (py_range (length (c_pars c)))
                           (Z.of_nat (length (c_dirs c)) * (nlag0 + 2))
                 = Ok (concat (map (replicate (Z.to_nat (Z.of_nat (length (c_dirs c))
                                                          * (nlag0 + 2))))
                                   (py_range (length (c_pars c)))))).
    { unfold np_repeat.
      by destruct (Z.ltb_spec (Z.of_nat (length (c_dirs c)) * (nlag0 + 2)) 0); [lia|]. }
    rewrite E1. cbn [mbind res_bind].
    assert (E2 : forall vs df, nrows df <> 0%nat -> length vs <> nrows df ->
                   df_set_col "Variogram" vs df = Raise ValueError).
    { intros vs df Hdf Hvs. unfold df_set_col.
      destruct (Nat.eqb_spec (nrows df) 0); [done|].
      by destruct (Nat.eqb_spec (length vs) (nrows df)). }
    rewrite E2; [done| |]; cbn [nrows].
    + by destruct kept.
    + rewrite length_map, repeat_each_length, py_range_length.
      intros E. apply Hlen. rewrite <- E. unfold blocks.
      rewrite Z2Nat.inj_mul, Nat2Z.id by lia. lia.
Qed.

(** ** The in-memory array *)

(** X6.  An in-memory data array that is not two-dimensional ends the
    call with [AssertionError] before anything is written or printed. *)
Theorem array_dimension_checked (os_name : string)
    (popen : list string -> list event -> option procres)
    (parameters : loc) (gslib_path : option string) (silent : flag)
    (c : config) (w : world) (arr : ndarray) :
  holds w parameters c -> c_data c = Some arr -> length (nd_shape arr) <> 2%nat ->
  (gamv os_name popen parameters gslib_path silent w).1 = Raise AssertionError /\
  trace (gamv os_name popen parameters gslib_path silent w).2 = trace w.
Proof.
  intros Hc Harr Hdim.
  destruct (gamv_refines os_name popen parameters gslib_path silent c w Hc) as [-> ->].
  unfold gamv_model, data_okb. rewrite Harr.
  destruct (Nat.eqb_spec (length (nd_shape arr)) 2); [done|].
  cbn. by rewrite app_nil_r.
Qed.

(** ** The table that is returned *)

Lemma table_ok_put c vs df :
  table_ok df -> length vs = nrows df ->
  table_ok (MkDf (nrows df) (put_col c vs (columns df)) (index df)).
Proof.
  unfold table_ok. cbn [nrows columns]. intros H Hvs.
  induction H as [|[c' vs'] cols Hc Hrest IH]; cbn [put_col].
  - by apply Forall_cons.
  - destruct (String.eqb c c'); by apply Forall_cons.
Qed.

Lemma table_ok_scalar c v df : table_ok df -> table_ok (df_set_scalar c v df).
Proof. intros H. apply table_ok_put; [done|]. by rewrite length_replicate. Qed.

Lemma table_ok_loc_set mask cs v df : table_ok df -> table_ok (df_loc_set mask cs v df).
Proof.
  unfold table_ok, df_loc_set. cbn [nrows columns]. intros H.
  apply Forall_fmap. eapply Forall_impl; [exact H|].
  intros [c vs] Hc. cbn in *. destruct (existsb (String.eqb c) cs); cbn; [|done].
  by rewrite mask_set_length.
Qed.

Lemma table_ok_read_csv file skip names vg : read_csv file skip names = Ok vg -> table_ok vg.
Proof.
  intros H. apply read_csv_inv in H as (lines & _ & Hn & _ & Hcols).
  unfold table_ok. rewrite Hcols, Hn. apply Forall_lookup_2. intros j [c vs] Hj.
  rewrite list_lookup_imap in Hj. destruct (names !! j); [|done].
  injection Hj as <- <-. cbn. by rewrite length_map.
Qed.

Lemma table_ok_set_col c vs df df' :
  df_set_col c vs df = Ok df' -> table_ok df -> table_ok df'.
Proof.
  intros H Hok. apply df_set_col_inv in H as (df0 & -> & Hlen & _ & _ & Hcase).
  apply table_ok_put; [|done].
  destruct Hcase as [[_ ->]|(_ & _ & Hcols)]; [done|].
  unfold table_ok. rewrite Hcols, Hlen. apply Forall_fmap, Forall_true.
  intros [c' vs']. cbn. apply length_replicate.
Qed.

Lemma table_ok_set_index keys df df' :
  df_set_index keys df = Ok df' -> table_ok df -> table_ok df'.
Proof.
  unfold df_set_index. destruct (find _ keys); [done|]. intros [= <-] Hok.
  unfold table_ok in *. cbn [nrows columns]. rewrite Forall_forall in *.
  intros cv Hin. apply Hok. apply list_elem_of_In in Hin.
  apply filter_In in Hin as [Hin _]. by apply list_elem_of_In.
Qed.

Lemma table_ok_meta_loop orig idx vg vg' :
  for_each (meta_step orig) vg idx = Ok vg' -> table_ok vg -> table_ok vg'.
Proof.
  revert vg. induction idx as [|i idx IH]; intros vg; cbn.
  - by intros [= <-].
  - intros H Hok. apply res_bind_ok_inv in H as (vg1 & H1 & H).
    apply (IH vg1 H). apply meta_step_inv in H1
      as (row & c0 & c1 & c2 & c3 & sel & _ & _ & _ & _ & _ & _ & ->).
    cbv zeta. by repeat apply table_ok_loc_set.
Qed.

Lemma table_ok_read_results nvarg ndir nlag0 types orig file vg :
  read_results nvarg ndir nlag0 types orig file = Ok vg -> table_ok vg.
Proof.
  unfold read_results. cbv zeta. intros H.
  apply res_bind_ok_inv in H as (ignore & Hig & H).
  apply res_bind_ok_inv in H as (vg0 & Hcsv & H).
  apply res_bind_ok_inv in H as (vario & Hvario & H).
  apply res_bind_ok_inv in H as (vg1 & H1 & H).
  apply res_bind_ok_inv in H as (dirs & Hdirs & H).
  apply res_bind_ok_inv in H as (vg2 & H2 & H).
  apply table_ok_read_csv in Hcsv.
  pose proof (table_ok_set_col _ _ _ _ H1 Hcsv) as Hok1.
  pose proof (table_ok_set_col _ _ _ _ H2 Hok1) as Hok2.
  apply (table_ok_meta_loop _ _ _ _ H). by repeat apply table_ok_scalar.
Qed.

Lemma table_ok_cleanup vg vg' : cleanup vg = Ok vg' -> table_ok vg -> table_ok vg'.
Proof.
  intros H Hok. apply cleanup_ok_inv in H as (pairs & sep & _ & _ & ->).
  by repeat apply table_ok_loc_set.
Qed.

Lemma assoc_col_elem c (cols : list (string * list value)) :
  c ∈ map fst cols -> exists vs, assoc_col c cols = Some vs /\ (c, vs) ∈ cols.
Proof.
  induction cols as [|[c' vs'] cols IH]; cbn; intros H; [by apply elem_of_nil in H|].
  destruct (String.eqb_spec c c') as [->|Hne].
  - exists vs'. split; [done|]. apply list_elem_of_here.
  - apply elem_of_cons in H as [H|H]; [done|].
    destruct (IH H) as (vs & Hvs & Hin). exists vs. split; [done|].
    by apply list_elem_of_further.
Qed.

Lemma cell_at_defined df c k :
  table_ok df -> c ∈ col_names df -> (k < nrows df)%nat -> is_Some (cell_at df c k).
Proof.
  intros Hok Hc Hk. destruct (assoc_col_elem c (columns df) Hc) as (vs & Hvs & Hin).
  unfold cell_at. rewrite Hvs. cbn. apply lookup_lt_is_Some_2.
  unfold table_ok in Hok. rewrite Forall_forall in Hok.
  pose proof (Hok _ Hin) as Hlen. cbn in Hlen. by rewrite Hlen.
Qed.

Lemma cell_at_in_range df c k v :
  table_ok df -> cell_at df c k = Some v -> (k < nrows df)%nat.
Proof.
  intros Hok H. unfold cell_at in H.
  destruct (assoc_col c (columns df)) as [vs|] eqn:Hvs; [|done]. cbn in H.
  assert (Hin : (c, vs) ∈ columns df).
  { clear -Hvs. induction (columns df) as [|[c' vs'] cols IH]; [done|]. cbn in Hvs.
    destruct (String.eqb_spec c c') as [->|Hne].
    - injection Hvs as ->. apply list_elem_of_here.
    - apply list_elem_of_further. by apply IH. }
  unfold table_ok in Hok. rewrite Forall_forall in Hok.
  pose proof (Hok _ Hin) as Hlen. cbn in Hlen. rewrite <- Hlen. by eapply lookup_lt_Some.
Qed.

Lemma types_column (pars : list (list cell)) (types : list cell) :
  Forall2 (fun r c => r !! 2%nat = Some c) pars types ->
  types = map (fun r => default CNone (r !! 2%nat)) pars.
Proof. induction 1 as [|r c pars types Hr _ IH]; [done|]. cbn. by rewrite Hr, IH. Qed.

Lemma all_names_nodup types : NoDup (result_names types ++ label_names).
Proof.
  unfold result_names. destruct (existsb (cell_eq_int 4) types);
    apply (bool_decide_unpack _); vm_compute; exact I.
Qed.

Section Shape.

Variable os_name : string.
Variable popen : list string -> list event -> option procres.

Lemma gamv_ok_table p gp silent c w vg :
  holds w p c ->
  (gamv os_name popen p gp silent w).1 = Ok vg ->
  exists vg1 vg2,
    table_ok vg1 /\ cleanup vg1 = Ok vg2 /\
    df_set_index ["Variogram"; "Direction"; "Lag"] vg2 = Ok vg /\
    nrows vg1 = (length (c_pars c) * length (c_dirs c) * Z.to_nat (nlag (c_dict c) + 2))%nat /\
    col_names vg1
    = result_names (map (fun r => default CNone (r !! 2%nat)) (c_pars c)) ++ label_names.
Proof.
  intros Hc Hvg.
  destruct (gamv_ok_inv os_name popen _ _ _ _ _ _ Hc Hvg)
    as (adir & pr & types & vg1 & vg2 & _ & _ & Hty & H1 & H2 & H3).
  pose proof (read_results_inv _ _ _ _ _ _ _ H1) as (Hs & Hrows & Hnames & _).
  exists vg1, vg2. split; [by eapply table_ok_read_results|]. split; [done|].
  split; [done|]. split; [done|].
  by rewrite Hnames, (types_column _ _ (types_of_forced _ _ Hty)).
Qed.

(** X11.  The shape of every table a call returns: it is indexed by
    variogram, direction and lag, and these three are no longer among its
    columns; its columns are, in this order, the five remaining columns of
    the output file, the two variance columns when some variogram has type
    4, and the four label columns tail, head, type and cut, no name twice;
    it has [nvarg * ndir * (nlag + 2)] rows; and every column and every
    level of the index has a cell in every row. *)
Theorem returned_table_shape (parameters : loc) (gslib_path : option string) (silent : flag)
    (c : config) (w : world) (vg : DataFrame) :
  holds w parameters c ->
  (gamv os_name popen parameters gslib_path silent w).1 = Ok vg ->
  map fst (index vg) = ["Variogram"; "Direction"; "Lag"] /\
  col_names vg
  = ["average separation"; "var funct"; "number of pairs"; "mean on tail"; "mean on head"]
    ++ (if existsb (cell_eq_int 4) (map (fun r => default CNone (r !! 2%nat)) (c_pars c))
        then ["variance tail"; "variance head"] else [])
    ++ ["tail"; "head"; "type"; "cut"] /\
  NoDup (col_names vg) /\
  nrows vg = (length (c_pars c) * length (c_dirs c) * Z.to_nat (nlag (c_dict c) + 2))%nat /\
  table_ok vg /\
  (forall name k, name ∈ col_names vg -> (k < nrows vg)%nat -> is_Some (cell_at vg name k)) /\
  (forall name k, name ∈ ["Variogram"; "Direction"; "Lag"] -> (k < nrows vg)%nat ->
     is_Some (level_at vg name k)).
Proof.
  intros Hc Hvg.
  destruct (gamv_ok_table _ _ _ _ _ _ Hc Hvg)
    as (vg1 & vg2 & Hok1 & Hclean & Hset & Hrows & Hnames).
  pose proof (table_ok_cleanup _ _ Hclean Hok1) as Hok2.
  pose proof (table_ok_set_index _ _ _ Hset Hok2) as Hok.
  pose proof (set_index_inv _ _ _ Hset) as (Hn & Hcols & Hidx & _ & Hlevel).
  assert (Hn2 : nrows vg2 = nrows vg1).
  { by apply cleanup_ok_inv in Hclean as (pairs & sep & _ & _ & ->). }
  assert (Hcn2 : col_names vg2 = col_names vg1).
  { apply cleanup_ok_inv in Hclean as (pairs & sep & _ & _ & ->).
    by rewrite !col_names_loc_set. }
  assert (Hcn : col_names vg
                = ["average separation"; "var funct"; "number of pairs"; "mean on tail";
                   "mean on head"]
                  ++ (if existsb (cell_eq_int 4)
                                 (map (fun r => default CNone (r !! 2%nat)) (c_pars c))
                      then ["variance tail"; "variance head"] else [])
                  ++ ["tail"; "head"; "type"; "cut"]).
  { rewrite Hcols, Hcn2, Hnames. unfold result_names.
    by destruct (existsb (cell_eq_int 4) _). }
  split; [done|]. split; [done|].
  split.
  { rewrite Hcn. destruct (existsb (cell_eq_int 4) _);
      apply (bool_decide_unpack _); vm_compute; exact I. }
  split; [congruence|]. split; [done|]. split.
  - intros name k. by apply cell_at_defined.
  - intros name k Hname Hk. rewrite (Hlevel name k Hname).
    apply cell_at_defined; [done| |congruence].
    rewrite Hcn2, Hnames.
    repeat (apply elem_of_cons in Hname as [->|Hname]);
      [| | |by apply elem_of_nil in Hname].
    + apply elem_of_app. right. repeat constructor.
    + apply elem_of_app. right. repeat constructor.
    + apply elem_of_app. left. unfold result_names.
      destruct (existsb _ _); [apply elem_of_app; left|]; repeat constructor.
Qed.

(** X12.  In every table a call returns: a row whose pair count is zero
    has a missing variogram value and missing means, and a row whose average
    separation is zero has a missing variogram value. *)
Theorem returned_table_clean (parameters : loc) (gslib_path : option string) (silent : flag)
    (c : config) (w : world) (vg : DataFrame) (k : nat) :
  holds w parameters c ->
  (gamv os_name popen parameters gslib_path silent w).1 = Ok vg ->
  (zero_at vg "number of pairs" k = true ->
   cell_at vg "var funct" k = Some VNone /\
   cell_at vg "mean on tail" k = Some VNone /\
   cell_at vg "mean on head" k = Some VNone) /\
  (zero_at vg "average separation" k = true -> cell_at vg "var funct" k = Some VNone).
Proof.
  intros Hc Hvg.
  destruct (gamv_ok_table _ _ _ _ _ _ Hc Hvg)
    as (vg1 & vg2 & Hok1 & Hclean & Hset & Hrows & Hnames).
  pose proof (set_index_inv _ _ _ Hset) as (_ & _ & _ & Hcol & _).
  assert (Hzero : forall name,
            existsb (String.eqb name) ["Variogram"; "Direction"; "Lag"] = false ->
            existsb (String.eqb name) stat_columns = false ->
            zero_at vg name k = zero_at vg1 name k).
  { intros name Hkey Hname. unfold zero_at.
    by rewrite (Hcol _ _ Hkey), (cleanup_keeps _ _ _ _ Hclean Hname). }
  assert (Hin : forall name, name ∈ base_names -> name ∈ col_names vg1).
  { intros name H. rewrite Hnames. apply elem_of_app. left. unfold result_names.
    destruct (existsb _ _); [apply elem_of_app; by left|done]. }
  assert (Hdef : forall name, name ∈ base_names -> (k < nrows vg1)%nat ->
                   is_Some (cell_at vg1 name k)).
  { intros name H Hk. apply cell_at_defined; auto. }
  assert (Hrange : forall name, zero_at vg1 name k = true -> (k < nrows vg1)%nat).
  { intros name H. unfold zero_at in H. destruct (cell_at vg1 name k) eqn:E; [|done].
    by eapply cell_at_in_range. }
  assert (Hbase : forall name, existsb (String.eqb name) base_names = true -> name ∈ base_names).
  { intros name H. apply existsb_exists in H as (x & Hx & Heq).
    apply String.eqb_eq in Heq as ->. by apply list_elem_of_In. }
  rewrite !Hzero by reflexivity. rewrite !Hcol by reflexivity.
  rewrite !(cleanup_cell _ _ _ k Hclean).
  split.
  - intros Hz. rewrite Hz. pose proof (Hrange _ Hz) as Hk.
    destruct (Hdef "var funct" (Hbase "var funct" eq_refl) Hk) as [v1 ->].
    destruct (Hdef "mean on tail" (Hbase "mean on tail" eq_refl) Hk) as [v2 ->].
    destruct (Hdef "mean on head" (Hbase "mean on head" eq_refl) Hk) as [v3 ->].
    done.
  - intros Hz. rewrite Hz. pose proof (Hrange _ Hz) as Hk.
    destruct (Hdef "var funct" (Hbase "var funct" eq_refl) Hk) as [v1 ->].
    cbn. by rewrite orb_true_r.
Qed.

End Shape.

(** ** A call that goes through *)

Lemma df_col_present df c : c ∈ col_names df -> exists vs, df_col c df = Ok vs.
Proof.
  intros H. destruct (assoc_col_elem c (columns df) H) as (vs & Hvs & _).
  exists vs. unfold df_col. by rewrite Hvs.
Qed.

Lemma set_index_run keys df :
  Forall (fun k => k ∈ col_names df) keys ->
  exists df', df_set_index keys df = Ok df'.
Proof.
  intros H. unfold df_set_index.
  replace (find (fun k => negb (existsb (String.eqb k) (col_names df))) keys) with (@None string);
    [by eexists|].
  symmetry. induction H as [|k keys Hk _ IH]; [done|]. cbn.
  replace (existsb (String.eqb k) (col_names df)) with true; [done|].
  symmetry. apply existsb_exists. exists k. split; [by apply list_elem_of_In|].
  apply String.eqb_refl.
Qed.

(** X13.  A call on a valid configuration, with an engine that ends with
    status zero and leaves an output file of [nvarg * ndir] blocks, each a
    header line and [nlag + 2] data lines that are not blank and not longer
    than the list of column names, returns a table; and entry [k] of a
    column that comes from the file is field [j] of data line [k], where
    [j] is the position of the column, except where the cleaning pass made
    it missing: in the variogram value and the two means when field 3 (the
    pair count) is zero, and in the variogram value when field 1 (the
    average separation) is zero.  The first of these columns, [Lag], is
    found in the index of the table, the others among its columns. *)
Theorem successful_call (os_name : string)
    (popen : list string -> list event -> option procres)
    (parameters : loc) (gslib_path : option string) (silent : flag)
    (c : config) (w : world) (apar : nparray cell) (adir : nparray float) (p : procres)
    (blocks : list (list value * list (list value))) :
  holds w parameters c -> data_okb c = true ->
  check_arrays (effective_vars c) (c_dirs c) (c_pars c) = Ok (apar, adir) ->
  let argv := [default_path os_name gslib_path; "_xxx_.par"] in
  let par := par_of c apar adir in
  popen argv (trace w ++ data_events c
                ++ [EvPrint (PPar par); EvWrite "_xxx_.par" (FPar par); EvSpawn argv])
  = Some p ->
  returncode p = 0 ->
  let names := result_names (map (fun r => default CNone (r !! 2%nat)) (c_pars c)) in
  files p (default "_xxx_.out" (outfl (c_dict c))) = Some (layout blocks) ->
  0 < nlag (c_dict c) + 2 ->
  length blocks = (length (c_pars c) * length (c_dirs c))%nat ->
  Forall (fun b => length b.2 = Z.to_nat (nlag (c_dict c) + 2)) blocks ->
  Forall (fun ln => ln <> [] /\ (length ln <= length names)%nat) (data_lines blocks) ->
  exists vg,
    (gamv os_name popen parameters gslib_path silent w).1 = Ok vg /\
    forall j name, names !! j = Some name ->
      forall k, (if String.eqb name "Lag" then level_at vg name k else cell_at vg name k)
                = (fun ln =>
                     let field i := default VNone (ln !! i) in
                     if (existsb (String.eqb name) ["var funct"; "mean on tail"; "mean on head"]
                         && value_is_zero (field 3%nat))
                        || (String.eqb name "var funct" && value_is_zero (field 1%nat))
                     then VNone else field j) <$> data_lines blocks !! k.
Proof.
  intros Hc Hok Hchk argv par Hp Hrc names Hfile Hs Hlen Hblocks Hlines.
  destruct (gamv_refines os_name popen parameters gslib_path silent c w Hc) as [Hr _].
  destruct (model_after_success os_name popen c gslib_path silent (trace w) apar adir p
              Hok Hchk Hp Hrc) as (types & Hty & Hm).
  rewrite Hm in Hr. clear Hm. unfold out_path in Hr. rewrite Hfile in Hr.
  pose proof (check_arrays_ok_inv _ _ _ _ _ Hchk) as (_ & _ & Hp0 & Hp4 & Hd0 & _).
  pose proof (types_column _ _ (types_of_forced _ _ Hty)) as Etypes.
  fold names in Etypes. rewrite Etypes in Hr.
  destruct (read_results_total (length (c_pars c)) (length (c_dirs c)) (nlag (c_dict c))
              (map (fun r => default CNone (r !! 2%nat)) (c_pars c)) (c_pars c) blocks)
    as (vg1 & H1 & Hcells); try done.
  { destruct (c_pars c); [done|]. cbn. lia. }
  { destruct (c_dirs c); [done|]. cbn. lia. }
  { eapply Forall_impl; [exact Hlines|]. by intros ln [Hne _]. }
  { eapply Forall_impl; [exact Hp4|]. cbn. lia. }
  rewrite H1 in Hr. cbn [mbind res_bind] in Hr.
  pose proof (read_results_inv _ _ _ _ _ _ _ H1) as (_ & _ & Hnames & _).
  fold names in Hnames, Hcells.
  assert (Hbase : forall name, name ∈ base_names -> name ∈ col_names vg1).
  { intros name H. rewrite Hnames. apply elem_of_app. left. unfold names, result_names.
    destruct (existsb _ _); [apply elem_of_app; by left|done]. }
  assert (Hlabel : forall name, name ∈ label_names -> name ∈ col_names vg1).
  { intros name H. rewrite Hnames. apply elem_of_app. by right. }
  destruct (df_col_present vg1 "number of pairs") as [pairs Hpairs].
  { apply Hbase. unfold base_names. repeat constructor. }
  destruct (df_col_present vg1 "average separation") as [sep Hsep].
  { apply Hbase. unfold base_names. repeat constructor. }
  pose proof (cleanup_run _ _ _ Hpairs Hsep) as Hclean. rewrite Hclean in Hr.
  cbn [mbind res_bind] in Hr.
  destruct (set_index_run ["Variogram"; "Direction"; "Lag"]
              (df_loc_set (map value_is_zero sep) ["var funct"] VNone
                 (df_loc_set (map value_is_zero pairs) stat_columns VNone vg1)))
    as [vg Hset].
  { rewrite !col_names_loc_set.
    repeat (apply Forall_cons; split; [|]); [..|apply Forall_nil_2].
    - apply Hlabel. unfold label_names. repeat constructor.
    - apply Hlabel. unfold label_names. repeat constructor.
    - apply Hbase. unfold base_names. repeat constructor. }
  rewrite Hset in Hr. exists vg. split; [exact Hr|].
  pose proof (set_index_inv _ _ _ Hset) as (_ & _ & _ & Hcol & Hlevel).
  intros j name Hname k.
  assert (Hcell : (if String.eqb name "Lag" then level_at vg name k else cell_at vg name k)
                  = cell_at (df_loc_set (map value_is_zero sep) ["var funct"] VNone
                               (df_loc_set (map value_is_zero pairs) stat_columns VNone vg1))
                            name k).
  { destruct (String.eqb_spec name "Lag") as [->|Hne].
    - apply Hlevel. repeat constructor.
    - apply Hcol. apply list_elem_of_lookup_2 in Hname. unfold names, result_names in Hname.
      destruct (existsb (cell_eq_int 4) _);
        repeat (apply elem_of_cons in Hname as [->|Hname]; [done|]);
        by apply elem_of_nil in Hname. }
  rewrite Hcell.
  rewrite (cleanup_cell _ _ name k Hclean).
  assert (Hz : forall i cname, names !! i = Some cname ->
            zero_at vg1 cname k
            = default false ((fun ln => value_is_zero (default VNone (ln !! i)))
                               <$> data_lines blocks !! k)).
  { intros i cname Hi. unfold zero_at. rewrite (Hcells i cname Hi k).
    by destruct (data_lines blocks !! k). }
  assert (H3 : names !! 3%nat = Some "number of pairs").
  { unfold names, result_names. by destruct (existsb _ _). }
  assert (H1' : names !! 1%nat = Some "average separation").
  { unfold names, result_names. by destruct (existsb _ _). }
  rewrite (Hz _ _ H3), (Hz _ _ H1'), (Hcells j name Hname k).
  destruct (data_lines blocks !! k) as [ln|]; [|done]. reflexivity.
Qed.

(** * Worked calls *)

Lemma sample_holds (pars : list (list cell)) :
  holds (Sample.world_of pars) 0%nat (Sample.config_of pars).
Proof. by repeat split. Qed.

Lemma sample_holds_on (arr : ndarray) (pars : list (list cell)) :
  holds (Sample.world_on arr pars) 0%nat (Sample.config_on arr pars).
Proof. repeat split. by exists arr. Qed.

Lemma sample_well_shaped (pars : list (list cell)) :
  pars <> [] -> Forall (fun r => length r = 4%nat) pars ->
  well_shaped (Sample.config_of pars).
Proof.
  intros H1 H2. repeat split; [done|done|done|].
  by repeat (apply Forall_cons; split; [reflexivity|]).
Qed.

(** With a correlogram among the variograms the table has both variance
    columns. *)
Lemma variance_columns_correlogram :
  exists vg,
    (gamv "posix" (Sample.engine 2) 0%nat None (FBool false)
          (Sample.world_of Sample.with_correlogram)).1 = Ok vg /\
    "variance tail" ∈ col_names vg /\ "variance head" ∈ col_names vg.
Proof.
  eexists. split; [vm_compute; reflexivity|].
  match goal with
  | |- _ ∈ col_names ?vg /\ _ =>
    assert (Hrun : (gamv "posix" (Sample.engine 2) 0%nat None (FBool false)
                         (Sample.world_of Sample.with_correlogram)).1 = Ok vg)
      by (vm_compute; reflexivity)
  end.
  destruct (variance_columns "posix" (Sample.engine 2) 0%nat None (FBool false)
              (Sample.config_of Sample.with_correlogram)
              (Sample.world_of Sample.with_correlogram) _
              (sample_holds _) Hrun) as [[_ H1] [_ H2]].
  split; [apply H1|apply H2];
    (exists [CInt 1; CInt 1; CInt 4; CNone]; split; [apply list_elem_of_here|reflexivity]).
Defined.

(** Two directions and three variograms, one of them a covariance (type
    3): the call succeeds and the table, indexed by variogram, direction
    and lag, has the other five columns of the file and the four label
    columns left, without the variance columns. *)
Lemma covariance_without_variance_columns :
  length Sample.dirs = 2%nat /\
  map (fun r => r !! 2%nat) Sample.with_covariance
  = [Some (CInt 1); Some (CInt 3); Some (CInt 1)] /\
  exists vg,
    (gamv "posix" (Sample.engine 6) 0%nat None (FBool false)
          (Sample.world_of Sample.with_covariance)).1 = Ok vg /\
    nrows vg = 18%nat /\
    map fst (index vg) = ["Variogram"; "Direction"; "Lag"] /\
    col_names vg = ["average separation"; "var funct"; "number of pairs";
                    "mean on tail"; "mean on head"; "tail"; "head"; "type"; "cut"] /\
    bool_decide ("variance tail" ∈ col_names vg) = false /\
    bool_decide ("variance head" ∈ col_names vg) = false.
Proof.
  split; [reflexivity|]. split; [reflexivity|].
  eexists. split; [vm_compute; reflexivity|]. by vm_compute.
Qed.

(** The rows of [Sample.with_cut] pass the checks, the array that goes to
    the parameter file has no cut left, and the table still shows the
    caller's cut. *)
Lemma cutoff_rules_sample :
  check_arrays [4] Sample.dirs Sample.with_cut
  = Ok (MkArr [2; 4]%nat [[CInt 1; CInt 1; CInt 1; CNone]; [CInt 1; CInt 1; CInt 2; CNone]],
        MkArr [2; 6]%nat Sample.dirs) /\
  forall vg k,
    (gamv "posix" (Sample.engine 4) 0%nat None (FBool false)
          (Sample.world_of Sample.with_cut)).1 = Ok vg ->
    (k < nrows vg)%nat ->
    exists v row,
      level_at vg "Variogram" k = Some (VInt (Z.of_nat v)) /\
      Sample.with_cut !! v = Some row /\
      cell_at vg "cut" k = Some (value_of_cell (default CNone (row !! 3%nat))).
Proof.
  assert (Hrows : Forall (row_ok 1) Sample.with_cut).
  { apply Forall_cons; split; [|apply Forall_cons; split; [|apply Forall_nil_2]].
    - exists 1, 1, 1. repeat split; (reflexivity || lia).
    - exists 1, 1, 2. repeat split; (reflexivity || lia). }
  assert (Hshape : well_shaped (Sample.config_of Sample.with_cut)).
  { apply sample_well_shaped; [done|]. by repeat (apply Forall_cons; split; [reflexivity|]). }
  destruct (cutoff_rules "posix" (Sample.engine 4) 0%nat None (FBool false)
              (Sample.config_of Sample.with_cut) (Sample.world_of Sample.with_cut)
              (sample_holds _) eq_refl Hshape Hrows) as (_ & Hb & Hc).
  split; [|exact Hc].
  apply Hb.
  - by repeat (apply Forall_cons; split; [reflexivity|]).
  - by left.
Defined.

(** A semivariogram (type 1) given with the cut 5: validation succeeds, and
    the rows of that variogram carry the cut 5 in the table, not a missing
    value. *)
Lemma cut_column_keeps_caller_value :
  Sample.with_cut !! 0%nat = Some [CInt 1; CInt 1; CInt 1; CInt 5] /\
  exists vg,
    (gamv "posix" (Sample.engine 4) 0%nat None (FBool false)
          (Sample.world_of Sample.with_cut)).1 = Ok vg /\
    level_at vg "Variogram" 0 = Some (VInt 0) /\
    cell_at vg "type" 0 = Some (VInt 1) /\
    cell_at vg "cut" 0 = Some (VInt 5).
Proof.
  split; [reflexivity|]. eexists. split; [vm_compute; reflexivity|]. by vm_compute.
Qed.

(** A table of integers only cannot take the [None] that line 141 assigns. *)
Example integer_cuts_type_error :
  (gamv "posix" (Sample.engine 2) 0%nat None (FBool false)
        (Sample.world_of Sample.all_integers)).1 = Raise TypeError.
Proof. by vm_compute. Qed.

(** An engine that ends with status 1 and [no data] on its standard error. *)
Lemma engine_failure_sample :
  (gamv "posix" Sample.failing 0%nat None (FBool false)
        (Sample.world_of Sample.with_correlogram)).1
  = Raise (NameError "gslib declus NameErrorno data").
Proof.
  edestruct (engine_failure "posix" Sample.failing 0%nat None (FBool false)
               (Sample.world_of Sample.with_correlogram)) as [H _].
  - vm_compute. reflexivity.
  - reflexivity.
  - destruct H as (_ & H & _); [discriminate|].
    destruct (H "no data" eq_refl) as [H1 _]. exact H1.
Defined.

(** An engine that ends with status 1 and leaves the two bytes 80 and ff
    on its standard error: the call ends with the error of the decoding,
    not with a [NameError]. *)
Lemma undecodable_stderr_is_not_name_error :
  (forall argv t, exists p,
     Cases.garbled argv t = Some p /\ returncode p = 1 /\ stderr p = [x80; xff]) /\
  (gamv "posix" Cases.garbled 0%nat None (FBool false)
        (Sample.world_of Sample.with_correlogram)).1 = Raise UnicodeDecodeError.
Proof.
  split; [|by vm_compute]. intros argv t. by eexists.
Qed.

(** A four-column array: the file written first is the one the
    specification describes. *)
Lemma in_memory_data_sample :
  exists evs,
    trace (gamv "posix" (Sample.engine 2) 0%nat None (FBool false)
                (Sample.world_on Sample.samples Sample.with_correlogram)).2
    = EvWrite "_xxx_.in"
        (FLines [LText "temp file "; LText "4"; LText "x"; LText "y"; LText "z"; LText "v1";
                 LNums [0; 0; 0; 1.5]%float; LNums [1; 0; 0; 2.5]%float]) :: evs.
Proof.
  destruct (in_memory_data "posix" (Sample.engine 2) 0%nat
              (Sample.config_on Sample.samples Sample.with_correlogram)
              (Sample.world_on Sample.samples Sample.with_correlogram)
              Sample.samples 2%nat 4%nat (sample_holds_on _ _) eq_refl eq_refl)
    as (_ & H & _).
  exact (H None (FBool false)).
Defined.

(** A two-column array: the file announces two columns and names three. *)
Lemma two_columns_three_names :
  nd_shape Sample.flat_samples = [2; 2]%nat /\
  trace (gamv "posix" (Sample.engine 2) 0%nat None (FBool false)
              (Sample.world_on Sample.flat_samples Sample.with_correlogram)).2
  = [EvWrite "_xxx_.in"
       (FLines [LText "temp file "; LText "2"; LText "x"; LText "y"; LText "z";
                LNums [0; 0]%float; LNums [1; 0]%float])] /\
  spec_data_file "temp file " 2 (nd_rows Sample.flat_samples)
  = [LText "temp file "; LText "2"; LText "x"; LText "y";
     LNums [0; 0]%float; LNums [1; 0]%float] /\
  length (data_file 2 Sample.flat_samples)
  <> length (spec_data_file "temp file " 2 (nd_rows Sample.flat_samples)).
Proof. split; [reflexivity|]. split; [by vm_compute|]. split; [by vm_compute|]. by vm_compute. Qed.

(** The cleaning pass on [Sample.table]: row 0 has no pairs, row 2 is at
    distance zero. *)
Lemma cleanup_rules_sample :
  exists vg',
    cleanup Sample.table = Ok vg' /\
    cell_at vg' "var funct" 0 = Some VNone /\
    cell_at vg' "mean on tail" 0 = Some VNone /\
    cell_at vg' "mean on head" 0 = Some VNone /\
    cell_at vg' "var funct" 2 = Some VNone /\
    cell_at vg' "mean on tail" 2 = Some (VFloat 3).
Proof.
  destruct (cleanup_rules Sample.table
              [VInt 0; VInt 4; VInt 7] [VFloat 0; VFloat 0.5; VInt 0] eq_refl eq_refl)
    as (vg' & Hrun & _ & _ & _ & Hcells).
  exists vg'. split; [exact Hrun|].
  pose proof (Hcells "var funct" 0%nat (VFloat 1) eq_refl) as (H1 & _ & _).
  pose proof (Hcells "mean on tail" 0%nat (VFloat 1) eq_refl) as (H2 & _ & _).
  pose proof (Hcells "mean on head" 0%nat (VFloat 1) eq_refl) as (H3 & _ & _).
  pose proof (Hcells "var funct" 2%nat (VFloat 3) eq_refl) as (_ & H4 & _).
  pose proof (Hcells "mean on tail" 2%nat (VFloat 3) eq_refl) as (_ & _ & H5).
  split; [apply H1; [reflexivity|unfold stat_columns; repeat constructor]|].
  split; [apply H2; [reflexivity|unfold stat_columns; repeat constructor]|].
  split; [apply H3; [reflexivity|unfold stat_columns; repeat constructor]|].
  split; [by apply H4|].
  apply H5; [intros [H _]|intros [_ H]]; discriminate H.
Defined.

(** [silent=True]: the output of the engine is printed all the same. *)
Lemma echo_when_silent :
  invoke (Sample.engine 2) "~/gslib/gamv" "_xxx_.par" (FBool true) (MkWorld [] [])
  = (Ok (MkProc 0 (list_byte_of_string "done") [] (Sample.output 2)),
     MkWorld [] [EvSpawn ["~/gslib/gamv"; "_xxx_.par"]; EvPrint (PStr "done")]).
Proof.
  exact (echo_ignores_silent (Sample.engine 2) "~/gslib/gamv" "_xxx_.par" (MkWorld [] [])
           (MkProc 0 (list_byte_of_string "done") [] (Sample.output 2)) true eq_refl eq_refl).
Defined.

(** A head variable 5 where there is one variable column. *)
Lemma bad_spec_rejected_sample :
  is_raise (gamv "posix" (Sample.engine 2) 0%nat None (FBool false)
                 (Sample.world_of Sample.with_bad_head)).1 = true.
Proof.
  destruct (bad_spec_rejected "posix" (Sample.engine 2) 0%nat None (FBool false)
              (Sample.config_of Sample.with_bad_head) (Sample.world_of Sample.with_bad_head)
              [CInt 1; CInt 5; CInt 1; CNone] (sample_holds _)) as [H _].
  - apply list_elem_of_here.
  - right; left. exists 5. split; [reflexivity|]. cbn. lia.
  - exact H.
Defined.

(** * Worked calls, continued *)

Lemma sample_rows_ok : Forall (row_ok 1) Sample.with_cut.
Proof.
  apply Forall_cons; split; [|apply Forall_cons; split; [|apply Forall_nil_2]].
  - exists 1, 1, 1. repeat split; (reflexivity || lia).
  - exists 1, 1, 2. repeat split; (reflexivity || lia).
Qed.

Lemma sample_rows_wide (pars : list (list cell)) :
  forallb (fun r => Nat.eqb (length r) 4) pars = true ->
  Forall (fun r => length r = 4%nat) pars.
Proof.
  intros H. apply Forall_forall. intros r Hr. apply Nat.eqb_eq.
  rewrite forallb_forall in H. apply H. by apply list_elem_of_In.
Qed.

(** The call of [Sample.with_cut] prints and writes the parameter file and
    then starts [~/gslib/gamv]. *)
Lemma side_effects_sample :
  exists par rest,
    trace (gamv "posix" (Sample.engine 4) 0%nat None (FBool false)
                (Sample.world_of Sample.with_cut)).2
    = [EvPrint (PPar par); EvWrite "_xxx_.par" (FPar par);
       EvSpawn ["~/gslib/gamv"; "_xxx_.par"]] ++ rest.
Proof.
  destruct (side_effects_in_order "posix" (Sample.engine 4) 0%nat None (FBool false)
              (Sample.config_of Sample.with_cut) (Sample.world_of Sample.with_cut)
              (sample_holds _)) as [H|[H|(par & rest & H & _)]].
  - exfalso. vm_compute in H. discriminate H.
  - exfalso. vm_compute in H. discriminate H.
  - exists par, rest. exact H.
Defined.

(** The parameter file of that call. *)
Lemma parameter_file_sample :
  exists par,
    EvWrite "_xxx_.par" (FPar par)
    ∈ trace (gamv "posix" (Sample.engine 4) 0%nat None (FBool false)
                  (Sample.world_of Sample.with_cut)).2 /\
    pf_datafl par = DPath "data.dat" /\ pf_outfl par = Some "_xxx_.out" /\
    pf_nvar par = 1%nat /\ pf_ivar par = "4" /\ pf_ndir par = 2%nat /\ pf_nvarg par = 2%nat /\
    pf_ivpar par = [[CInt 1; CInt 1; CInt 1; CNone]; [CInt 1; CInt 1; CInt 2; CNone]].
Proof.
  eexists. split.
  - vm_compute. apply list_elem_of_further, list_elem_of_here.
  - match goal with
    | |- pf_datafl ?par = _ /\ _ =>
      assert (Ht : trace (gamv "posix" (Sample.engine 4) 0%nat None (FBool false)
                               (Sample.world_of Sample.with_cut)).2
                   = trace (Sample.world_of Sample.with_cut)
                     ++ [EvPrint (PPar par); EvWrite "_xxx_.par" (FPar par);
                         EvSpawn ["~/gslib/gamv"; "_xxx_.par"]; EvPrint (PStr "done")])
        by (vm_compute; reflexivity)
    end.
    pose proof (parameter_file_contents "posix" (Sample.engine 4) 0%nat None (FBool false)
                  (Sample.config_of Sample.with_cut) (Sample.world_of Sample.with_cut)
                  _ _ (sample_holds _) Ht
                  (list_elem_of_further _ _ _ (list_elem_of_here _ _))) as H.
    cbv zeta in H. destruct H as (H1 & _ & H3 & H4 & _ & H6 & _ & _ & _ & H10 & _ & _ & H13 & H14).
    repeat split; assumption.
Defined.

(** Rows of three entries. *)
Lemma table_shapes_sample :
  (gamv "posix" (Sample.engine 2) 0%nat None (FBool false)
        (Sample.world_of Cases.short_rows)).1 = Raise AssertionError.
Proof.
  destruct (table_shapes_checked "posix" (Sample.engine 2) 0%nat None (FBool false)
              (Sample.config_of Cases.short_rows) (Sample.world_of Cases.short_rows) 6%nat
              (sample_holds _) eq_refl) as (_ & H & _).
  - by repeat (apply Forall_cons; split; [reflexivity|]).
  - destruct (H 3%nat) as [H1 _]; [done| |lia|exact H1].
    by repeat (apply Forall_cons; split; [reflexivity|]).
Defined.

(** A tail index that is [None]. *)
Lemma index_check_sample :
  (gamv "posix" (Sample.engine 2) 0%nat None (FBool false)
        (Sample.world_of Cases.none_tail)).1 = Raise TypeError.
Proof.
  destruct (index_check_exceptions "posix" (Sample.engine 2) 0%nat None (FBool false)
              (Sample.config_of Cases.none_tail) (Sample.world_of Cases.none_tail)
              (sample_holds _) eq_refl) as (H & _).
  - apply sample_well_shaped; [done|]. by apply sample_rows_wide.
  - destruct H as [H1 _]; [|exact H1].
    exists [CNone; CInt 1; CInt 1; CNone]. split; [apply list_elem_of_here|reflexivity].
Defined.


(** A one-dimensional array as the data source. *)
Lemma array_dimension_sample :
  (gamv "posix" (Sample.engine 2) 0%nat None (FBool false)
        (Sample.world_on Cases.flat_array Sample.with_correlogram)).1
  = Raise AssertionError /\
  trace (gamv "posix" (Sample.engine 2) 0%nat None (FBool false)
              (Sample.world_on Cases.flat_array Sample.with_correlogram)).2 = [].
Proof.
  destruct (array_dimension_checked "posix" (Sample.engine 2) 0%nat None (FBool false)
              (Sample.config_on Cases.flat_array Sample.with_correlogram)
              (Sample.world_on Cases.flat_array Sample.with_correlogram)
              Cases.flat_array (sample_holds_on _ _) eq_refl) as [H1 H2].
  - cbn. lia.
  - split; [exact H1|exact H2].
Defined.

(** An engine that fails with a standard error that does not decode, and
    a program that cannot be started. *)
Lemma engine_failure_effects_sample :
  (gamv "posix" Cases.garbled 0%nat None (FBool false)
        (Sample.world_of Sample.with_correlogram)).1 = Raise UnicodeDecodeError /\
  (gamv "posix" Cases.missing 0%nat None (FBool false)
        (Sample.world_of Sample.with_correlogram)).1 = Raise OSError.
Proof.
  split.
  - edestruct (engine_failure_effects "posix" Cases.garbled 0%nat None (FBool false)
                 (Sample.world_of Sample.with_correlogram)) as [_ H].
    + vm_compute. reflexivity.
    + destruct (H (MkProc 1 [] [x80; xff] (fun _ => None)) eq_refl) as (_ & _ & H3);
        [discriminate|]. exact (H3 eq_refl).
  - edestruct (engine_failure_effects "posix" Cases.missing 0%nat None (FBool false)
                 (Sample.world_of Sample.with_correlogram)) as [H _].
    + vm_compute. reflexivity.
    + by rewrite (H eq_refl).
Defined.

(** The same call, silent and not. *)
Lemma silent_only_prints_sample :
  (gamv "posix" (Sample.engine 4) 0%nat None (FBool true)
        (Sample.world_of Sample.with_cut)).1
  = (gamv "posix" (Sample.engine 4) 0%nat None (FBool false)
          (Sample.world_of Sample.with_cut)).1.
Proof.
  exact (proj1 (silent_only_prints "posix" (Sample.engine 4) 0%nat None (FBool true)
                  (FBool false) (Sample.config_of Sample.with_cut)
                  (Sample.world_of Sample.with_cut) (sample_holds _))).
Defined.

(** [silent = -1]: nothing is printed after the engine has run. *)
Lemma echo_suppressed_sample :
  trace (invoke (Sample.engine 2) "~/gslib/gamv" "_xxx_.par" (FInt (-1)) (MkWorld [] [])).2
  = [EvSpawn ["~/gslib/gamv"; "_xxx_.par"]].
Proof.
  exact (proj2 (echo_suppressed_by_minus_one (Sample.engine 2) "~/gslib/gamv" "_xxx_.par"
                  (FInt (-1)) (MkWorld [] [])
                  (MkProc 0 (list_byte_of_string "done") [] (Sample.output 2))
                  eq_refl eq_refl) (or_introl eq_refl)).
Defined.

(** An engine that leaves three blocks where four are expected. *)
Lemma output_file_sample :
  (gamv "posix" (Sample.engine 3) 0%nat None (FBool false)
        (Sample.world_of Sample.with_cut)).1 = Raise ValueError.
Proof.
  edestruct (output_file_problems "posix" (Sample.engine 3) 0%nat None (FBool false)
               (Sample.config_of Sample.with_cut) (Sample.world_of Sample.with_cut))
    as (_ & _ & H).
  - apply sample_holds.
  - reflexivity.
  - vm_compute. reflexivity.
  - reflexivity.
  - reflexivity.
  - apply (H (layout (replicate 3 Sample.block)) eq_refl); [cbn; lia| | |].
    + apply Forall_forall. intros ln Hln. vm_compute in Hln.
      repeat (apply elem_of_cons in Hln as [->|Hln]; [vm_compute; lia|]).
      by apply elem_of_nil in Hln.
    + vm_compute. discriminate.
    + vm_compute. lia.
Defined.

(** The table of the call of [Sample.with_cut]. *)
Lemma returned_table_sample :
  exists vg,
    (gamv "posix" (Sample.engine 4) 0%nat None (FBool false)
          (Sample.world_of Sample.with_cut)).1 = Ok vg /\
    map fst (index vg) = ["Variogram"; "Direction"; "Lag"] /\ nrows vg = 12%nat /\
    col_names vg = ["average separation"; "var funct"; "number of pairs";
                    "mean on tail"; "mean on head"; "tail"; "head"; "type"; "cut"].
Proof.
  eexists. split; [vm_compute; reflexivity|].
  match goal with
  | |- map fst (index ?vg) = _ /\ _ =>
    assert (Hrun : (gamv "posix" (Sample.engine 4) 0%nat None (FBool false)
                         (Sample.world_of Sample.with_cut)).1 = Ok vg)
      by (vm_compute; reflexivity)
  end.
  destruct (returned_table_shape "posix" (Sample.engine 4) 0%nat None (FBool false)
              (Sample.config_of Sample.with_cut) (Sample.world_of Sample.with_cut) _
              (sample_holds _) Hrun) as (H1 & H2 & _ & H4 & _).
  split; [exact H1|]. split; [exact H4|exact H2].
Defined.

(** Its first row has no pairs. *)
Lemma returned_table_clean_sample :
  exists vg,
    (gamv "posix" (Sample.engine 4) 0%nat None (FBool false)
          (Sample.world_of Sample.with_cut)).1 = Ok vg /\
    cell_at vg "number of pairs" 0 = Some (VInt 0) /\
    cell_at vg "var funct" 0 = Some VNone /\
    cell_at vg "mean on tail" 0 = Some VNone /\
    cell_at vg "mean on head" 0 = Some VNone.
Proof.
  eexists. split; [vm_compute; reflexivity|]. split; [reflexivity|].
  match goal with
  | |- cell_at ?vg _ _ = _ /\ _ =>
    assert (Hrun : (gamv "posix" (Sample.engine 4) 0%nat None (FBool false)
                         (Sample.world_of Sample.with_cut)).1 = Ok vg)
      by (vm_compute; reflexivity)
  end.
  destruct (returned_table_clean "posix" (Sample.engine 4) 0%nat None (FBool false)
              (Sample.config_of Sample.with_cut) (Sample.world_of Sample.with_cut) _ 0%nat
              (sample_holds _) Hrun) as [H _].
  exact (H eq_refl).
Defined.

(** The call of [Sample.with_cut] goes through, and its table has the lag
    numbers of the file. *)
Lemma successful_call_sample :
  exists vg,
    (gamv "posix" (Sample.engine 4) 0%nat None (FBool false)
          (Sample.world_of Sample.with_cut)).1 = Ok vg /\
    level_at vg "Lag" 4 = Some (VInt 2) /\ cell_at vg "var funct" 4 = Some (VFloat 1.5) /\
    cell_at vg "var funct" 3 = Some VNone.
Proof.
  edestruct (successful_call "posix" (Sample.engine 4) 0%nat None (FBool false)
               (Sample.config_of Sample.with_cut) (Sample.world_of Sample.with_cut))
    as (vg & Hvg & Hcells).
  - apply sample_holds.
  - reflexivity.
  - vm_compute. reflexivity.
  - reflexivity.
  - reflexivity.
  - instantiate (1 := replicate 4 Sample.block). reflexivity.
  - cbn. lia.
  - reflexivity.
  - by repeat (apply Forall_cons; split; [reflexivity|]).
  - apply Forall_forall. intros ln Hln. vm_compute in Hln.
    repeat (apply elem_of_cons in Hln as [->|Hln]; [split; [done|vm_compute; lia]|]).
    by apply elem_of_nil in Hln.
  - exists vg. split; [exact Hvg|].
    split; [exact (Hcells 0%nat "Lag" eq_refl 4%nat)|].
    split; [exact (Hcells 2%nat "var funct" eq_refl 4%nat)|].
    exact (Hcells 2%nat "var funct" eq_refl 3%nat).
Defined.
